(** * The dive planner of Subsurface (planner.c): model and properties

    A shallow embedding of [planner.c].  C [int] values are integers of [Z];
    signed overflow is undefined behaviour in C and the development speaks of
    the executions in which it does not occur.  C [/] on [int] is [Z.quot].
    An array is a list read by index; a read or a store outside the array is
    undefined behaviour and makes the modelled function return [None] (or
    stop with [Undefined_behaviour] in [plan]; for the cylinder array see
    [cyl_at]). *)

From Stdlib Require Import String Ascii.
From Stdlib Require Import ZArith List Lia Bool Sorted Permutation.
Import ListNotations.
Open Scope Z_scope.

(** ** Small C vocabulary *)

(** The option monad threads undefined behaviour and, for loops, the fuel. *)
Definition obind {A B : Type} (o : option A) (k : A -> option B) : option B :=
  match o with
  | Some a => k a
  | None => None
  end.

Notation "x <- o ;; k" := (obind o (fun x => k))
  (at level 61, o at next level, right associativity).
Notation "' p <- o ;; k" := (obind o (fun x => let p := x in k))
  (at level 61, p pattern, o at next level, right associativity).

(** [a[i]] for a C array held as a list. *)
Definition rd {A : Type} (a : list A) (i : Z) : option A :=
  if i <? 0 then None else nth_error a (Z.to_nat i).

(** ** Stop levels *)

Definition TIMESTEP : Z := 1.
Definition DECOTIMESTEP : Z := 60.

Definition decostoplevels : list Z :=
  [ 0; 3000; 6000; 9000; 12000; 15000; 18000; 21000; 24000; 27000;
    30000; 33000; 36000; 39000; 42000; 45000; 48000; 51000; 54000; 57000;
    60000; 63000; 66000; 69000; 72000; 75000; 78000; 81000; 84000; 87000;
    90000; 100000; 110000; 120000; 130000; 140000; 150000; 160000; 170000;
    180000; 190000; 200000; 220000; 240000; 260000; 280000; 300000;
    320000; 340000; 360000; 380000 ].

(** [struct gaschanges] *)
Record gaschanges : Type := mk_gaschanges {
  gc_depth : Z;   (* depth *)
  gasidx : Z
}.

(** *** sort_stops

    [stoplevels] is filled from its last slot downwards: every store is
    [stoplevels[i] = v] followed by [i--] (or [stoplevels[i--] = v]).  The
    state of the loops is the index [i] together with the slots above [i],
    that is [stoplevels[i+1 .. total-1]], in array order. *)

(** [stoplevels[i--] = v] *)
Definition store_down (i v : Z) (hi : list Z) : option (Z * list Z) :=
  if i <? 0 then None else Some (i - 1, v :: hi).

(** [while (gi >= 0) stoplevels[i--] = gstops[gi--].depth;] *)
Fixpoint drain_gstops (fuel : nat) (gstops : list gaschanges) (i gi : Z)
    (hi : list Z) : option (Z * list Z) :=
  match fuel with
  | O => None
  | S fuel' =>
      if gi >=? 0 then
        g <- rd gstops gi ;;
        '(i', hi') <- store_down i (gc_depth g) hi ;;
        drain_gstops fuel' gstops i' (gi - 1) hi'
      else Some (i, hi)
  end.

(** [while (di >= 0) stoplevels[i--] = dstops[di--];] *)
Fixpoint drain_dstops (fuel : nat) (dstops : list Z) (i di : Z)
    (hi : list Z) : option (Z * list Z) :=
  match fuel with
  | O => None
  | S fuel' =>
      if di >=? 0 then
        d <- rd dstops di ;;
        '(i', hi') <- store_down i d hi ;;
        drain_dstops fuel' dstops i' (di - 1) hi'
      else Some (i, hi)
  end.

(** The merging [while (i >= 0)] loop with its two [break]s. *)
Fixpoint merge_loop (fuel : nat) (dstops : list Z) (gstops : list gaschanges)
    (i gi di : Z) (hi : list Z) : option (Z * list Z) :=
  match fuel with
  | O => None
  | S fuel' =>
      if i >=? 0 then
        d <- rd dstops di ;;
        g <- rd gstops gi ;;
        let '(v, di', gi') :=
          if d >? gc_depth g then (d, di - 1, gi)
          else if d =? gc_depth g then (d, di - 1, gi - 1)
          else (gc_depth g, di, gi - 1) in
        '(i', hi') <- store_down i v hi ;;
        if di' <? 0 then drain_gstops fuel' gstops i' gi' hi'
        else if gi' <? 0 then drain_dstops fuel' dstops i' di' hi'
        else merge_loop fuel' dstops gstops i' gi' di' hi'
      else Some (i, hi)
  end.

(** [while (i >= 0) stoplevels[i--] = 0;] *)
Fixpoint zero_fill (fuel : nat) (i : Z) (hi : list Z) : option (list Z) :=
  match fuel with
  | O => None
  | S fuel' =>
      if i >=? 0 then
        '(i', hi') <- store_down i 0 hi ;;
        zero_fill fuel' i' hi'
      else Some hi
  end.

(** [memcpy(stoplevels, dstops, dnr * sizeof(int))] into the fresh array. *)
Definition memcpy_ints (src : list Z) (n : Z) : option (list Z) :=
  if (0 <=? n) && (n <=? Z.of_nat (length src))
  then Some (firstn (Z.to_nat n) src) else None.

Definition sort_stops (dstops : list Z) (dnr : Z) (gstops : list gaschanges)
    (gnr : Z) : option (list Z) :=
  let total := dnr + gnr in
  if gnr =? 0 then memcpy_ints dstops dnr
  else
    let fuel := S (Z.to_nat total) in
    '(i, hi) <- merge_loop fuel dstops gstops (total - 1) (gnr - 1) (dnr - 1) [] ;;
    zero_fill fuel i hi.

(** The array of gas changes for a list of depths (the index is irrelevant to
    [sort_stops]). *)
Definition gstops_of (depths : list Z) : list gaschanges :=
  map (fun d => mk_gaschanges d 0) depths.


(** ** Gas mixes, cylinders, samples, events *)

(** [struct gasmix]: [o2.permille], [he.permille]. *)
Record gasmix : Type := mk_gasmix {
  o2_permille : Z;
  he_permille : Z
}.

Definition O2_IN_AIR : Z := 209.

(** [cylinder_t]: [type.size.mliter], [type.workingpressure.mbar],
    [type.description] (a null pointer is [None]), [gasmix], [start.mbar],
    [end.mbar], [gas_used.mliter], [depth.mm]. *)
Record cylinder_t : Type := mk_cylinder {
  size_mliter : Z;
  workingpressure_mbar : Z;
  description : option (list ascii);
  cyl_gasmix : gasmix;
  start_mbar : Z;
  end_mbar : Z;
  gas_used_mliter : Z;
  cyl_depth_mm : Z
}.

Definition zero_cylinder : cylinder_t :=
  mk_cylinder 0 0 None (mk_gasmix 0 0) 0 0 0 0.

(** [struct sample], the fields the planner writes: [time.seconds],
    [depth.mm], [po2], [cylinderpressure.mbar]. *)
Record sample : Type := mk_sample {
  s_time : Z;
  s_depth : Z;
  s_po2 : Z;
  s_cylinderpressure : Z
}.

(** [struct event]: [time.seconds], [type], [flags], [value], [name]. *)
Record event : Type := mk_event {
  ev_time : Z;
  ev_type : Z;
  ev_flags : Z;
  ev_value : Z;
  ev_name : list ascii
}.

(** [struct dive] with its one dive computer [dc]. *)
Record dive : Type := mk_dive {
  when : Z;
  dc_surface_pressure : Z;       (* dc.surface_pressure.mbar *)
  dc_model : list ascii;         (* dc.model *)
  dc_sample : list sample;       (* dc.sample[0 .. dc.samples-1] *)
  dc_events : list event;        (* dc.events, in list order *)
  cylinder : list cylinder_t;    (* cylinder[MAX_CYLINDERS] *)
  notes : option (list ascii)
}.

(** [struct divedatapoint]; the [next] pointers are the list order. *)
Record divedatapoint : Type := mk_dp {
  dp_time : Z;
  dp_depth : Z;
  dp_gasmix : gasmix;
  dp_po2 : Z;
  dp_entered : bool
}.

(** [struct diveplan]. *)
Record diveplan : Type := mk_diveplan {
  plan_when : Z;
  surface_pressure : Z;
  bottomsac : Z;
  decosac : Z;
  gflow : Z;
  gfhigh : Z;
  dp : list divedatapoint
}.

(** What [report_error] and the [fprintf(stderr, ...)] of
    [verify_gas_exists] are called with. *)
Inductive report : Type :=
| Cant_find_gas (g : gasmix)            (* "Can't find gas %s" *)
| Too_many_gas_mixes                    (* "Too many gas mixes" *)
| Gas_not_on_cylinder_list (g : gasmix). (* stderr: "this gas %s should have been ..." *)

(** ** The code around planner.c

    [planner.c] calls into [dive.h]/[dive.c], [deco.c], [divelist.c] and the
    C library's floating point, none of which belongs to the sources here.
    They are parameters of the model.  [real] stands for C [double]; the
    decompression model keeps its tissues in globals, which are the explicit
    [deco_state]; the table of dives of [divelist.c] is [dive_table_t]. *)
Class DiveLib : Type := {
  MAX_CYLINDERS : Z;
  SAMPLE_EVENT_PO2 : Z;
  gf_low_at_maxdepth : bool;                 (* default_prefs.gf_low_at_maxdepth *)
  (* dive.h *)
  gasmix_distance : gasmix -> gasmix -> Z;
  gasmix_is_null : gasmix -> bool;
  cylinder_nodata : cylinder_t -> bool;
  get_gasmix_from_event : event -> gasmix;
  interpolate : Z -> Z -> Z -> Z -> Z;
  prepare_sample : list sample -> sample;    (* the fresh slot after the samples *)
  indeterminate_int : Z;                     (* an uninitialised int *)
  depth_to_mbar : Z -> dive -> Z;
  average_depth : diveplan -> Z;
  reset_cylinders : dive -> dive;
  add_event : list event -> Z -> Z -> Z -> Z -> list ascii -> list event;
  add_gas_switch_event : dive -> list event -> Z -> Z -> list event;
  (* double *)
  real : Type;
  indeterminate : real;                      (* an uninitialised double *)
  real_of_int : Z -> real;
  int_of_real : real -> Z;
  rmul : real -> real -> real;
  rdiv : real -> real -> real;
  depth_to_atm : Z -> dive -> real;
  (* deco.c *)
  deco_state : Type;
  snapshot : Type;
  set_gf : Z -> Z -> bool -> deco_state -> deco_state;
  init_decompression : dive -> deco_state -> deco_state * real;
  add_segment : real -> gasmix -> Z -> Z -> dive -> deco_state -> deco_state * real;
  deco_allowed_depth : real -> real -> dive -> bool -> deco_state -> Z;
                                             (* a depth in mm, compared as int *)
  cache_deco_state : real -> option snapshot -> deco_state -> option snapshot;
  restore_deco_state : option snapshot -> deco_state -> deco_state * real;
  (* divelist.c *)
  dive_table_t : Type;
  dive_table_nr : dive_table_t -> Z;
  delete_single_dive : Z -> dive_table_t -> dive_table_t;
  record_dive : dive -> dive_table_t -> dive_table_t;
  (* add_plan_to_notes: the text it formats *)
  plan_notes_text : diveplan -> dive -> bool -> list ascii
}.

(** [SURFACE_PRESSURE] of dive.h.
    Modelled from the spec: the header is missing; the spec gives the default
    surface pressure as 1013 mbar. *)
Definition SURFACE_PRESSURE : Z := 1013.

Definition str (s : string) : list ascii := list_ascii_of_string s.

Section Planner.
Context {L : DiveLib}.

(** [dive->cylinder[i]]; outside the array the C read is undefined and the
    model reads a zeroed cylinder. *)
Definition cyl_at (d : dive) (i : Z) : cylinder_t :=
  match rd (cylinder d) i with
  | Some c => c
  | None => zero_cylinder
  end.

(** [array[i] = v] on a list; outside the array nothing is stored. *)
Fixpoint list_set {A : Type} (l : list A) (n : nat) (v : A) : list A :=
  match l, n with
  | [], _ => []
  | _ :: t, O => v :: t
  | h :: t, S n' => h :: list_set t n' v
  end.

Definition set_cylinder (d : dive) (i : Z) (c : cylinder_t) : dive :=
  mk_dive (when d) (dc_surface_pressure d) (dc_model d) (dc_sample d)
    (dc_events d)
    (if i <? 0 then cylinder d else list_set (cylinder d) (Z.to_nat i) c)
    (notes d).

(** *** get_gas_from_events *)

(** [!strcmp(event->name, "gaschange")] *)
Definition is_gaschange (e : event) : bool :=
  if list_eq_dec ascii_dec (ev_name e) (str "gaschange") then true else false.

Fixpoint get_gas_from_events (events : list event) (time : Z) (gas : gasmix)
    : gasmix :=
  match events with
  | [] => gas
  | e :: next =>
      if ev_time e <=? time then
        get_gas_from_events next time
          (if is_gaschange e then get_gasmix_from_event e else gas)
      else gas
  end.

(** *** get_gasidx *)

(** The [while (++gasidx < MAX_CYLINDERS)] loop, entered at [gasidx] with
    [n] indices left below [MAX_CYLINDERS]. *)
Fixpoint get_gasidx_from (n : nat) (gasidx : Z) (d : dive) (mix : gasmix) : Z :=
  match n with
  | O => -1
  | S n' =>
      if gasmix_distance (cyl_gasmix (cyl_at d gasidx)) mix <? 200
      then gasidx
      else get_gasidx_from n' (gasidx + 1) d mix
  end.

Definition get_gasidx (d : dive) (mix : gasmix) : Z :=
  get_gasidx_from (Z.to_nat MAX_CYLINDERS) 0 d mix.

(** *** verify_gas_exists *)

Fixpoint verify_gas_exists_from (n : nat) (i : Z) (d : dive) (mix_in : gasmix)
    : Z :=
  match n with
  | O => -1
  | S n' =>
      let cyl := cyl_at d i in
      if cylinder_nodata cyl then verify_gas_exists_from n' (i + 1) d mix_in
      else if gasmix_distance (cyl_gasmix cyl) mix_in <? 200 then i
      else verify_gas_exists_from n' (i + 1) d mix_in
  end.

(** The result and what goes to [stderr]. *)
Definition verify_gas_exists (d : dive) (mix_in : gasmix) : Z * list report :=
  let i := verify_gas_exists_from (Z.to_nat MAX_CYLINDERS) 0 d mix_in in
  (i, if i =? -1 then [Gas_not_on_cylinder_list mix_in] else []).

(** *** interpolate_transition *)

(** [depth_to_mbar(depth, dive) / 1000.0] *)
Definition depth_to_bar (depth : Z) (d : dive) : real :=
  rdiv (real_of_int (depth_to_mbar depth d)) (real_of_int 1000).

(** The [for (j = t0; j < t1; j++)] loop with [n] iterations left. *)
Fixpoint interpolate_transition_from (n : nat) (j : Z) (d : dive)
    (t0 t1 d0 d1 : Z) (mix : gasmix) (ppo2 : Z)
    (st : deco_state * real) : deco_state * real :=
  match n with
  | O => st
  | S n' =>
      let depth := interpolate d0 d1 (j - t0) (t1 - t0) in
      interpolate_transition_from n' (j + 1) d t0 t1 d0 d1 mix ppo2
        (add_segment (depth_to_bar depth d) mix 1 ppo2 d (fst st))
  end.

Definition interpolate_transition (d : dive) (t0 t1 d0 d1 : Z) (mix : gasmix)
    (ppo2 : Z) (ds : deco_state) : deco_state * real :=
  interpolate_transition_from (Z.to_nat (t1 - t0)) t0 d t0 t1 d0 d1 mix ppo2
    (ds, indeterminate).

(** *** tissue_at_end *)

(** One round of the [for] loop over the samples. *)
Definition tissue_at_end_sample (d : dive) (i : Z) (psample smp : sample)
    (t0 lastdepth : Z) (gas : gasmix) (ds : deco_state) (log : list report)
    : Z * Z * gasmix * (deco_state * real) * list report :=
  let t1 := s_time smp in
  let gas := get_gas_from_events (dc_events d) t0 gas in
  let gasidx := get_gasidx d gas in
  let '(gasidx, log) :=
    if gasidx =? -1 then (0, log ++ [Cant_find_gas gas]) else (gasidx, log) in
  let lastdepth := if i >? 0 then s_depth psample else lastdepth in
  let st := interpolate_transition d t0 t1 lastdepth (s_depth smp)
              (cyl_gasmix (cyl_at d gasidx)) (s_po2 smp) ds in
  (t1, lastdepth, gas, st, log).

Fixpoint tissue_at_end_loop (d : dive) (samples : list sample) (i : Z)
    (psample : sample) (t0 lastdepth : Z) (gas : gasmix)
    (st : deco_state * real) (log : list report)
    : (deco_state * real) * list report :=
  match samples with
  | [] => (st, log)
  | smp :: rest =>
      let '(t0, lastdepth, gas, st, log) :=
        tissue_at_end_sample d i psample smp t0 lastdepth gas (fst st) log in
      tissue_at_end_loop d rest (i + 1) smp t0 lastdepth gas st log
  end.

(** Returns the tissue tolerance; the globals of the decompression model,
    [*cached_datap] and the reported errors are threaded. *)
Definition tissue_at_end (d : option dive) (cached_datap : option snapshot)
    (ds : deco_state) (log : list report)
    : real * option snapshot * deco_state * list report :=
  match d with
  | None => (real_of_int 0, cached_datap, ds, log)
  | Some d =>
      let '(ds, tissue_tolerance, cached_datap) :=
        match cached_datap with
        | Some _ =>
            let '(ds, t) := restore_deco_state cached_datap ds in
            (ds, t, cached_datap)
        | None =>
            let '(ds, t) := init_decompression d ds in
            (ds, t, cache_deco_state t cached_datap ds)
        end in
      match dc_sample d with
      | [] => (tissue_tolerance, cached_datap, ds, log)
      | first :: _ =>
          let '(st, log) :=
            tissue_at_end_loop d (dc_sample d) 0 first 0 0
              (cyl_gasmix (cyl_at d 0)) (ds, tissue_tolerance) log in
          (snd st, cached_datap, fst st, log)
      end
  end.

(** *** update_cylinder_pressure *)

Definition update_cylinder_pressure (d : dive) (old_depth new_depth duration
    sac : Z) (cyl : cylinder_t) : cylinder_t :=
  let mean_depth := Z.quot (old_depth + new_depth) 2 in
  let gas_used :=
    int_of_real
      (rmul (rdiv (rmul (depth_to_atm mean_depth d) (real_of_int sac))
                  (real_of_int 60))
            (real_of_int duration)) in
  let used := gas_used_mliter cyl + gas_used in
  let end_p :=
    if size_mliter cyl =? 0 then end_mbar cyl
    else
      end_mbar cyl
      - int_of_real (rdiv (rmul (real_of_int gas_used) (real_of_int 1000))
                          (real_of_int (size_mliter cyl))) in
  mk_cylinder (size_mliter cyl) (workingpressure_mbar cyl) (description cyl)
    (cyl_gasmix cyl) (start_mbar cyl) end_p used (cyl_depth_mm cyl).

(** *** alloc_dive, copy_cylinders (dive.c) *)

(** Modelled from the spec: dive.c is missing.  The dive record that the
    way points are turned into starts without samples and events (the spec
    counts the samples that the run produced), with the cylinder array
    zeroed. *)
Definition alloc_dive : dive :=
  mk_dive 0 0 [] [] [] (repeat zero_cylinder (Z.to_nat MAX_CYLINDERS)) None.

(** Modelled from the spec: dive.c is missing.  The run works on its own copy
    of the cylinder inventory. *)
Definition copy_cylinders (s d : dive) : dive :=
  mk_dive (when d) (dc_surface_pressure d) (dc_model d) (dc_sample d)
    (dc_events d) (cylinder s) (notes d).

(** *** create_dive_from_plan *)

(** Where the local [cyl] points: into [master_dive->cylinder] at first,
    into [dive->cylinder] after a gas switch. *)
Inductive cyl_ref : Type :=
| Master_cyl (i : Z)
| Dive_cyl (i : Z).

Record cdp_state : Type := mk_cdp {
  c_dive : dive;
  c_master : dive;
  c_cyl : cyl_ref;
  c_oldgasmix : gasmix;
  c_oldpo2 : Z;
  c_lasttime : Z;
  c_lastdepth : Z;
  c_log : list report
}.

Definition set_samples (d : dive) (l : list sample) : dive :=
  mk_dive (when d) (dc_surface_pressure d) (dc_model d) l (dc_events d)
    (cylinder d) (notes d).

Definition set_events (d : dive) (l : list event) : dive :=
  mk_dive (when d) (dc_surface_pressure d) (dc_model d) (dc_sample d) l
    (cylinder d) (notes d).

(** [sample[-1].po2 = po2] with [sample] the fresh slot. *)
Fixpoint set_last_po2 (po2 : Z) (l : list sample) : list sample :=
  match l with
  | [] => []
  | [x] => [mk_sample (s_time x) (s_depth x) po2 (s_cylinderpressure x)]
  | x :: t => x :: set_last_po2 po2 t
  end.

Definition last_sample (d : dive) : sample :=
  last (dc_sample d) (prepare_sample []).

Definition deref_cyl (s : cdp_state) : cylinder_t :=
  match c_cyl s with
  | Master_cyl i => cyl_at (c_master s) i
  | Dive_cyl i => cyl_at (c_dive s) i
  end.

Definition set_log (s : cdp_state) (log : list report) : cdp_state :=
  mk_cdp (c_dive s) (c_master s) (c_cyl s) (c_oldgasmix s) (c_oldpo2 s)
    (c_lasttime s) (c_lastdepth s) log.

(** A way point with [time != 0]; [inr] is the jump to [gas_error_exit]. *)
Definition cdp_segment (plan : diveplan) (p : divedatapoint) (s : cdp_state)
    : cdp_state + cdp_state :=
  let gasmix0 := dp_gasmix p in
  let po2 := dp_po2 p in
  let time := dp_time p in
  let depth := dp_depth p in
  let gasmix := if gasmix_is_null gasmix0 then c_oldgasmix s else gasmix0 in
  (* Check for SetPoint change *)
  let d := c_dive s in
  let d :=
    if negb (c_oldpo2 s =? po2) && negb (c_lasttime s =? 0)
    then set_events d
           (add_event (dc_events d) (c_lasttime s) SAMPLE_EVENT_PO2 0 po2
              (str "SP change"))
    else d in
  (* Make sure we have the new gas, and create a gas change event *)
  let switched :=
    if gasmix_distance gasmix (c_oldgasmix s) >? 0 then
      let '(idx, err) := verify_gas_exists d gasmix in
      if idx <? 0 then inr (set_log s (c_log s ++ err))
      else
        let d := set_events d
                   (add_gas_switch_event d (dc_events d) (c_lasttime s + 1) idx) in
        (* need to insert a first sample for the new gas *)
        let fresh := prepare_sample (dc_sample d) in
        let d := set_samples d
                   (set_last_po2 po2 (dc_sample d)
                    ++ [mk_sample (c_lasttime s + 1) (c_lastdepth s)
                          (s_po2 fresh) (s_cylinderpressure fresh)]) in
        inl (d, Dive_cyl idx, gasmix)
    else inl (d, c_cyl s, c_oldgasmix s) in
  match switched with
  | inr s' => inr s'
  | inl (d, cyl, oldgasmix) =>
      (* Create sample *)
      let prev := last_sample d in
      let s1 := mk_cdp d (c_master s) cyl oldgasmix po2 time depth (c_log s) in
      let c := update_cylinder_pressure d (s_depth prev) depth
                 (time - s_time prev)
                 (if dp_entered p then bottomsac plan else decosac plan)
                 (deref_cyl s1) in
      let '(d, master) :=
        match cyl with
        | Master_cyl i => (d, set_cylinder (c_master s) i c)
        | Dive_cyl i => (set_cylinder d i c, c_master s)
        end in
      let d := set_samples d
                 (set_last_po2 po2 (dc_sample d)
                  ++ [mk_sample time depth po2 (end_mbar c)]) in
      inl (mk_cdp d master cyl oldgasmix po2 time depth (c_log s))
  end.

(** The [while (dp)] loop. *)
Fixpoint cdp_loop (plan : diveplan) (l : list divedatapoint) (s : cdp_state)
    : cdp_state + cdp_state :=
  match l with
  | [] => inl s
  | p :: next =>
      if dp_time p =? 0 then
        (* special entries that just inform the algorithm about additional
           gases that are available *)
        let '(idx, err) := verify_gas_exists (c_dive s) (dp_gasmix p) in
        if idx <? 0 then inr (set_log s (c_log s ++ err))
        else cdp_loop plan next s
      else
        match cdp_segment plan p s with
        | inl s' => cdp_loop plan next s'
        | inr s' => inr s'
        end
  end.

(** The dive (or NULL), [master_dive] after the call, the reports. *)
Definition create_dive_from_plan (plan : diveplan) (master_dive : dive)
    (log : list report) : option dive * dive * list report :=
  match dp plan with
  | [] => (None, master_dive, log)
  | first :: _ =>
      let d := alloc_dive in
      let d := mk_dive (plan_when plan) (surface_pressure plan)
                 (str "planned dive") (dc_sample d) (dc_events d)
                 (cylinder d) (notes d) in
      let d := copy_cylinders master_dive d in
      (* reset the end pressure values and start with the gas on the first
         cylinder *)
      let master_dive := reset_cylinders master_dive in
      let fresh := prepare_sample (dc_sample d) in
      let d := set_samples d
                 (dc_sample d
                  ++ [mk_sample (s_time fresh) (s_depth fresh) (dp_po2 first)
                        (s_cylinderpressure fresh)]) in
      let s0 := mk_cdp d master_dive (Master_cyl 0)
                  (cyl_gasmix (cyl_at master_dive 0)) 0 0 0 log in
      match cdp_loop plan (dp plan) s0 with
      | inr s => (None, c_master s, c_log s ++ [Too_many_gas_mixes])
      | inl s =>
          if Z.of_nat (length (dc_sample (c_dive s))) <=? 1
          then (None, c_master s, c_log s)
          else (Some (c_dive s), c_master s, c_log s)
      end
  end.

(** ** The way points of a plan *)

Definition set_dp (plan : diveplan) (l : list divedatapoint) : diveplan :=
  mk_diveplan (plan_when plan) (surface_pressure plan) (bottomsac plan)
    (decosac plan) (gflow plan) (gfhigh plan) l.

Definition create_dp (time_incr depth : Z) (gasmix : gasmix) (po2 : Z)
    : divedatapoint :=
  mk_dp time_incr depth gasmix po2 false.

(** The [lasttime] that the walk to the end of the list computes. *)
Fixpoint walk_lasttime (l : list divedatapoint) (lasttime : Z) : Z :=
  match l with
  | [] => lasttime
  | ldp :: next =>
      walk_lasttime next
        (if dp_time ldp >? lasttime then dp_time ldp else lasttime)
  end.

Definition add_to_end_of_diveplan (plan : diveplan) (p : divedatapoint)
    : diveplan :=
  let lasttime := walk_lasttime (dp plan) 0 in
  let ldp_is_null := match dp plan with [] => true | _ => false end in
  let p' :=
    if negb ldp_is_null && negb (dp_time p =? 0)
    then mk_dp (dp_time p + lasttime) (dp_depth p) (dp_gasmix p) (dp_po2 p)
           (dp_entered p)
    else p in
  set_dp plan (dp plan ++ [p']).

(** The plan after the call; the returned pointer is to its last way point. *)
Definition plan_add_segment (plan : diveplan) (duration depth : Z)
    (gasmix : gasmix) (po2 : Z) (entered : bool) : diveplan :=
  let p := create_dp duration depth gasmix po2 in
  let p := mk_dp (dp_time p) (dp_depth p) (dp_gasmix p) (dp_po2 p) entered in
  add_to_end_of_diveplan plan p.

(** [diveplan_empty], for a plan that is not NULL. *)
Definition diveplan_empty (plan : diveplan) : bool :=
  forallb (fun p => dp_time p =? 0) (dp plan).

(** [set_last_stop] writes the global [decostoplevels[1]]. *)
Definition set_last_stop (last_stop_6m : bool) (levels : list Z) : list Z :=
  list_set levels 1 (if last_stop_6m then 6000 else 3000).

(** *** analyze_gaslist *)

(** The insertion into the array that [realloc] grew by one: before the first
    entry that is deeper. *)
Fixpoint insert_gaschange (g : gaschanges) (l : list gaschanges)
    : list gaschanges :=
  match l with
  | [] => [g]
  | h :: t =>
      if gc_depth g <? gc_depth h then g :: h :: t
      else h :: insert_gaschange g t
  end.

(** [None] is the failing [assert]. *)
Fixpoint analyze_gaslist_loop (l : list divedatapoint) (d : dive) (depth : Z)
    (changes : list gaschanges) (best_depth asc_cylinder : Z)
    : option (list gaschanges * Z) :=
  match l with
  | [] => Some (changes, asc_cylinder)
  | p :: next =>
      if dp_time p =? 0 then
        let gas := dp_gasmix p in
        if dp_depth p <=? depth then
          let idx := get_gasidx d gas in
          if idx =? -1 then None
          else
            analyze_gaslist_loop next d depth
              (insert_gaschange (mk_gaschanges (dp_depth p) idx) changes)
              best_depth asc_cylinder
        else
          (* is there a better mix to start deco? *)
          if dp_depth p <? best_depth
          then analyze_gaslist_loop next d depth changes (dp_depth p)
                 (get_gasidx d gas)
          else analyze_gaslist_loop next d depth changes best_depth
                 asc_cylinder
      else analyze_gaslist_loop next d depth changes best_depth asc_cylinder
  end.

(** The array, [*gaschangenr] and [*asc_cylinder] after the call. *)
Definition analyze_gaslist (plan : diveplan) (d : dive) (depth : Z)
    (asc_cylinder : Z) : option (list gaschanges * Z * Z) :=
  '(changes, asc) <-
     analyze_gaslist_loop (dp plan) d depth []
       (cyl_depth_mm (cyl_at d asc_cylinder)) asc_cylinder ;;
  Some (changes, Z.of_nat (length changes), asc).

(** *** ascend_velocity *)

Definition ascend_velocity (depth avg_depth bottom_time : Z) : Z :=
  if depth <=? 6000 then Z.quot 1000 60
  else if depth * 4 >? avg_depth * 3 then Z.quot 9000 60
  else Z.quot 6000 60.

(** ** plan *)

(** How a modelled run ends: [Returned] is the C function returning (or a
    loop of it being left); the other three stop the run where it stands. *)
Inductive status : Type :=
| Returned
| Out_of_fuel
| Undefined_behaviour
| Assert_failed.

(** The locals of [plan] that change during the ascent, with the plan and the
    globals of the decompression model. *)
Record pstate : Type := mk_pstate {
  p_diveplan : diveplan;
  p_deco : deco_state;
  p_tissue_tolerance : real;
  p_trial_cache : option snapshot;
  p_stopping : bool;
  p_clock : Z;
  p_previous_point_time : Z;
  p_depth : Z;
  p_last_ascend_rate : Z;
  p_current_cylinder : Z;
  p_gas : gasmix;
  p_gi : Z;
  p_stopidx : Z                  (* unsigned int *)
}.

Definition set_waypoints (plan : diveplan) (prev : Z) (s : pstate) : pstate :=
  mk_pstate plan (p_deco s) (p_tissue_tolerance s) (p_trial_cache s)
    (p_stopping s) (p_clock s) prev (p_depth s) (p_last_ascend_rate s)
    (p_current_cylinder s) (p_gas s) (p_gi s) (p_stopidx s).

Definition set_tissues (dt : deco_state * real) (s : pstate) : pstate :=
  mk_pstate (p_diveplan s) (fst dt) (snd dt) (p_trial_cache s) (p_stopping s)
    (p_clock s) (p_previous_point_time s) (p_depth s) (p_last_ascend_rate s)
    (p_current_cylinder s) (p_gas s) (p_gi s) (p_stopidx s).

Definition set_deco (ds : deco_state) (s : pstate) : pstate :=
  mk_pstate (p_diveplan s) ds (p_tissue_tolerance s) (p_trial_cache s)
    (p_stopping s) (p_clock s) (p_previous_point_time s) (p_depth s)
    (p_last_ascend_rate s) (p_current_cylinder s) (p_gas s) (p_gi s)
    (p_stopidx s).

Definition set_trial_cache (c : option snapshot) (s : pstate) : pstate :=
  mk_pstate (p_diveplan s) (p_deco s) (p_tissue_tolerance s) c (p_stopping s)
    (p_clock s) (p_previous_point_time s) (p_depth s) (p_last_ascend_rate s)
    (p_current_cylinder s) (p_gas s) (p_gi s) (p_stopidx s).

Definition set_stopping (b : bool) (s : pstate) : pstate :=
  mk_pstate (p_diveplan s) (p_deco s) (p_tissue_tolerance s) (p_trial_cache s)
    b (p_clock s) (p_previous_point_time s) (p_depth s) (p_last_ascend_rate s)
    (p_current_cylinder s) (p_gas s) (p_gi s) (p_stopidx s).

Definition set_clock (c : Z) (s : pstate) : pstate :=
  mk_pstate (p_diveplan s) (p_deco s) (p_tissue_tolerance s) (p_trial_cache s)
    (p_stopping s) c (p_previous_point_time s) (p_depth s)
    (p_last_ascend_rate s) (p_current_cylinder s) (p_gas s) (p_gi s)
    (p_stopidx s).

Definition set_depth (depth : Z) (s : pstate) : pstate :=
  mk_pstate (p_diveplan s) (p_deco s) (p_tissue_tolerance s) (p_trial_cache s)
    (p_stopping s) (p_clock s) (p_previous_point_time s) depth
    (p_last_ascend_rate s) (p_current_cylinder s) (p_gas s) (p_gi s)
    (p_stopidx s).

Definition set_last_ascend_rate (r : Z) (s : pstate) : pstate :=
  mk_pstate (p_diveplan s) (p_deco s) (p_tissue_tolerance s) (p_trial_cache s)
    (p_stopping s) (p_clock s) (p_previous_point_time s) (p_depth s) r
    (p_current_cylinder s) (p_gas s) (p_gi s) (p_stopidx s).

Definition set_cylinder_gas (cyl : Z) (g : gasmix) (gi : Z) (s : pstate)
    : pstate :=
  mk_pstate (p_diveplan s) (p_deco s) (p_tissue_tolerance s) (p_trial_cache s)
    (p_stopping s) (p_clock s) (p_previous_point_time s) (p_depth s)
    (p_last_ascend_rate s) cyl g gi (p_stopidx s).

Definition set_stopidx (i : Z) (s : pstate) : pstate :=
  mk_pstate (p_diveplan s) (p_deco s) (p_tissue_tolerance s) (p_trial_cache s)
    (p_stopping s) (p_clock s) (p_previous_point_time s) (p_depth s)
    (p_last_ascend_rate s) (p_current_cylinder s) (p_gas s) (p_gi s) i.

(** Arithmetic of [unsigned int]. *)
Definition uint (z : Z) : Z := z mod 2 ^ 32.

Section Ascent.
(** What the ascent reads and does not change. *)
Variables (d : dive) (po2 avg_depth bottom_time : Z).
Variables (stoplevels : list Z) (changes : list gaschanges).

(** [plan_add_segment(diveplan, clock - previous_point_time, depth, gas, po2,
    false); previous_point_time = clock;] *)
Definition add_waypoint (depth : Z) (s : pstate) : pstate :=
  set_waypoints
    (plan_add_segment (p_diveplan s) (p_clock s - p_previous_point_time s)
       depth (p_gas s) po2 false)
    (p_clock s) s.

(** [tissue_tolerance = add_segment(depth_to_mbar(depth, dive) / 1000.0,
    &dive->cylinder[current_cylinder].gasmix, period, po2, dive);] *)
Definition breathe (depth period : Z) (s : pstate) : pstate :=
  set_tissues
    (add_segment (depth_to_bar depth d)
       (cyl_gasmix (cyl_at d (p_current_cylinder s))) period po2 d (p_deco s))
    s.

(** The [do ... while (depth > stoplevels[stopidx])] loop. *)
Fixpoint ascend (fuel : nat) (s : pstate) : status * pstate :=
  match fuel with
  | O => (Out_of_fuel, s)
  | S fuel' =>
      (* Ascend to next stop depth *)
      let rate := ascend_velocity (p_depth s) avg_depth bottom_time in
      let deltad := rate * TIMESTEP in
      let s :=
        if negb (rate =? p_last_ascend_rate s)
        then set_last_ascend_rate rate
               (set_stopping false (add_waypoint (p_depth s) s))
        else s in
      match rd stoplevels (p_stopidx s) with
      | None => (Undefined_behaviour, s)
      | Some level =>
          let deltad :=
            if p_depth s - deltad <? level then p_depth s - level
            else deltad in
          let s := breathe (p_depth s) TIMESTEP s in
          let s := set_clock (p_clock s + TIMESTEP) s in
          let s := set_depth (p_depth s - deltad) s in
          if p_depth s >? level then ascend fuel' s else (Returned, s)
      end
  end.

(** The [while (trial_depth > stoplevels[stopidx])] loop; the boolean is
    [clear_to_ascend]. *)
Fixpoint trial_ascent (fuel : nat) (trial_depth : Z) (s : pstate)
    : status * bool * pstate :=
  match fuel with
  | O => (Out_of_fuel, true, s)
  | S fuel' =>
      match rd stoplevels (p_stopidx s) with
      | None => (Undefined_behaviour, true, s)
      | Some level =>
          if trial_depth >? level then
            let deltad :=
              ascend_velocity trial_depth avg_depth bottom_time * TIMESTEP in
            let s := breathe trial_depth TIMESTEP s in
            if deco_allowed_depth (p_tissue_tolerance s)
                 (rdiv (real_of_int (surface_pressure (p_diveplan s)))
                       (real_of_int 1000))
                 d true (p_deco s)
               >? trial_depth - deltad
            then (* We should have stopped *) (Returned, false, s)
            else trial_ascent fuel' (trial_depth - deltad) s
          else (Returned, true, s)
      end
  end.

(** The [while (1)] loop that waits at a stop; [trial_depth] is [depth] at
    each of its rounds. *)
Fixpoint deco_stop (fuel : nat) (s : pstate) : status * pstate :=
  match fuel with
  | O => (Out_of_fuel, s)
  | S fuel' =>
      match trial_ascent fuel (p_depth s) s with
      | (Returned, clear_to_ascend, s) =>
          let s := set_deco
                     (fst (restore_deco_state (p_trial_cache s) (p_deco s))) s in
          if clear_to_ascend then (Returned, s)
          else
            (* Add a minute of deco time and then try again *)
            let s :=
              if negb (p_stopping s)
              then set_stopping true (add_waypoint (p_depth s) s)
              else s in
            let s := breathe (p_depth s) DECOTIMESTEP s in
            let s := set_trial_cache
                       (cache_deco_state (p_tissue_tolerance s)
                          (p_trial_cache s) (p_deco s)) s in
            let s := set_clock (p_clock s + DECOTIMESTEP) s in
            deco_stop fuel' s
      | (st, _, s) => (st, s)
      end
  end.

(** [if (gi >= 0 && stoplevels[stopidx] == gaschanges[gi].depth) ...] *)
Definition gas_change (s : pstate) : option pstate :=
  if p_gi s >=? 0 then
    level <- rd stoplevels (p_stopidx s) ;;
    g <- rd changes (p_gi s) ;;
    if level =? gc_depth g then
      let s := set_stopping true (add_waypoint (p_depth s) s) in
      Some (set_cylinder_gas (gasidx g) (cyl_gasmix (cyl_at d (gasidx g)))
              (p_gi s - 1) s)
    else Some s
  else Some s.

(** The outer [while (1)] loop. *)
Fixpoint ascent_loop (fuel : nat) (s : pstate) : status * pstate :=
  match fuel with
  | O => (Out_of_fuel, s)
  | S fuel' =>
      match ascend fuel s with
      | (Returned, s) =>
          if p_depth s <=? 0 then (* We are at the surface *) (Returned, s)
          else
            match gas_change s with
            | None => (Undefined_behaviour, s)
            | Some s =>
                let s := set_stopidx (uint (p_stopidx s - 1)) s in
                (* Save the current state and try to ascend to the next
                   stopdepth *)
                let s := set_trial_cache
                           (cache_deco_state (p_tissue_tolerance s)
                              (p_trial_cache s) (p_deco s)) s in
                match deco_stop fuel s with
                | (Returned, s) =>
                    let s :=
                      if p_stopping s
                      then set_stopping false (add_waypoint (p_depth s) s)
                      else s in
                    ascent_loop fuel' s
                | other => other
                end
            end
      | other => other
      end
  end.

End Ascent.

(** The first index of [decostoplevels] at or below which the dive is, or the
    size of the table. *)
Fixpoint find_stop (levels : list Z) (stopidx depth : Z) : Z :=
  match levels with
  | [] => stopidx
  | level :: rest =>
      if level >=? depth then stopidx else find_stop rest (stopidx + 1) depth
  end.

(** What a call of [plan] leaves behind. *)
Record plan_out : Type := mk_out {
  o_status : status;
  o_diveplan : diveplan;
  o_cached_datap : option snapshot;
  o_divep : option dive;
  o_master_dive : dive;
  o_deco : deco_state;
  o_table : dive_table_t;
  o_log : list report
}.

Definition add_plan_to_notes (plan : diveplan) (d : dive)
    (show_disclaimer : bool) : dive :=
  mk_dive (when d) (dc_surface_pressure d) (dc_model d) (dc_sample d)
    (dc_events d) (cylinder d) (Some (plan_notes_text plan d show_disclaimer)).

(** [plan] from the point where [current_cylinder] is known. *)
Definition plan_with_cylinder (fuel : nat) (levels : list Z) (plan : diveplan)
    (cached_datap : option snapshot) (d : dive) (master_dive : dive)
    (add_deco show_disclaimer : bool) (ds : deco_state) (table : dive_table_t)
    (gas : gasmix) (current_cylinder : Z) (log : list report) : plan_out :=
  let smp := last_sample d in
  let po2 := s_po2 smp in
  let depth := s_depth smp in
  let avg_depth := average_depth plan in
  let last_ascend_rate := ascend_velocity depth avg_depth indeterminate_int in
  (* if all we wanted was the dive just get us back to the surface *)
  if negb add_deco then
    let transitiontime := Z.quot depth 75 in
    let plan := plan_add_segment plan transitiontime 0 gas po2 false in
    (* re-create the dive *)
    let table := delete_single_dive (dive_table_nr table - 1) table in
    let '(divep, master_dive, log) :=
      create_dive_from_plan plan master_dive log in
    let table :=
      match divep with
      | Some d' => record_dive d' table
      | None => table
      end in
    mk_out Returned plan cached_datap divep master_dive ds table log
  else
    let '(tissue_tolerance, cached_datap, ds, log) :=
      tissue_at_end (Some d) cached_datap ds log in
    (* Find the gases available for deco *)
    match analyze_gaslist plan d depth current_cylinder with
    | None =>
        mk_out Assert_failed plan cached_datap (Some d) master_dive ds table log
    | Some (changes, gaschangenr, best_first_ascend_cylinder) =>
        (* Find the first potential decostopdepth above current depth *)
        let stopidx := find_stop levels 0 depth in
        let stopidx := if stopidx >? 0 then stopidx - 1 else stopidx in
        match sort_stops levels (stopidx + 1) changes gaschangenr with
        | None =>
            mk_out Undefined_behaviour plan cached_datap (Some d) master_dive
              ds table log
        | Some stoplevels =>
            let stopidx := uint (stopidx + gaschangenr) in
            (* Keep time during the ascend *)
            let clock := s_time smp in
            let bottom_time := clock in
            let gi := gaschangenr - 1 in
            let '(stopping, current_cylinder, gas) :=
              if negb (best_first_ascend_cylinder =? current_cylinder)
              then (true, best_first_ascend_cylinder,
                    cyl_gasmix (cyl_at d best_first_ascend_cylinder))
              else (false, current_cylinder, gas) in
            let s0 := mk_pstate plan ds tissue_tolerance None stopping clock
                        clock depth last_ascend_rate current_cylinder gas gi
                        stopidx in
            match ascent_loop d po2 avg_depth bottom_time stoplevels changes
                    fuel s0 with
            | (Returned, s) =>
                (* We made it to the surface *)
                let plan :=
                  plan_add_segment (p_diveplan s)
                    (p_clock s - p_previous_point_time s) 0 (p_gas s) po2
                    false in
                let table := delete_single_dive (dive_table_nr table - 1) table in
                let '(divep, master_dive, log) :=
                  create_dive_from_plan plan master_dive log in
                mk_out Returned plan cached_datap
                  (option_map
                     (fun d' => add_plan_to_notes plan d' show_disclaimer)
                     divep)
                  master_dive (p_deco s) table log
            | (st, s) =>
                mk_out st (p_diveplan s) cached_datap (Some d) master_dive
                  (p_deco s) table log
            end
        end
    end.

(** [if (!diveplan->surface_pressure) diveplan->surface_pressure =
    SURFACE_PRESSURE;] *)
Definition default_surface_pressure (plan : diveplan) : diveplan :=
  if surface_pressure plan =? 0
  then mk_diveplan (plan_when plan) SURFACE_PRESSURE (bottomsac plan)
         (decosac plan) (gflow plan) (gfhigh plan) (dp plan)
  else plan.

(** [levels] is the global [decostoplevels], [ds], [table] and [log] are the
    globals of the decompression model, the dive table and the reports so far;
    [divep] is [*divep]. *)
Definition plan (fuel : nat) (levels : list Z) (diveplan0 : diveplan)
    (cached_datap : option snapshot) (divep : option dive) (master_dive : dive)
    (add_deco show_disclaimer : bool) (ds : deco_state) (table : dive_table_t)
    (log : list report) : plan_out :=
  let ds := set_gf (gflow diveplan0) (gfhigh diveplan0) gf_low_at_maxdepth ds in
  let plan0 := default_surface_pressure diveplan0 in
  let table :=
    match divep with
    | Some _ => delete_single_dive (dive_table_nr table - 1) table
    | None => table
    end in
  let '(divep, master_dive, log) := create_dive_from_plan plan0 master_dive log in
  match divep with
  | None => mk_out Returned plan0 cached_datap None master_dive ds table log
  | Some d =>
      let table := record_dive d table in
      (* Let's start at the last 'sample', i.e. the last manually entered
         waypoint.  We start with gas 0, then check if that was changed *)
      let gas := get_gas_from_events (dc_events d) (s_time (last_sample d))
                   (cyl_gasmix (cyl_at d 0)) in
      let current_cylinder := get_gasidx d gas in
      if current_cylinder =? -1 then
        plan_with_cylinder fuel levels plan0 cached_datap d master_dive
          add_deco show_disclaimer ds table gas 0 (log ++ [Cant_find_gas gas])
      else
        plan_with_cylinder fuel levels plan0 cached_datap d master_dive
          add_deco show_disclaimer ds table gas current_cylinder log
  end.

End Planner.

(** ** Gas and pO2 strings

    A C string is the list of its characters before the terminating NUL. *)

Definition code (c : ascii) : Z := Z.of_nat (nat_of_ascii c).

(** [text[0]], which is the NUL at the end of the string. *)
Definition peek (text : list ascii) : ascii := hd zero text.

(** <ctype.h> in the "C" locale. *)
Definition isspace (c : ascii) : bool :=
  (code c =? 32) || ((9 <=? code c) && (code c <=? 13)).

Definition isdigit (c : ascii) : bool :=
  (48 <=? code c) && (code c <=? 57).

Definition tolower (c : ascii) : ascii :=
  if (65 <=? code c) && (code c <=? 90)
  then ascii_of_nat (nat_of_ascii c + 32) else c.

(** [while (isspace(text[0])) text++;] *)
Fixpoint skip_spaces (text : list ascii) : list ascii :=
  match text with
  | c :: rest => if isspace c then skip_spaces rest else text
  | [] => []
  end.

(** [while (isdigit(end[0])) end++;] *)
Fixpoint skip_digits (text : list ascii) : list ascii :=
  match text with
  | c :: rest => if isdigit c then skip_digits rest else text
  | [] => []
  end.

Definition strcasecmp_eq (a b : list ascii) : bool :=
  if list_eq_dec ascii_dec (map tolower a) (map tolower b) then true else false.

Definition strncasecmp_eq (a b : list ascii) (n : nat) : bool :=
  strcasecmp_eq (firstn n a) (firstn n b).

(** [translate("gettextFromC", s)].
    Modelled from the spec: the translations are missing; the spec's grammar
    has the words "air" and "ean" themselves. *)
Definition translate (s : string) : list ascii := str s.

(** *** strtol (base 10) and the conversion of its [long] to [int] *)

Definition LONG_MAX : Z := 2 ^ 63 - 1.
Definition LONG_MIN : Z := - 2 ^ 63.

Definition clamp_long (z : Z) : Z :=
  if z >? LONG_MAX then LONG_MAX else if z <? LONG_MIN then LONG_MIN else z.

(** [(int) l]: modulo 2^32 into the range of [int]. *)
Definition int_of_long (l : Z) : Z := (l + 2 ^ 31) mod 2 ^ 32 - 2 ^ 31.

Fixpoint read_digits (text : list ascii) (acc : Z) : Z * list ascii :=
  match text with
  | c :: rest =>
      if isdigit c then read_digits rest (acc * 10 + (code c - 48))
      else (acc, text)
  | [] => (acc, [])
  end.

(** The value and [end]; [None] when no digits are found, where
    [end == begin]. *)
Definition strtol (begin : list ascii) : option (Z * list ascii) :=
  let text := skip_spaces begin in
  let '(negative, text) :=
    match text with
    | "-"%char :: rest => (true, rest)
    | "+"%char :: rest => (false, rest)
    | _ => (false, text)
    end in
  if isdigit (peek text) then
    let '(n, e) := read_digits text 0 in
    Some (clamp_long (if negative then - n else n), e)
  else None.

(** *** get_tenths, get_permille

    The second argument is [*endp] before the call, the second result is
    [*endp] after it. *)
Definition get_tenths (begin endp : list ascii) : Z * list ascii :=
  match strtol begin with
  | None => (-1, endp)
  | Some (l, e) =>
      let value := int_of_long l * 10 in
      (* Fraction? We only look at the first digit *)
      match e with
      | "."%char :: e1 =>
          if isdigit (peek e1)
          then (value + (code (peek e1) - code "0"), skip_digits (tl e1))
          else (-1, endp)
      | _ => (value, e)
      end
  end.

Definition get_permille (begin endp : list ascii) : Z * list ascii :=
  let '(value, e) := get_tenths begin endp in
  if value >=? 0 then
    (* Allow a percentage sign *)
    match e with
    | "%"%char :: rest => (value, rest)
    | _ => (value, e)
    end
  else (value, e).

(** *** validate_gas, validate_po2

    The result is the returned [int] with the contents of the output location
    after the call. *)
Definition validate_gas (text : option (list ascii)) (gas : gasmix)
    : Z * gasmix :=
  match text with
  | None => (0, gas)
  | Some text =>
      let text := skip_spaces text in
      match text with
      | [] => (0, gas)
      | _ :: _ =>
          let '(o2, he, text) :=
            if strcasecmp_eq text (translate "air") then
              (O2_IN_AIR, 0, skipn (length (translate "air")) text)
            else if strncasecmp_eq text (translate "ean") 3 then
              let '(o2, text) := get_permille (skipn 3 text) text in
              (o2, 0, text)
            else
              let '(o2, text) := get_permille text text in
              match text with
              | "/"%char :: rest =>
                  let '(he, text) := get_permille rest text in
                  (o2, he, text)
              | _ => (o2, 0, text)
              end in
          (* We don't want any extra crud *)
          let text := skip_spaces text in
          match text with
          | _ :: _ => (0, gas)
          | [] =>
              (* Validate the gas mix *)
              if (o2 <? 1) || (o2 >? 1000) || (he <? 0) || (o2 + he >? 1000)
              then (0, gas)
              else (* Let it rip *) (1, mk_gasmix o2 he)
          end
      end
  end.

Definition validate_po2 (text : option (list ascii)) (mbar_po2 : Z) : Z * Z :=
  match text with
  | None => (0, mbar_po2)
  | Some text =>
      let '(po2, text) := get_tenths text text in
      if po2 <? 0 then (0, mbar_po2)
      else
        let text := skip_spaces (skip_spaces text) in
        match text with
        | _ :: _ => (0, mbar_po2)
        | [] => (1, po2 * 100)
        end
  end.


(** ** get_nth_dp *)

(** [create_dp(0, 0, air, 0)] with [struct gasmix air = { 0 }]. *)
Definition placeholder_dp : divedatapoint :=
  mk_dp 0 0 (mk_gasmix 0 0) 0 false.

(** The [while (dp && i++ < idx)] loop: the way points walked over, the list
    from [dp] on, and [i] when the loop is left ([i++] is not evaluated once
    [dp] is null). *)
Fixpoint get_nth_dp_walk (l : list divedatapoint) (i idx : Z)
    : list divedatapoint * list divedatapoint * Z :=
  match l with
  | [] => ([], [], i)
  | p :: next =>
      if i <? idx then
        let '(walked, rest, i') := get_nth_dp_walk next (i + 1) idx in
        (p :: walked, rest, i')
      else ([], l, i + 1)
  end.

(** The plan after the call and the returned pointer.  Each round of the
    [while (i++ <= idx)] loop stores a fresh way point through [ldpp], which
    replaces the list from [dp] on. *)
Definition get_nth_dp (plan : diveplan) (idx : Z)
    : diveplan * option divedatapoint :=
  let '(walked, rest, i) := get_nth_dp_walk (dp plan) 0 idx in
  match Z.to_nat (idx - i + 1) with
  | O => (plan, hd_error rest)
  | S n =>
      (mk_diveplan (plan_when plan) (surface_pressure plan) (bottomsac plan)
         (decosac plan) (gflow plan) (gfhigh plan)
         (walked ++ repeat placeholder_dp (S n)),
       Some placeholder_dp)
  end.

(** ** Notions the properties are stated with *)

(** The merge of two lists that descend from their heads, where equal heads
    give one entry: what [sort_stops] does with its inputs read from the last
    entry down. *)
Fixpoint merge_down (ds : list Z) : list Z -> list Z :=
  match ds with
  | [] => fun gs => gs
  | d :: ds' =>
      fix inner (gs : list Z) : list Z :=
        match gs with
        | [] => d :: ds'
        | g :: gs' =>
            if d >? g then d :: merge_down ds' gs
            else if d =? g then d :: merge_down ds' gs'
            else g :: inner gs'
        end
  end.

(** The entries that such a merge drops: one for each pair of equal heads. *)
Fixpoint common_down (ds : list Z) : list Z -> list Z :=
  match ds with
  | [] => fun _ => []
  | d :: ds' =>
      fix inner (gs : list Z) : list Z :=
        match gs with
        | [] => []
        | g :: gs' =>
            if d >? g then common_down ds' gs
            else if d =? g then d :: common_down ds' gs'
            else inner gs'
        end
  end.

Definition ascending (l : list Z) : Prop := StronglySorted Z.le l.
Definition descending (l : list Z) : Prop := StronglySorted Z.ge l.
Definition strictly_ascending (l : list Z) : Prop := StronglySorted Z.lt l.

Definition occurrences (l : list Z) (x : Z) : nat := count_occ Z.eq_dec l x.

(** The first [dnr] fixed depths and the depths of the first [gnr] gas
    changes. *)
Definition fixed_depths (dstops : list Z) (dnr : Z) : list Z :=
  firstn (Z.to_nat dnr) dstops.

Definition change_depths (gstops : list gaschanges) (gnr : Z) : list Z :=
  map gc_depth (firstn (Z.to_nat gnr) gstops).

(** The absolute times of the way points, zero-time declarations left out. *)
Definition waypoint_times (plan : diveplan) : list Z :=
  filter (fun t => negb (t =? 0)) (map dp_time (dp plan)).

Definition times_increasing (plan : diveplan) : Prop :=
  strictly_ascending (waypoint_times plan).

(** The greatest absolute time among way points, 0 when none is positive. *)
Definition max_time (l : list divedatapoint) : Z :=
  fold_right Z.max 0 (map dp_time l).

(** The last way point that is a segment of the profile ([time != 0]). *)
Fixpoint last_segment (l : list divedatapoint) : option divedatapoint :=
  match l with
  | [] => None
  | p :: next =>
      match last_segment next with
      | Some q => Some q
      | None => if dp_time p =? 0 then None else Some p
      end
  end.

Section Cylinders.
Context {L : DiveLib}.

(** Cylinder [i] holds a gas within 200 of [mix]. *)
Definition gas_close (d : dive) (mix : gasmix) (i : Z) : Prop :=
  gasmix_distance (cyl_gasmix (cyl_at d i)) mix < 200.

Definition has_data (d : dive) (i : Z) : Prop :=
  cylinder_nodata (cyl_at d i) = false.

(** [r] is the first index below [MAX_CYLINDERS] with [P], or -1 when there
    is none. *)
Definition first_index (P : Z -> Prop) (r : Z) : Prop :=
  (0 <= r < MAX_CYLINDERS /\ P r /\ forall j, 0 <= j < r -> ~ P j)
  \/ (r = -1 /\ forall j, 0 <= j < MAX_CYLINDERS -> ~ P j).

(** What the ascent keeps: the clock never runs behind the time of the last
    way point, and the times of the way points increase. *)
Definition ascent_inv (s : pstate) : Prop :=
  p_previous_point_time s <= p_clock s /\ times_increasing (p_diveplan s).

End Cylinders.

(** A plan built by appending: every entry of [segs] gives the arguments of
    one [plan_add_segment], its [dp_time] being the duration. *)
Definition append_segments (plan : diveplan) (segs : list divedatapoint)
    : diveplan :=
  fold_left
    (fun pl p =>
       plan_add_segment pl (dp_time p) (dp_depth p) (dp_gasmix p) (dp_po2 p)
         (dp_entered p))
    segs plan.

(** The absolute times that durations give from the time [start] on: the
    running sums, and 0 for a duration of 0. *)
Fixpoint absolute_times (start : Z) (durations : list Z) : list Z :=
  match durations with
  | [] => []
  | d :: rest =>
      (if d =? 0 then 0 else start + d) :: absolute_times (start + d) rest
  end.

(** The zero-time way points at or above [depth]: the gas changes of the
    ascent. *)
Definition declared_changes (plan : diveplan) (depth : Z)
    : list divedatapoint :=
  filter (fun p => (dp_time p =? 0) && (dp_depth p <=? depth)) (dp plan).

(** The decimal digits of a numeral as characters, and its value. *)
Definition digit_char (d : Z) : ascii := ascii_of_nat (Z.to_nat (48 + d)).

Definition numeral (digits : list Z) : list ascii := map digit_char digits.

Definition numeral_value (digits : list Z) : Z :=
  fold_left (fun acc d => acc * 10 + d) digits 0.

Definition is_digit (d : Z) : Prop := 0 <= d <= 9.

(** The zero-time way points below [depth] and above [best]: the gases that
    could start the ascent. *)
Definition deeper_gases (plan : diveplan) (depth best : Z)
    : list divedatapoint :=
  filter (fun p => (dp_time p =? 0) && (depth <? dp_depth p)
                   && (dp_depth p <? best)) (dp plan).

(** The gas change that a zero-time way point declares. *)
Definition change_of {L : DiveLib} (d : dive) (p : divedatapoint)
    : gaschanges :=
  mk_gaschanges (dp_depth p) (get_gasidx d (dp_gasmix p)).

(** White space only. *)
Definition blank (ws : list ascii) : Prop :=
  Forall (fun c => isspace c = true) ws.

(** The [int] that the [long] of [strtol] becomes for the number [n]. *)
Definition strtol_int (n : Z) : Z := int_of_long (clamp_long n).

(** The events that [get_gas_from_events] looks at: those before the first
    one that is later than [time]. *)
Fixpoint events_until (events : list event) (time : Z) : list event :=
  match events with
  | [] => []
  | e :: next =>
      if ev_time e <=? time then e :: events_until next time else []
  end.

(** The way points with a time: the segments of the profile. *)
Definition segments (plan : diveplan) : list divedatapoint :=
  filter (fun p => negb (dp_time p =? 0)) (dp plan).

(** The times and depths of the samples that segments give from the time
    [lasttime] and the depth [lastdepth] on, where [switches] tells for each
    segment whether the gas is switched at its start: a switch has a sample
    of its own, a second after the segment before, at the depth reached. *)
Fixpoint profile_points (segs : list divedatapoint) (switches : list bool)
    (lasttime lastdepth : Z) : list (Z * Z) :=
  match segs, switches with
  | p :: ps, b :: bs =>
      (if b then [(lasttime + 1, lastdepth)] else [])
      ++ (dp_time p, dp_depth p)
         :: profile_points ps bs (dp_time p) (dp_depth p)
  | _, _ => []
  end.

Section GasChanges.
Context {L : DiveLib}.

(** The gas in use once the gas changes behind index [gi] have been taken:
    the one of the last change taken, which is the change at [gi + 1], or
    the gas and cylinder the ascent started with. *)
Definition gas_in_use (d : dive) (changes : list gaschanges) (cyl0 : Z)
    (gas0 : gasmix) (gi cyl : Z) (gas : gasmix) : Prop :=
  match nth_error changes (Z.to_nat (gi + 1)) with
  | Some g =>
      0 < gc_depth g /\ cyl = gasidx g
      /\ gas = cyl_gasmix (cyl_at d (gasidx g))
  | None => cyl = cyl0 /\ gas = gas0
  end.

(** Every depth other than 0 is among the stops up to [stopidx] at least as
    often as among the gas changes up to [gi]. *)
Definition stops_cover (stoplevels : list Z) (changes : list gaschanges)
    (stopidx gi : Z) : Prop :=
  forall x, x <> 0 ->
    (occurrences (firstn (Z.to_nat (gi + 1)) (map gc_depth changes)) x
     <= occurrences (firstn (Z.to_nat (stopidx + 1)) stoplevels) x)%nat.

End GasChanges.

(** ** An instance to run the model on

    The data and the functions of the missing files, as far as the spec
    describes them, and stand-ins for the rest. *)

(** Modelled from the spec: dive.h is missing; the spec has
    "gas_distance(a, b): sum of |delta o2| + |delta he| in permille". *)
Definition spec_gasmix_distance (a b : gasmix) : Z :=
  Z.abs (o2_permille a - o2_permille b) + Z.abs (he_permille a - he_permille b).

(** Modelled from the spec: dive.h is missing; the spec has
    "gas_is_null(g): o2 == 0 and he == 0". *)
Definition spec_gasmix_is_null (g : gasmix) : bool :=
  (o2_permille g =? 0) && (he_permille g =? 0).

(** Modelled from the spec: dive.h is missing; the spec has
    "cylinder_has_data(c): any of description, size, working pressure, or gas
    are set". *)
Definition spec_cylinder_nodata (c : cylinder_t) : bool :=
  negb (match description c with Some _ => true | None => false end
        || negb (size_mliter c =? 0)
        || negb (workingpressure_mbar c =? 0)
        || negb (spec_gasmix_is_null (cyl_gasmix c))).

(** A gas switch event that carries the index of the cylinder. *)
Definition index_gas_switch_event (d : dive) (events : list event)
    (seconds idx : Z) : list event :=
  events ++ [mk_event seconds 0 0 idx (str "gaschange")].

(** Stand-ins for the decompression model (no tissues, the ceiling given by
    [ceiling]), the dive table (a count) and [double] (integers).  [decode] is
    [get_gasmix_from_event]. *)
Definition stand_in (decode : event -> gasmix) (ceiling : Z) : DiveLib :=
  {| MAX_CYLINDERS := 8;
     SAMPLE_EVENT_PO2 := 20;
     gf_low_at_maxdepth := false;
     gasmix_distance := spec_gasmix_distance;
     gasmix_is_null := spec_gasmix_is_null;
     cylinder_nodata := spec_cylinder_nodata;
     get_gasmix_from_event := decode;
     interpolate := fun a b part whole =>
       if whole =? 0 then a else Z.quot (a * (whole - part) + b * part) whole;
     prepare_sample := fun _ => mk_sample 0 0 0 0;
     indeterminate_int := 0;
     depth_to_mbar := fun depth d => dc_surface_pressure d + Z.quot depth 10;
     average_depth := fun plan => 0;
     reset_cylinders := fun d => d;
     add_event := fun events time type flags value name =>
       events ++ [mk_event time type flags value name];
     add_gas_switch_event := index_gas_switch_event;
     real := Z;
     indeterminate := 0;
     real_of_int := fun z => z;
     int_of_real := fun z => z;
     rmul := Z.mul;
     rdiv := Z.quot;
     depth_to_atm := fun depth d => 1 + Z.quot depth 10000;
     deco_state := unit;
     snapshot := unit;
     set_gf := fun _ _ _ ds => ds;
     init_decompression := fun _ ds => (ds, 0);
     add_segment := fun _ _ _ _ _ ds => (ds, 0);
     deco_allowed_depth := fun _ _ _ _ _ => ceiling;
     cache_deco_state := fun _ _ _ => Some tt;
     restore_deco_state := fun _ ds => (ds, 0);
     dive_table_t := Z;
     dive_table_nr := fun n => n;
     delete_single_dive := fun _ n => n - 1;
     record_dive := fun _ n => n + 1;
     plan_notes_text := fun _ _ _ => [] |}.

(** A decoder that finds the gas of the cylinder the event names in a given
    inventory, and one that yields pure helium whatever the event. *)
Definition decode_from (cyls : list cylinder_t) (e : event) : gasmix :=
  match rd cyls (ev_value e) with
  | Some c => cyl_gasmix c
  | None => mk_gasmix 0 0
  end.

Definition decode_helium (e : event) : gasmix := mk_gasmix 0 1000.

Definition air : gasmix := mk_gasmix O2_IN_AIR 0.
Definition ean50 : gasmix := mk_gasmix 500 0.
Definition no_gas : gasmix := mk_gasmix 0 0.

Definition cylinder_of (name : string) (g : gasmix) : cylinder_t :=
  mk_cylinder 12000 232000 (Some (str name)) g 200000 200000 0 0.

(** Eight cylinders, the first ones given. *)
Definition inventory (cyls : list cylinder_t) : list cylinder_t :=
  firstn 8 (cyls ++ repeat zero_cylinder 8).

Definition dive_with (cyls : list cylinder_t) (samples : list sample)
    (events : list event) : dive :=
  mk_dive 0 1013 [] samples events (inventory cyls) None.

Definition plan_of (l : list divedatapoint) : diveplan :=
  mk_diveplan 0 1013 20000 17000 30 70 l.

(** *** Plans and inventories to run *)

Definition one_cylinder : dive := dive_with [cylinder_of "air" air] [] [].

Definition two_cylinders : dive :=
  dive_with [cylinder_of "air" air; cylinder_of "EAN50" ean50] [] [].

(** All eight slots in use. *)
Definition eight_cylinders : dive :=
  dive_with
    [cylinder_of "air" air; cylinder_of "EAN50" ean50; cylinder_of "air" air;
     cylinder_of "air" air; cylinder_of "air" air; cylinder_of "air" air;
     cylinder_of "air" air; cylinder_of "air" air] [] [].

(** Down to 18 m in a minute and half an hour there. *)
Definition plan_18m : diveplan :=
  plan_of [mk_dp 60 18000 air 0 true; mk_dp 1860 18000 air 0 true].

(** Two way points at 18 m with the same absolute time. *)
Definition plan_equal_times : diveplan :=
  plan_of [mk_dp 60 18000 air 0 true; mk_dp 60 18000 air 0 true].

(** 25 minutes at 40 m on air, EAN50 declared from 21 m up. *)
Definition plan_40m : diveplan :=
  plan_of [mk_dp 60 40000 air 0 true; mk_dp 1500 40000 air 0 true;
           mk_dp 0 21000 ean50 0 false].

(** At 18 m, a switch from air to EAN50 after a minute. *)
Definition plan_with_switch : diveplan :=
  plan_of [mk_dp 60 18000 air 0 true; mk_dp 180 18000 ean50 0 true].

(** The externals with gas switch events that name a cylinder of
    [two_cylinders], and with events from which no gas can be read; no ceiling
    on the way up. *)
Definition lib_two_cylinders : DiveLib :=
  stand_in (decode_from (cylinder two_cylinders)) (-1000).

Definition lib_no_decoder : DiveLib := stand_in (decode_from []) (-1000).

(** The dive that [plan_with_switch] makes with [eight_cylinders]. *)
Definition dive_with_switch : dive :=
  Eval vm_compute in
    match create_dive_from_plan (L := lib_no_decoder) plan_with_switch
            eight_cylinders [] with
    | (Some d, _, _) => d
    | _ => eight_cylinders
    end.

(** A cylinder of air that is good down to 66 m and one of EAN50; a plan at
    18 m that declares air at 30 m and EAN50 at 21 m; a plan at 40 m with
    changes declared out of order. *)
Definition cylinders_with_depth : dive :=
  dive_with [mk_cylinder 12000 232000 None air 200000 200000 0 66000;
             cylinder_of "EAN50" ean50] [] [].

Definition plan_with_deeper_gases : diveplan :=
  plan_of [mk_dp 60 18000 air 0 true; mk_dp 0 30000 air 0 false;
           mk_dp 1500 18000 air 0 true; mk_dp 0 21000 ean50 0 false].

Definition plan_with_changes : diveplan :=
  plan_of [mk_dp 60 40000 air 0 true; mk_dp 0 6000 ean50 0 false;
           mk_dp 1500 40000 air 0 true; mk_dp 0 21000 ean50 0 false;
           mk_dp 0 3000 air 0 false; mk_dp 0 45000 ean50 0 false].

(** The locals of [plan] on leaving 18 m after half an hour, the next stop
    being [decostoplevels[5]], 15 m. *)
Definition leaving_18m : pstate (L := lib_two_cylinders) :=
  mk_pstate (L := lib_two_cylinders) plan_18m tt 0 None false 1860 1860 18000
    150 0 air (-1) 5.

(** The dive that [plan_18m] makes with [one_cylinder]. *)
Definition dive_18m : dive :=
  Eval vm_compute in
    match create_dive_from_plan (L := lib_two_cylinders) plan_18m
            one_cylinder [] with
    | (Some d, _, _) => d
    | _ => one_cylinder
    end.

(** The dive that [plan_40m] makes with [two_cylinders]. *)
Definition dive_40m : dive :=
  Eval vm_compute in
    match create_dive_from_plan (L := lib_two_cylinders) plan_40m
            two_cylinders [] with
    | (Some d, _, _) => d
    | _ => two_cylinders
    end.

(** ** sort_stops: the loops *)

Lemma rd_nat {A : Type} (a : list A) (n : nat) :
  rd a (Z.of_nat n) = nth_error a n.
Proof.
  unfold rd. destruct (Z.ltb_spec (Z.of_nat n) 0); [lia|].
  now rewrite Nat2Z.id.
Qed.

Lemma firstn_snoc {A : Type} (l : list A) (n : nat) (x : A) :
  nth_error l n = Some x -> firstn (S n) l = firstn n l ++ [x].
Proof.
  revert n. induction l as [|a l IH]; intros [|n] H; simpl in *; try discriminate.
  - now inversion H.
  - now rewrite (IH n H).
Qed.

Lemma nth_error_in_range {A : Type} (l : list A) (n : nat) :
  (n < length l)%nat -> exists x, nth_error l n = Some x.
Proof.
  intros H. destruct (nth_error l n) eqn:E; [eauto|].
  apply nth_error_None in E. lia.
Qed.

Lemma store_down_ok (i v : Z) (hi : list Z) :
  0 <= i -> store_down i v hi = Some (i - 1, v :: hi).
Proof.
  intros H. unfold store_down. destruct (Z.ltb_spec i 0); [lia|reflexivity].
Qed.

Lemma drain_gstops_spec (gstops : list gaschanges) (n : nat) :
  forall (fuel : nat) (i : Z) (hi : list Z),
    (n <= length gstops)%nat -> (n < fuel)%nat -> Z.of_nat n - 1 <= i ->
    drain_gstops fuel gstops i (Z.of_nat n - 1) hi
    = Some (i - Z.of_nat n, map gc_depth (firstn n gstops) ++ hi).
Proof.
  induction n as [|n IH]; intros fuel i hi Hn Hf Hi.
  - destruct fuel; [lia|]. simpl. now rewrite Z.sub_0_r.
  - destruct fuel as [|fuel]; [lia|].
    cbn [drain_gstops].
    replace (Z.of_nat (S n) - 1) with (Z.of_nat n) by lia.
    destruct (Z.geb_spec (Z.of_nat n) 0); [|lia].
    rewrite rd_nat.
    destruct (nth_error_in_range gstops n) as [g Hg]; [lia|].
    rewrite Hg. cbn [obind].
    rewrite store_down_ok by lia. cbn [obind].
    rewrite IH by lia.
    rewrite (firstn_snoc _ _ _ Hg), map_app, <- app_assoc. cbn [map app].
    f_equal. f_equal. lia.
Qed.

Lemma drain_dstops_spec (dstops : list Z) (n : nat) :
  forall (fuel : nat) (i : Z) (hi : list Z),
    (n <= length dstops)%nat -> (n < fuel)%nat -> Z.of_nat n - 1 <= i ->
    drain_dstops fuel dstops i (Z.of_nat n - 1) hi
    = Some (i - Z.of_nat n, firstn n dstops ++ hi).
Proof.
  induction n as [|n IH]; intros fuel i hi Hn Hf Hi.
  - destruct fuel; [lia|]. simpl. now rewrite Z.sub_0_r.
  - destruct fuel as [|fuel]; [lia|].
    cbn [drain_dstops].
    replace (Z.of_nat (S n) - 1) with (Z.of_nat n) by lia.
    destruct (Z.geb_spec (Z.of_nat n) 0); [|lia].
    rewrite rd_nat.
    destruct (nth_error_in_range dstops n) as [d Hd]; [lia|].
    rewrite Hd. cbn [obind].
    rewrite store_down_ok by lia. cbn [obind].
    rewrite IH by lia.
    rewrite (firstn_snoc _ _ _ Hd), <- app_assoc. cbn [app].
    f_equal. f_equal. lia.
Qed.

Lemma zero_fill_spec (n : nat) :
  forall (fuel : nat) (hi : list Z),
    (n < fuel)%nat ->
    zero_fill fuel (Z.of_nat n - 1) hi = Some (repeat 0 n ++ hi).
Proof.
  induction n as [|n IH]; intros fuel hi Hf.
  - destruct fuel; [lia|]. reflexivity.
  - destruct fuel as [|fuel]; [lia|].
    cbn [zero_fill].
    replace (Z.of_nat (S n) - 1) with (Z.of_nat n) by lia.
    destruct (Z.geb_spec (Z.of_nat n) 0); [|lia].
    rewrite store_down_ok by lia. cbn [obind].
    rewrite IH by lia.
    change (repeat 0 (S n)) with (0 :: repeat 0 n).
    now rewrite repeat_cons, <- app_assoc.
Qed.

Lemma merge_down_nil_r (ds : list Z) : merge_down ds [] = ds.
Proof. now destruct ds. Qed.

Lemma merge_down_cons (d g : Z) (ds gs : list Z) :
  merge_down (d :: ds) (g :: gs)
  = if d >? g then d :: merge_down ds (g :: gs)
    else if d =? g then d :: merge_down ds gs
    else g :: merge_down (d :: ds) gs.
Proof. reflexivity. Qed.

Lemma common_down_nil_r (ds : list Z) : common_down ds [] = [].
Proof. now destruct ds. Qed.

Lemma common_down_cons (d g : Z) (ds gs : list Z) :
  common_down (d :: ds) (g :: gs)
  = if d >? g then common_down ds (g :: gs)
    else if d =? g then d :: common_down ds gs
    else common_down (d :: ds) gs.
Proof. reflexivity. Qed.

Lemma drain_gstops_rev (gstops : list gaschanges) (n fuel : nat) (i : Z)
    (hi gsr : list Z) :
  (n <= length gstops)%nat -> (n < fuel)%nat -> Z.of_nat n - 1 <= i ->
  rev (map gc_depth (firstn n gstops)) = gsr ->
  drain_gstops fuel gstops i (Z.of_nat n - 1) hi
  = Some (i - Z.of_nat (length gsr), rev gsr ++ hi).
Proof.
  intros Hn Hf Hi <-.
  rewrite drain_gstops_spec by assumption.
  rewrite rev_involutive, length_rev, length_map, length_firstn.
  now rewrite Nat.min_l by lia.
Qed.

Lemma drain_dstops_rev (dstops : list Z) (n fuel : nat) (i : Z)
    (hi dsr : list Z) :
  (n <= length dstops)%nat -> (n < fuel)%nat -> Z.of_nat n - 1 <= i ->
  rev (firstn n dstops) = dsr ->
  drain_dstops fuel dstops i (Z.of_nat n - 1) hi
  = Some (i - Z.of_nat (length dsr), rev dsr ++ hi).
Proof.
  intros Hn Hf Hi <-.
  rewrite drain_dstops_spec by assumption.
  rewrite rev_involutive, length_rev, length_firstn.
  now rewrite Nat.min_l by lia.
Qed.

(** The entry below the top of a prefix read downwards. *)
Lemma top_of_prefix (dstops : list Z) (n : nat) :
  (S n <= length dstops)%nat ->
  exists d, nth_error dstops n = Some d
            /\ rev (firstn (S n) dstops) = d :: rev (firstn n dstops).
Proof.
  intros H. destruct (nth_error_in_range dstops n) as [d Hd]; [lia|].
  exists d. split; [assumption|].
  now rewrite (firstn_snoc _ _ _ Hd), rev_app_distr.
Qed.

Lemma top_of_changes (gstops : list gaschanges) (n : nat) :
  (S n <= length gstops)%nat ->
  exists g, nth_error gstops n = Some g
            /\ rev (map gc_depth (firstn (S n) gstops))
               = gc_depth g :: rev (map gc_depth (firstn n gstops)).
Proof.
  intros H. destruct (nth_error_in_range gstops n) as [g Hg]; [lia|].
  exists g. split; [assumption|].
  now rewrite (firstn_snoc _ _ _ Hg), map_app, rev_app_distr.
Qed.

Ltac close_merge :=
  cbn [map rev merge_down length];
  repeat rewrite <- app_assoc; cbn [app];
  f_equal; f_equal; first [lia | reflexivity].

(** The merging loop, entered with [nd] fixed depths and [ng] gas changes
    still to place, writes the merge of the two from the top down. *)
Lemma merge_loop_spec (dstops : list Z) (gstops : list gaschanges) (k : nat) :
  forall (nd ng fuel : nat) (i : Z) (hi dsr gsr : list Z),
    (nd + ng <= k)%nat -> (1 <= nd)%nat -> (1 <= ng)%nat ->
    (nd <= length dstops)%nat -> (ng <= length gstops)%nat ->
    (nd + ng < fuel)%nat -> Z.of_nat (nd + ng) - 1 <= i ->
    rev (firstn nd dstops) = dsr ->
    rev (map gc_depth (firstn ng gstops)) = gsr ->
    merge_loop fuel dstops gstops i (Z.of_nat ng - 1) (Z.of_nat nd - 1) hi
    = Some (i - Z.of_nat (length (merge_down dsr gsr)),
            rev (merge_down dsr gsr) ++ hi).
Proof.
  induction k as [|k IH];
    intros nd ng fuel i hi dsr gsr Hk Hd Hg Hld Hlg Hf Hi Edsr Egsr; [lia|].
  destruct nd as [|nd]; [lia|]. destruct ng as [|ng]; [lia|].
  destruct fuel as [|fuel]; [lia|].
  destruct (top_of_prefix dstops nd Hld) as (d & Hnd & Ed).
  destruct (top_of_changes gstops ng Hlg) as (g & Hng & Eg).
  rewrite Ed in Edsr. rewrite Eg in Egsr.
  remember (rev (firstn nd dstops)) as dr eqn:Edr.
  remember (rev (map gc_depth (firstn ng gstops))) as gr eqn:Egr.
  symmetry in Edr, Egr. subst dsr gsr.
  cbn [merge_loop].
  destruct (Z.geb_spec i 0); [|lia].
  replace (Z.of_nat (S nd) - 1) with (Z.of_nat nd) by lia.
  replace (Z.of_nat (S ng) - 1) with (Z.of_nat ng) by lia.
  rewrite !rd_nat, Hnd, Hng. cbn [obind].
  rewrite merge_down_cons.
  destruct (d >? gc_depth g) eqn:Egt;
    [|destruct (d =? gc_depth g) eqn:Eeq];
    rewrite store_down_ok by lia; cbn [obind].
  - (* the fixed depth is placed *)
    destruct (Z.ltb_spec (Z.of_nat nd - 1) 0) as [H0|H0].
    + assert (nd = 0)%nat by lia. subst nd.
      cbn [firstn rev] in Edr. subst dr.
      replace (Z.of_nat ng) with (Z.of_nat (S ng) - 1) by lia.
      rewrite (drain_gstops_rev gstops (S ng) fuel (i - 1) (d :: hi)
                 (gc_depth g :: gr)) by (lia || exact Eg).
      close_merge.
    + destruct (Z.ltb_spec (Z.of_nat ng) 0); [lia|].
      replace (Z.of_nat ng) with (Z.of_nat (S ng) - 1) by lia.
      rewrite (IH nd (S ng) fuel (i - 1) (d :: hi) dr (gc_depth g :: gr))
        by (lia || exact Edr || exact Eg).
      close_merge.
  - (* equal depths: both are consumed *)
    destruct (Z.ltb_spec (Z.of_nat nd - 1) 0) as [H0|H0].
    + assert (nd = 0)%nat by lia. subst nd.
      cbn [firstn rev] in Edr. subst dr.
      rewrite (drain_gstops_rev gstops ng fuel (i - 1) (d :: hi) gr)
        by (lia || exact Egr).
      close_merge.
    + destruct (Z.ltb_spec (Z.of_nat ng - 1) 0) as [H1|H1].
      * assert (ng = 0)%nat by lia. subst ng.
        cbn [firstn map rev] in Egr. subst gr.
        rewrite (drain_dstops_rev dstops nd fuel (i - 1) (d :: hi) dr)
          by (lia || exact Edr).
        rewrite merge_down_nil_r. close_merge.
      * rewrite (IH nd ng fuel (i - 1) (d :: hi) dr gr)
          by (lia || exact Edr || exact Egr).
        close_merge.
  - (* the gas change is placed *)
    destruct (Z.ltb_spec (Z.of_nat nd) 0); [lia|].
    destruct (Z.ltb_spec (Z.of_nat ng - 1) 0) as [H1|H1].
    + assert (ng = 0)%nat by lia. subst ng.
      cbn [firstn map rev] in Egr. subst gr.
      replace (Z.of_nat nd) with (Z.of_nat (S nd) - 1) by lia.
      rewrite (drain_dstops_rev dstops (S nd) fuel (i - 1) (gc_depth g :: hi)
                 (d :: dr)) by (lia || exact Ed).
      rewrite merge_down_nil_r. close_merge.
    + replace (Z.of_nat nd) with (Z.of_nat (S nd) - 1) by lia.
      rewrite (IH (S nd) ng fuel (i - 1) (gc_depth g :: hi) (d :: dr) gr)
        by (lia || exact Ed || exact Egr).
      close_merge.
Qed.

(** ** sort_stops: the merge *)

Lemma merge_common_length (ds gs : list Z) :
  (length (merge_down ds gs) + length (common_down ds gs)
   = length ds + length gs)%nat.
Proof.
  revert gs. induction ds as [|d ds IHd]; intros gs;
    [cbn [merge_down common_down length]; lia|].
  induction gs as [|g gs IHg].
  - rewrite merge_down_nil_r, common_down_nil_r. cbn [length]. lia.
  - rewrite merge_down_cons, common_down_cons.
    destruct (d >? g); [|destruct (d =? g)]; cbn [length].
    + specialize (IHd (g :: gs)). cbn [length] in IHd. lia.
    + specialize (IHd gs). lia.
    + cbn [length] in IHg. lia.
Qed.

Lemma merge_down_In (x : Z) (ds gs : list Z) :
  In x (merge_down ds gs) <-> In x ds \/ In x gs.
Proof.
  revert gs. induction ds as [|d ds IHd]; intros gs.
  - cbn [merge_down In]. tauto.
  - induction gs as [|g gs IHg].
    + rewrite merge_down_nil_r. cbn [In]. tauto.
    + rewrite merge_down_cons.
      destruct (d >? g) eqn:Egt; [|destruct (d =? g) eqn:Eeq]; cbn [In].
      * rewrite (IHd (g :: gs)). cbn [In]. tauto.
      * apply Z.eqb_eq in Eeq. subst g. rewrite (IHd gs). tauto.
      * rewrite IHg. cbn [In]. tauto.
Qed.

Lemma common_down_In (x : Z) (ds gs : list Z) :
  In x (common_down ds gs) -> In x ds /\ In x gs.
Proof.
  revert gs. induction ds as [|d ds IHd]; intros gs.
  - cbn [common_down In]. tauto.
  - induction gs as [|g gs IHg].
    + rewrite common_down_nil_r. cbn [In]. tauto.
    + rewrite common_down_cons.
      destruct (d >? g) eqn:Egt; [|destruct (d =? g) eqn:Eeq]; cbn [In].
      * intros H. apply IHd in H. cbn [In] in H. tauto.
      * apply Z.eqb_eq in Eeq. subst g. intros [H|H]; [tauto|].
        apply IHd in H. tauto.
      * intros H. apply IHg in H. cbn [In] in H. tauto.
Qed.

Lemma descending_inv (d : Z) (ds : list Z) :
  descending (d :: ds) -> descending ds /\ forall x, In x ds -> x <= d.
Proof.
  intros H. inversion H as [|? ? Hs Hf]; subst. split; [assumption|].
  intros x Hx. rewrite Forall_forall in Hf. specialize (Hf x Hx). lia.
Qed.

Lemma descending_cons (d : Z) (ds : list Z) :
  descending ds -> (forall x, In x ds -> x <= d) -> descending (d :: ds).
Proof.
  intros Hs Hb. constructor; [assumption|].
  apply Forall_forall. intros x Hx. specialize (Hb x Hx). lia.
Qed.

Lemma merge_down_descending (ds gs : list Z) :
  descending ds -> descending gs -> descending (merge_down ds gs).
Proof.
  revert gs. induction ds as [|d ds IHd]; intros gs Hd Hg; [exact Hg|].
  induction gs as [|g gs IHg]; [now rewrite merge_down_nil_r|].
  destruct (descending_inv _ _ Hd) as [Hd' Bd].
  destruct (descending_inv _ _ Hg) as [Hg' Bg].
  rewrite merge_down_cons.
  destruct (d >? g) eqn:Egt; [|destruct (d =? g) eqn:Eeq].
  - apply Z.gtb_lt in Egt. apply descending_cons; [now apply IHd|].
    intros x Hx. apply merge_down_In in Hx. destruct Hx as [Hx|[Hx|Hx]].
    + now apply Bd.
    + lia.
    + specialize (Bg x Hx). lia.
  - apply Z.eqb_eq in Eeq. subst g. apply descending_cons; [now apply IHd|].
    intros x Hx. apply merge_down_In in Hx. destruct Hx as [Hx|Hx]; auto.
  - rewrite Z.gtb_ltb, Z.ltb_ge in Egt.
    apply Z.eqb_neq in Eeq.
    apply descending_cons; [now apply IHg|].
    intros x Hx. apply merge_down_In in Hx. destruct Hx as [[Hx|Hx]|Hx].
    + lia.
    + specialize (Bd x Hx). lia.
    + now apply Bg.
Qed.

Lemma occurrences_cons (a x : Z) (l : list Z) :
  occurrences (a :: l) x
  = (if Z.eq_dec a x then S (occurrences l x) else occurrences l x).
Proof. unfold occurrences. cbn [count_occ]. now destruct (Z.eq_dec a x). Qed.

Lemma occurrences_above (x : Z) (l : list Z) :
  (forall y, In y l -> y < x) -> occurrences l x = 0%nat.
Proof.
  intros H. unfold occurrences. apply count_occ_not_In.
  intros Hx. specialize (H x Hx). lia.
Qed.

(** The merge keeps of every depth as many entries as the input that has
    more of them; what it drops is as many as the other input has. *)
Lemma merge_common_occurrences (x : Z) (ds gs : list Z) :
  descending ds -> descending gs ->
  occurrences (merge_down ds gs) x
    = Nat.max (occurrences ds x) (occurrences gs x)
  /\ occurrences (common_down ds gs) x
    = Nat.min (occurrences ds x) (occurrences gs x).
Proof.
  revert gs. induction ds as [|d ds IHd]; intros gs Hd Hg.
  - cbn [merge_down common_down]. unfold occurrences at 2 4 5.
    cbn [count_occ]. split; [reflexivity|lia].
  - induction gs as [|g gs IHg].
    + rewrite merge_down_nil_r, common_down_nil_r.
      unfold occurrences at 3 4 6. cbn [count_occ]. lia.
    + destruct (descending_inv _ _ Hd) as [Hd' Bd].
      destruct (descending_inv _ _ Hg) as [Hg' Bg].
      rewrite merge_down_cons, common_down_cons.
      destruct (d >? g) eqn:Egt; [|destruct (d =? g) eqn:Eeq].
      * apply Z.gtb_lt in Egt.
        destruct (IHd (g :: gs) Hd' Hg) as [Im Ic].
        rewrite Ic. rewrite !(occurrences_cons d). rewrite Im.
        destruct (Z.eq_dec d x) as [->|Hne]; [|lia].
        rewrite (occurrences_above x (g :: gs)); [lia|].
        intros y [<-|Hy]; [lia|]. specialize (Bg y Hy). lia.
      * apply Z.eqb_eq in Eeq. subst g.
        destruct (IHd gs Hd' Hg') as [Im Ic].
        rewrite !(occurrences_cons d), Im, Ic.
        destruct (Z.eq_dec d x); lia.
      * rewrite Z.gtb_ltb, Z.ltb_ge in Egt.
        apply Z.eqb_neq in Eeq.
        destruct (IHg Hg') as [Im Ic].
        rewrite Ic. rewrite !(occurrences_cons g). rewrite Im.
        destruct (Z.eq_dec g x) as [->|Hne]; [|lia].
        rewrite (occurrences_above x (d :: ds)); [lia|].
        intros y [<-|Hy]; [lia|]. specialize (Bd y Hy). lia.
Qed.

(** *** Reading a list from its last entry *)

Lemma sorted_app {A : Type} (R : A -> A -> Prop) (l1 l2 : list A) :
  StronglySorted R l1 -> StronglySorted R l2 ->
  (forall x y, In x l1 -> In y l2 -> R x y) ->
  StronglySorted R (l1 ++ l2).
Proof.
  induction 1 as [|a l1 Hs IH Hf]; intros H2 Hx; cbn [app]; [assumption|].
  constructor.
  - apply IH; [assumption|]. intros x y Hx1 Hy. apply Hx; [now right|assumption].
  - apply Forall_app. split; [assumption|].
    apply Forall_forall. intros y Hy. apply Hx; [now left|assumption].
Qed.

Lemma descending_rev (l : list Z) : ascending l -> descending (rev l).
Proof.
  induction 1 as [|a l Hs IH Hf]; cbn [rev]; [constructor|].
  rewrite Forall_forall in Hf.
  apply sorted_app; [exact IH|constructor; constructor|].
  intros x y Hx [<-|[]]. apply in_rev in Hx. specialize (Hf x Hx). lia.
Qed.

Lemma ascending_rev (l : list Z) : descending l -> ascending (rev l).
Proof.
  induction 1 as [|a l Hs IH Hf]; cbn [rev]; [constructor|].
  rewrite Forall_forall in Hf.
  apply sorted_app; [exact IH|constructor; constructor|].
  intros x y Hx [<-|[]]. apply in_rev in Hx. specialize (Hf x Hx). lia.
Qed.

(** *** sort_stops as a whole *)

(** Whenever the arrays hold the entries the counts announce, and there is a
    fixed depth to start from or no gas change at all, [sort_stops] returns
    the merge of its inputs behind one 0 for every entry the merge dropped. *)
Lemma sort_stops_spec (dstops : list Z) (dnr : Z) (gstops : list gaschanges)
    (gnr : Z) :
  0 <= dnr <= Z.of_nat (length dstops) ->
  0 <= gnr <= Z.of_nat (length gstops) ->
  1 <= dnr \/ gnr = 0 ->
  sort_stops dstops dnr gstops gnr
  = Some (repeat 0
            (length (common_down (rev (fixed_depths dstops dnr))
                       (rev (change_depths gstops gnr))))
          ++ rev (merge_down (rev (fixed_depths dstops dnr))
                    (rev (change_depths gstops gnr)))).
Proof.
  intros Hd Hg Hne. unfold sort_stops, fixed_depths, change_depths.
  destruct (Z.eqb_spec gnr 0) as [->|Hg0].
  - unfold memcpy_ints.
    destruct (Z.leb_spec 0 dnr); [|lia].
    destruct (Z.leb_spec dnr (Z.of_nat (length dstops))); [|lia].
    cbn [andb Z.to_nat firstn map rev].
    now rewrite merge_down_nil_r, common_down_nil_r, rev_involutive.
  - set (nd := Z.to_nat dnr). set (ng := Z.to_nat gnr).
    set (dsr := rev (firstn nd dstops)).
    set (gsr := rev (map gc_depth (firstn ng gstops))).
    assert (Ed : dnr = Z.of_nat nd) by (subst nd; lia).
    assert (Eg : gnr = Z.of_nat ng) by (subst ng; lia).
    assert (Hlen : (length (merge_down dsr gsr) + length (common_down dsr gsr)
                    = nd + ng)%nat).
    { rewrite merge_common_length. subst dsr gsr.
      rewrite !length_rev, length_map, !length_firstn. lia. }
    replace (Z.to_nat (dnr + gnr)) with (nd + ng)%nat by lia.
    rewrite Ed at 1 2. rewrite Eg at 1 2.
    rewrite (merge_loop_spec dstops gstops (nd + ng) nd ng (S (nd + ng))
               (Z.of_nat nd + Z.of_nat ng - 1) [] dsr gsr)
      by (lia || reflexivity).
    cbn [obind].
    replace (Z.of_nat nd + Z.of_nat ng - 1
             - Z.of_nat (length (merge_down dsr gsr)))
      with (Z.of_nat (length (common_down dsr gsr)) - 1) by lia.
    rewrite zero_fill_spec by lia.
    now rewrite app_nil_r.
Qed.

Lemma ascending_repeat_0 (k : nat) : ascending (repeat 0 k).
Proof.
  induction k as [|k IH]; cbn [repeat]; [constructor|].
  constructor; [exact IH|].
  apply Forall_forall. intros x Hx. apply repeat_spec in Hx. lia.
Qed.

Lemma occurrences_rev (l : list Z) (x : Z) :
  occurrences (rev l) x = occurrences l x.
Proof. unfold occurrences. apply count_occ_rev. Qed.

Lemma occurrences_padded (k : nat) (l : list Z) (x : Z) :
  x <> 0 -> occurrences (repeat 0 k ++ l) x = occurrences l x.
Proof.
  intros Hx. unfold occurrences.
  rewrite count_occ_app, count_occ_repeat_neq by congruence. reflexivity.
Qed.

(** The returned array ascends when the inputs ascend and hold no negative
    depth. *)
Lemma sort_stops_result_ascending (ds gs : list Z) (k : nat) :
  ascending ds -> ascending gs ->
  Forall (fun x => 0 <= x) ds -> Forall (fun x => 0 <= x) gs ->
  ascending (repeat 0 k ++ rev (merge_down (rev ds) (rev gs))).
Proof.
  intros Hd Hg Pd Pg. apply sorted_app.
  - apply ascending_repeat_0.
  - apply ascending_rev, merge_down_descending; now apply descending_rev.
  - intros x y Hx Hy. apply repeat_spec in Hx. subst x.
    apply in_rev, merge_down_In in Hy.
    rewrite Forall_forall in Pd, Pg.
    destruct Hy as [Hy|Hy]; apply in_rev in Hy; auto.
Qed.

Ltac by_computation :=
  vm_compute; repeat constructor; (discriminate || reflexivity).

(** C1, as amended.  For every array of fixed deco-stop depths of which the
    first [dnr] entries ascend and every array of gas changes of which the
    first [gnr] depths ascend, no depth being negative and [dnr >= 1] unless
    there is no gas change, [sort_stops]
    returns an array in ascending order that contains every depth of the two
    inputs and nothing else but 0; a depth other than 0 occurs in it as often
    as in the input that has it more often, so that a depth which occurs once
    among the fixed depths and once among the gas changes is retained once. *)
Theorem sort_stops_ascending_union (dstops : list Z) (dnr : Z)
    (gstops : list gaschanges) (gnr : Z) :
  0 <= dnr <= Z.of_nat (length dstops) ->
  0 <= gnr <= Z.of_nat (length gstops) ->
  1 <= dnr \/ gnr = 0 ->
  ascending (fixed_depths dstops dnr) ->
  ascending (change_depths gstops gnr) ->
  Forall (fun x => 0 <= x) (fixed_depths dstops dnr) ->
  Forall (fun x => 0 <= x) (change_depths gstops gnr) ->
  exists stoplevels,
    sort_stops dstops dnr gstops gnr = Some stoplevels
    /\ ascending stoplevels
    /\ (forall x, In x (fixed_depths dstops dnr)
                  \/ In x (change_depths gstops gnr) -> In x stoplevels)
    /\ (forall x, In x stoplevels ->
                  In x (fixed_depths dstops dnr)
                  \/ In x (change_depths gstops gnr) \/ x = 0)
    /\ (forall x, x <> 0 ->
          occurrences stoplevels x
          = Nat.max (occurrences (fixed_depths dstops dnr) x)
                    (occurrences (change_depths gstops gnr) x))
    /\ (forall x, x <> 0 ->
          occurrences (fixed_depths dstops dnr) x = 1%nat ->
          occurrences (change_depths gstops gnr) x = 1%nat ->
          occurrences stoplevels x = 1%nat).
Proof.
  intros Hd Hg Hne Ad Ag Pd Pg.
  eexists. split; [now apply sort_stops_spec|].
  set (ds := fixed_depths dstops dnr) in *.
  set (gs := change_depths gstops gnr) in *.
  assert (Hocc : forall x, x <> 0 ->
            occurrences (repeat 0 (length (common_down (rev ds) (rev gs)))
                         ++ rev (merge_down (rev ds) (rev gs))) x
            = Nat.max (occurrences ds x) (occurrences gs x)).
  { intros x Hx. rewrite occurrences_padded, occurrences_rev by assumption.
    destruct (merge_common_occurrences x (rev ds) (rev gs)) as [-> _];
      [now apply descending_rev|now apply descending_rev|].
    now rewrite !occurrences_rev. }
  split; [now apply sort_stops_result_ascending|].
  split; [|split; [|split]].
  - intros x Hx. apply in_or_app. right.
    apply in_rev. rewrite rev_involutive. apply merge_down_In.
    destruct Hx as [Hx|Hx]; [left|right]; now apply in_rev in Hx.
  - intros x Hx. apply in_app_or in Hx. destruct Hx as [Hx|Hx].
    + apply repeat_spec in Hx. tauto.
    + apply in_rev, merge_down_In in Hx.
      destruct Hx as [Hx|Hx]; apply in_rev in Hx; tauto.
  - exact Hocc.
  - intros x Hx H1 H2. rewrite Hocc, H1, H2 by assumption. reflexivity.
Qed.


(** ** Finding a cylinder by its gas *)

Section CylinderSearch.
Context {L : DiveLib}.

Lemma get_gasidx_from_spec (d : dive) (mix : gasmix) (n : nat) :
  forall i0, 0 <= i0 ->
    let r := get_gasidx_from n i0 d mix in
    (i0 <= r < i0 + Z.of_nat n /\ gas_close d mix r
     /\ forall j, i0 <= j < r -> ~ gas_close d mix j)
    \/ (r = -1 /\ forall j, i0 <= j < i0 + Z.of_nat n -> ~ gas_close d mix j).
Proof.
  unfold gas_close.
  induction n as [|n IH]; intros i0 H0; cbn [get_gasidx_from].
  - right. split; [reflexivity|]. intros j Hj. lia.
  - destruct (Z.ltb_spec (gasmix_distance (cyl_gasmix (cyl_at d i0)) mix) 200)
      as [Hlt|Hge].
    + left. split; [lia|]. split; [assumption|]. intros j Hj. lia.
    + destruct (IH (i0 + 1) ltac:(lia)) as [(Hr & Hc & Hf)|(Hr & Hf)].
      * left. split; [lia|]. split; [assumption|].
        intros j Hj. destruct (Z.eq_dec j i0) as [->|Hne]; [lia|].
        apply Hf. lia.
      * right. split; [assumption|].
        intros j Hj. destruct (Z.eq_dec j i0) as [->|Hne]; [lia|].
        apply Hf. lia.
Qed.

Lemma verify_gas_exists_from_spec (d : dive) (mix : gasmix) (n : nat) :
  forall i0, 0 <= i0 ->
    let r := verify_gas_exists_from n i0 d mix in
    let usable := fun i => has_data d i /\ gas_close d mix i in
    (i0 <= r < i0 + Z.of_nat n /\ usable r
     /\ forall j, i0 <= j < r -> ~ usable j)
    \/ (r = -1 /\ forall j, i0 <= j < i0 + Z.of_nat n -> ~ usable j).
Proof.
  unfold gas_close, has_data.
  induction n as [|n IH]; intros i0 H0; cbn [verify_gas_exists_from].
  - right. split; [reflexivity|]. intros j Hj. lia.
  - assert (Hnext :
      (cylinder_nodata (cyl_at d i0) = false
       /\ gasmix_distance (cyl_gasmix (cyl_at d i0)) mix < 200 -> False) ->
      let r := verify_gas_exists_from n (i0 + 1) d mix in
      (i0 <= r < i0 + Z.of_nat (S n)
       /\ (cylinder_nodata (cyl_at d r) = false
           /\ gasmix_distance (cyl_gasmix (cyl_at d r)) mix < 200)
       /\ forall j, i0 <= j < r ->
            ~ (cylinder_nodata (cyl_at d j) = false
               /\ gasmix_distance (cyl_gasmix (cyl_at d j)) mix < 200))
      \/ (r = -1
          /\ forall j, i0 <= j < i0 + Z.of_nat (S n) ->
               ~ (cylinder_nodata (cyl_at d j) = false
                  /\ gasmix_distance (cyl_gasmix (cyl_at d j)) mix < 200))).
    { intros Hno r.
      destruct (IH (i0 + 1) ltac:(lia)) as [(Hr & Hc & Hf)|(Hr & Hf)].
      - left. split; [subst r; lia|]. split; [assumption|].
        intros j Hj. destruct (Z.eq_dec j i0) as [->|Hne]; [exact Hno|].
        apply Hf. lia.
      - right. split; [assumption|].
        intros j Hj. destruct (Z.eq_dec j i0) as [->|Hne]; [exact Hno|].
        apply Hf. lia. }
    destruct (cylinder_nodata (cyl_at d i0)) eqn:Hdata.
    + apply Hnext. intros [Hd _]. discriminate.
    + destruct (Z.ltb_spec (gasmix_distance (cyl_gasmix (cyl_at d i0)) mix) 200)
        as [Hlt|Hge].
      * left. split; [lia|]. split; [tauto|]. intros j Hj. lia.
      * apply Hnext. intros [_ Hd]. lia.
Qed.

Lemma get_gasidx_first_index (d : dive) (mix : gasmix) :
  first_index (gas_close d mix) (get_gasidx d mix).
Proof.
  unfold first_index, get_gasidx.
  destruct (get_gasidx_from_spec d mix (Z.to_nat MAX_CYLINDERS) 0 ltac:(lia))
    as [(Hr & Hc & Hf)|(Hr & Hf)].
  - left. split; [lia|]. split; assumption.
  - right. split; [assumption|]. intros j Hj. apply Hf. lia.
Qed.

(** [get_gasidx] answers -1 exactly when no cylinder is within 200. *)
Lemma get_gasidx_none (d : dive) (mix : gasmix) :
  get_gasidx d mix = -1 <->
  forall j, 0 <= j < MAX_CYLINDERS ->
            200 <= gasmix_distance (cyl_gasmix (cyl_at d j)) mix.
Proof.
  destruct (get_gasidx_first_index d mix) as [(Hr & Hc & Hf)|(Hr & Hf)];
    unfold gas_close in *.
  - split; [lia|]. intros H. specialize (H _ Hr). lia.
  - split; [|tauto]. intros _ j Hj. specialize (Hf j Hj). lia.
Qed.

End CylinderSearch.

(** C6, as amended.  For every cylinder inventory and gas mix,
    [verify_gas_exists] returns the first cylinder index at which the
    cylinder has data and the gas distance to the requested mix is < 200, or
    -1 when no such index exists; [get_gasidx] returns the first index at
    which the gas distance is < 200, whether the cylinder has data or not, or
    -1 when no such index exists. *)
Theorem find_cylinder_by_gas_first_index {L : DiveLib} (d : dive)
    (mix : gasmix) :
  first_index (fun i => has_data d i /\ gas_close d mix i)
    (fst (verify_gas_exists d mix))
  /\ first_index (gas_close d mix) (get_gasidx d mix).
Proof.
  split; [|apply get_gasidx_first_index].
  unfold first_index, verify_gas_exists. cbn [fst].
  destruct (verify_gas_exists_from_spec d mix (Z.to_nat MAX_CYLINDERS) 0
              ltac:(lia)) as [(Hr & Hc & Hf)|(Hr & Hf)].
  - left. split; [lia|]. split; assumption.
  - right. split; [assumption|]. intros j Hj. apply Hf. lia.
Qed.

(** C6 as stated fails for [get_gasidx]: with one EAN50 cylinder followed by
    empty slots and a requested mix of 19.9% oxygen, it returns slot 1, which
    has no data, where no cylinder with data is within 200. *)
Lemma get_gasidx_ignores_nodata :
  let L := stand_in (decode_from []) 0 in
  let d := dive_with [cylinder_of "EAN50" ean50] [] [] in
  let mix := mk_gasmix 199 0 in
  get_gasidx d mix = 1
  /\ cylinder_nodata (cyl_at d 1) = true
  /\ fst (verify_gas_exists d mix) = -1
  /\ ~ first_index (fun i => has_data d i /\ gas_close d mix i)
         (get_gasidx d mix).
Proof.
  cbv zeta. split; [reflexivity|]. split; [reflexivity|].
  split; [reflexivity|].
  change (get_gasidx (L := stand_in (decode_from []) 0)
            (dive_with [cylinder_of "EAN50" ean50] [] []) (mk_gasmix 199 0))
    with 1.
  intros [(_ & [Hd _] & _)|(H & _)]; [|discriminate].
  unfold has_data in Hd. vm_compute in Hd. discriminate.
Qed.

(** ** Appending a way point *)

Lemma walk_lasttime_max (l : list divedatapoint) :
  forall lasttime, 0 <= lasttime ->
    walk_lasttime l lasttime = Z.max lasttime (max_time l).
Proof.
  unfold max_time.
  induction l as [|p l IH]; intros lasttime H; cbn [walk_lasttime map fold_right].
  - lia.
  - destruct (Z.gtb_spec (dp_time p) lasttime); rewrite IH by lia; lia.
Qed.

Lemma max_time_bounds (l : list divedatapoint) :
  0 <= max_time l /\ forall p, In p l -> dp_time p <= max_time l.
Proof.
  unfold max_time.
  induction l as [|q l [IH0 IH]]; cbn [map fold_right]; split; try lia.
  - intros p [].
  - intros p [<-|Hp]; [lia|]. specialize (IH p Hp). lia.
Qed.

Lemma max_time_attained (l : list divedatapoint) :
  (exists p, In p l /\ 0 <= dp_time p) ->
  exists p, In p l /\ dp_time p = max_time l.
Proof.
  unfold max_time.
  induction l as [|q l IH]; intros (p & Hp & H0); [destruct Hp|].
  cbn [map fold_right].
  destruct (Z.max_spec (dp_time q) (fold_right Z.max 0 (map dp_time l)))
    as [[Hlt ->]|[Hge ->]].
  - destruct (Z.eq_dec (fold_right Z.max 0 (map dp_time l)) 0) as [E0|Hne].
    + destruct Hp as [<-|Hp].
      * lia.
      * destruct IH as (r & Hr & Er); [eauto|]. exists r. split; [now right|].
        assumption.
    + assert (Hex : exists p, In p l /\ 0 <= dp_time p).
      { clear - Hne. induction l as [|a l IH]; cbn [map fold_right] in Hne;
          [congruence|].
        destruct (Z.leb_spec 0 (dp_time a)).
        - exists a. split; [now left|assumption].
        - destruct IH as (r & Hr & H0); [lia|]. exists r. split; [now right|].
          assumption. }
      destruct (IH Hex) as (r & Hr & Er). exists r. split; [now right|].
      assumption.
  - exists q. split; [now left|reflexivity].
Qed.

Lemma add_to_end_of_diveplan_dp (plan : diveplan) (p : divedatapoint) :
  dp (add_to_end_of_diveplan plan p)
  = dp plan
    ++ [mk_dp (if dp_time p =? 0 then 0 else dp_time p + max_time (dp plan))
          (dp_depth p) (dp_gasmix p) (dp_po2 p) (dp_entered p)].
Proof.
  unfold add_to_end_of_diveplan, set_dp. cbn [dp]. f_equal. f_equal.
  rewrite walk_lasttime_max by lia.
  destruct (dp plan) as [|q l] eqn:El.
  - cbn [negb andb]. destruct p as [t dph g po e]. cbn.
    destruct (Z.eqb_spec t 0) as [->|Hne]; f_equal. unfold max_time. cbn. lia.
  - cbn [negb andb]. destruct (Z.eqb_spec (dp_time p) 0) as [E|Hne]; cbn [negb].
    + destruct p as [t dph g po e]. cbn in *. now subst t.
    + f_equal. pose proof (max_time_bounds (q :: l)). lia.
Qed.

Lemma plan_add_segment_absolute_time_aux (plan : diveplan)
    (duration depth : Z) (gas : gasmix) (po2 : Z) (entered : bool) :
  dp (plan_add_segment plan duration depth gas po2 entered)
  = dp plan
    ++ [mk_dp (if duration =? 0 then 0 else duration + max_time (dp plan))
          depth gas po2 entered]
  /\ surface_pressure (plan_add_segment plan duration depth gas po2 entered)
     = surface_pressure plan.
Proof.
  unfold plan_add_segment, create_dp.
  now rewrite add_to_end_of_diveplan_dp.
Qed.


(** ** The ascent rate *)


Lemma ascend_velocity_positive (depth avg_depth bottom_time : Z) :
  0 < ascend_velocity depth avg_depth bottom_time.
Proof.
  unfold ascend_velocity.
  destruct (depth <=? 6000); [reflexivity|].
  destruct (depth * 4 >? avg_depth * 3); reflexivity.
Qed.

(** ** The parsers of gas and pO2 strings *)

(** C8.  For every input string (and for the null pointer), when
    [validate_gas] or [validate_po2] returns 0 the output location holds
    what it held before the call. *)
Theorem validate_failure_keeps_output (text : option (list ascii))
    (gas : gasmix) (mbar_po2 : Z) :
  (fst (validate_gas text gas) = 0 -> snd (validate_gas text gas) = gas)
  /\ (fst (validate_po2 text mbar_po2) = 0 ->
      snd (validate_po2 text mbar_po2) = mbar_po2).
Proof.
  split.
  - unfold validate_gas. destruct text as [text|]; [|reflexivity].
    destruct (skip_spaces text) as [|c rest]; [reflexivity|].
    match goal with
    | |- context [if strcasecmp_eq ?a ?b then ?x else ?y] =>
        destruct (if strcasecmp_eq a b then x else y) as [[o2 he] t]
    end.
    destruct (skip_spaces t); [|reflexivity].
    destruct ((o2 <? 1) || (o2 >? 1000) || (he <? 0) || (o2 + he >? 1000));
      [reflexivity|].
    cbn [fst]. discriminate.
  - unfold validate_po2. destruct text as [text|]; [|reflexivity].
    destruct (get_tenths text text) as [po2 t].
    destruct (po2 <? 0); [reflexivity|].
    destruct (skip_spaces (skip_spaces t)); [|reflexivity].
    cbn [fst]. discriminate.
Qed.

Lemma validate_gas_accepts_valid (text : option (list ascii))
    (gas : gasmix) (o2 he : Z) :
  validate_gas text gas = (1, mk_gasmix o2 he) ->
  1 <= o2 <= 1000 /\ 0 <= he /\ o2 + he <= 1000.
Proof.
  unfold validate_gas. destruct text as [text|]; [|discriminate].
  destruct (skip_spaces text) as [|c rest]; [discriminate|].
  match goal with
  | |- context [if strcasecmp_eq ?a ?b then ?x else ?y] =>
      destruct (if strcasecmp_eq a b then x else y) as [[o2' he'] t]
  end.
  destruct (skip_spaces t); [|discriminate].
  destruct (Z.ltb_spec o2' 1); [discriminate|].
  destruct (Z.gtb_spec o2' 1000); [discriminate|].
  destruct (Z.ltb_spec he' 0); [discriminate|].
  destruct (Z.gtb_spec (o2' + he') 1000); [discriminate|].
  cbn [orb]. intros [= <- <-]. lia.
Qed.

(** C5, on the inputs it names and on "air" followed by a blank.  The four
    mixes are accepted with the values of the claim and "21/80" and "" are
    rejected; "air " is rejected, although after "air" only white space
    trails, where "ean32 " with the same trailing blank is accepted.  Every
    mix that is accepted satisfies 1 <= o2 <= 1000, 0 <= he and
    o2 + he <= 1000. *)
Theorem validate_gas_on_examples (gas : gasmix) :
  validate_gas (Some (str "air")) gas = (1, mk_gasmix 209 0)
  /\ validate_gas (Some (str "  EAN32 ")) gas = (1, mk_gasmix 320 0)
  /\ validate_gas (Some (str "21/35")) gas = (1, mk_gasmix 210 350)
  /\ validate_gas (Some (str "18/45%")) gas = (1, mk_gasmix 180 450)
  /\ validate_gas (Some (str "21/80")) gas = (0, gas)
  /\ validate_gas (Some (str "")) gas = (0, gas)
  /\ validate_gas (Some (str "air ")) gas = (0, gas)
  /\ validate_gas (Some (str "ean32 ")) gas = (1, mk_gasmix 320 0)
  /\ (forall text o2 he,
        validate_gas text gas = (1, mk_gasmix o2 he) ->
        1 <= o2 <= 1000 /\ 0 <= he /\ o2 + he <= 1000).
Proof.
  repeat (split; [reflexivity|]).
  intros text o2 he. apply validate_gas_accepts_valid.
Qed.

(** ** The times of the way points *)

Lemma waypoint_times_add (plan : diveplan) (duration depth : Z) (gas : gasmix)
    (po2 : Z) (entered : bool) :
  0 <= duration ->
  waypoint_times (plan_add_segment plan duration depth gas po2 entered)
  = waypoint_times plan
    ++ (if duration =? 0 then [] else [duration + max_time (dp plan)]).
Proof.
  intros H. unfold waypoint_times.
  destruct (plan_add_segment_absolute_time_aux plan duration depth gas po2
              entered) as [-> _].
  rewrite map_app, filter_app. f_equal. cbn [map dp_time filter].
  destruct (Z.eqb_spec duration 0) as [->|Hne]; [reflexivity|].
  pose proof (max_time_bounds (dp plan)) as [H0 _].
  destruct (Z.eqb_spec (duration + max_time (dp plan)) 0); [lia|reflexivity].
Qed.

(** A way point appended with a duration that is not negative keeps the
    times increasing. *)
Lemma times_increasing_add (plan : diveplan) (duration depth : Z)
    (gas : gasmix) (po2 : Z) (entered : bool) :
  0 <= duration -> times_increasing plan ->
  times_increasing (plan_add_segment plan duration depth gas po2 entered).
Proof.
  intros H Hp. unfold times_increasing. rewrite waypoint_times_add by assumption.
  destruct (Z.eqb_spec duration 0) as [->|Hne]; [now rewrite app_nil_r|].
  apply sorted_app; [exact Hp|constructor; constructor|].
  intros x y Hx [<-|[]]. unfold waypoint_times in Hx.
  apply filter_In in Hx. destruct Hx as [Hx _].
  apply in_map_iff in Hx. destruct Hx as (p & <- & Hin).
  pose proof (max_time_bounds (dp plan)) as [_ Hb]. specialize (Hb p Hin). lia.
Qed.

(** ** The ascent keeps the times increasing *)

Section AscentInvariant.
Context {L : DiveLib}.
Variables (d : dive) (po2 avg_depth bottom_time : Z).
Variables (stoplevels : list Z) (changes : list gaschanges).

Lemma ascent_inv_frame (s s' : pstate) :
  p_diveplan s' = p_diveplan s ->
  p_previous_point_time s' = p_previous_point_time s ->
  p_clock s <= p_clock s' ->
  ascent_inv s -> ascent_inv s'.
Proof.
  unfold ascent_inv. intros -> -> Hc [H1 H2]. split; [lia|assumption].
Qed.

Lemma ascent_inv_add_waypoint (depth : Z) (s : pstate) :
  ascent_inv s -> ascent_inv (add_waypoint po2 depth s).
Proof.
  unfold ascent_inv, add_waypoint. intros [H1 H2]. cbn. split; [lia|].
  apply times_increasing_add; [lia|assumption].
Qed.

Lemma ascend_inv (fuel : nat) :
  forall s, ascent_inv s ->
    ascent_inv (snd (ascend d po2 avg_depth bottom_time stoplevels fuel s)).
Proof.
  induction fuel as [|fuel IH]; intros s Hs; [exact Hs|].
  cbn [ascend].
  set (rate := ascend_velocity (p_depth s) avg_depth bottom_time).
  set (s1 := if negb (rate =? p_last_ascend_rate s)
             then set_last_ascend_rate rate
                    (set_stopping false (add_waypoint po2 (p_depth s) s))
             else s).
  assert (H1 : ascent_inv s1).
  { subst s1. destruct (negb (rate =? p_last_ascend_rate s)); [|assumption].
    eapply ascent_inv_frame; [| | |apply (ascent_inv_add_waypoint (p_depth s) s Hs)];
      cbn; (reflexivity || lia). }
  clearbody s1.
  destruct (rd stoplevels (p_stopidx s1)) as [level|]; [|exact H1].
  match goal with
  | |- ascent_inv (snd (if _ then ascend _ _ _ _ _ _ ?s2 else _)) =>
      assert (H2 : ascent_inv s2)
        by (eapply ascent_inv_frame; [| | |exact H1];
            cbn; unfold TIMESTEP; (reflexivity || lia))
  end.
  match goal with
  | |- ascent_inv (snd (if ?c then _ else _)) => destruct c
  end; [now apply IH|exact H2].
Qed.

Lemma trial_ascent_inv (fuel : nat) :
  forall trial_depth s, ascent_inv s ->
    ascent_inv
      (snd (trial_ascent d po2 avg_depth bottom_time stoplevels fuel
              trial_depth s)).
Proof.
  induction fuel as [|fuel IH]; intros trial_depth s Hs; [exact Hs|].
  cbn [trial_ascent].
  destruct (rd stoplevels (p_stopidx s)) as [level|]; [|exact Hs].
  destruct (trial_depth >? level); [|exact Hs].
  assert (H1 : ascent_inv (breathe d po2 trial_depth TIMESTEP s))
    by (eapply ascent_inv_frame; [| | |exact Hs]; cbn; (reflexivity || lia)).
  match goal with
  | |- ascent_inv (snd (if ?c then _ else _)) => destruct c
  end; [exact H1|now apply IH].
Qed.

Lemma deco_stop_inv (fuel : nat) :
  forall s, ascent_inv s ->
    ascent_inv (snd (deco_stop d po2 avg_depth bottom_time stoplevels fuel s)).
Proof.
  induction fuel as [|fuel IH]; intros s Hs; [exact Hs|].
  cbn [deco_stop].
  pose proof (trial_ascent_inv (S fuel) (p_depth s) s Hs) as Ht.
  destruct (trial_ascent d po2 avg_depth bottom_time stoplevels (S fuel)
              (p_depth s) s) as [[st clear_to_ascend] s1].
  cbn [snd] in Ht.
  destruct st; try exact Ht.
  set (s2 := set_deco _ s1).
  assert (H2 : ascent_inv s2)
    by (eapply ascent_inv_frame; [| | |exact Ht]; cbn; (reflexivity || lia)).
  clearbody s2.
  destruct clear_to_ascend; [exact H2|].
  set (s3 := if negb (p_stopping s2)
             then set_stopping true (add_waypoint po2 (p_depth s2) s2)
             else s2).
  assert (H3 : ascent_inv s3).
  { subst s3. destruct (negb (p_stopping s2)); [|assumption].
    eapply ascent_inv_frame;
      [| | |apply (ascent_inv_add_waypoint (p_depth s2) s2 H2)];
      cbn; (reflexivity || lia). }
  clearbody s3.
  apply IH.
  eapply ascent_inv_frame; [| | |exact H3];
    cbn; unfold DECOTIMESTEP; (reflexivity || lia).
Qed.

Lemma gas_change_inv (s s' : pstate) :
  ascent_inv s -> gas_change d po2 stoplevels changes s = Some s' ->
  ascent_inv s'.
Proof.
  unfold gas_change. intros Hs.
  destruct (p_gi s >=? 0); [|now intros [= <-]].
  destruct (rd stoplevels (p_stopidx s)) as [level|]; [|discriminate].
  destruct (rd changes (p_gi s)) as [g|]; [|discriminate].
  cbn [obind].
  destruct (level =? gc_depth g); [|now intros [= <-]].
  intros [= <-].
  eapply ascent_inv_frame;
    [| | |apply (ascent_inv_add_waypoint (p_depth s) s Hs)];
    cbn; (reflexivity || lia).
Qed.

Lemma ascent_loop_inv (fuel : nat) :
  forall s, ascent_inv s ->
    ascent_inv
      (snd (ascent_loop d po2 avg_depth bottom_time stoplevels changes fuel s)).
Proof.
  induction fuel as [|fuel IH]; intros s Hs; [exact Hs|].
  cbn [ascent_loop].
  pose proof (ascend_inv (S fuel) s Hs) as Ha.
  destruct (ascend d po2 avg_depth bottom_time stoplevels (S fuel) s)
    as [st s1].
  cbn [snd] in Ha.
  destruct st; try exact Ha.
  destruct (p_depth s1 <=? 0); [exact Ha|].
  destruct (gas_change d po2 stoplevels changes s1) as [s2|] eqn:Eg;
    [|exact Ha].
  pose proof (gas_change_inv s1 s2 Ha Eg) as H2.
  match goal with
  | |- context [deco_stop _ _ _ _ _ _ ?s3] =>
      assert (H3 : ascent_inv s3)
        by (eapply ascent_inv_frame; [| | |exact H2];
            cbn; (reflexivity || lia));
      pose proof (deco_stop_inv (S fuel) s3 H3) as Hd;
      destruct (deco_stop d po2 avg_depth bottom_time stoplevels (S fuel) s3)
        as [st s4]
  end.
  cbn [snd] in Hd.
  destruct st; try exact Hd.
  apply IH.
  destruct (p_stopping s4); [|exact Hd].
  eapply ascent_inv_frame;
    [| | |apply (ascent_inv_add_waypoint (p_depth s4) s4 Hd)];
    cbn; (reflexivity || lia).
Qed.

End AscentInvariant.

(** ** The dive made from a plan *)

Section DiveFromPlan.
Context {L : DiveLib}.

(** A segment of the profile ends the samples with its own time, depth and
    pO2, and leaves the reports as they are. *)
Lemma cdp_segment_sample (plan : diveplan) (p : divedatapoint)
    (s s' : cdp_state) :
  cdp_segment plan p s = inl s' ->
  c_log s' = c_log s
  /\ exists pre c,
       dc_sample (c_dive s')
       = pre ++ [mk_sample (dp_time p) (dp_depth p) (dp_po2 p) c].
Proof.
  unfold cdp_segment.
  set (d0 := if negb (c_oldpo2 s =? dp_po2 p) && negb (c_lasttime s =? 0)
             then _ else c_dive s).
  clearbody d0.
  destruct (gasmix_distance _ (c_oldgasmix s) >? 0).
  - destruct (verify_gas_exists d0 _) as [idx err].
    destruct (idx <? 0); [discriminate|].
    intros [= <-]. cbn. split; [reflexivity|]. eauto.
  - destruct (c_cyl s); intros [= <-]; cbn; (split; [reflexivity|]); eauto.
Qed.

Lemma cdp_segment_log (plan : diveplan) (p : divedatapoint)
    (s s' : cdp_state) :
  cdp_segment plan p s = inr s' -> exists t, c_log s' = c_log s ++ t.
Proof.
  unfold cdp_segment.
  set (d0 := if negb (c_oldpo2 s =? dp_po2 p) && negb (c_lasttime s =? 0)
             then _ else c_dive s).
  clearbody d0.
  destruct (gasmix_distance _ (c_oldgasmix s) >? 0).
  - destruct (verify_gas_exists d0 _) as [idx err].
    destruct (idx <? 0); [|destruct (Dive_cyl idx); discriminate].
    intros [= <-]. cbn. eauto.
  - destruct (c_cyl s); discriminate.
Qed.

Lemma cdp_loop_last_sample (plan : diveplan) (l : list divedatapoint) :
  forall s s',
    cdp_loop plan l s = inl s' ->
    c_log s' = c_log s
    /\ match last_segment l with
       | Some p =>
           exists pre c,
             dc_sample (c_dive s')
             = pre ++ [mk_sample (dp_time p) (dp_depth p) (dp_po2 p) c]
       | None => dc_sample (c_dive s') = dc_sample (c_dive s)
       end.
Proof.
  induction l as [|p l IH]; intros s s' H; cbn [cdp_loop last_segment] in *.
  - injection H as <-. auto.
  - destruct (dp_time p =? 0).
    + destruct (verify_gas_exists (c_dive s) (dp_gasmix p)) as [idx err].
      destruct (idx <? 0); [discriminate|].
      destruct (IH _ _ H) as [Hl Hs]. split; [assumption|].
      destruct (last_segment l); assumption.
    + destruct (cdp_segment plan p s) as [s1|s1] eqn:E1; [|discriminate].
      destruct (cdp_segment_sample _ _ _ _ E1) as [Hl1 Hs1].
      destruct (IH _ _ H) as [Hl Hs]. split; [congruence|].
      destruct (last_segment l); [assumption|]. now rewrite Hs.
Qed.

Lemma cdp_loop_log (plan : diveplan) (l : list divedatapoint) :
  forall s s',
    cdp_loop plan l s = inr s' -> exists t, c_log s' = c_log s ++ t.
Proof.
  induction l as [|p l IH]; intros s s' H; cbn [cdp_loop] in *; [discriminate|].
  destruct (dp_time p =? 0).
  - destruct (verify_gas_exists (c_dive s) (dp_gasmix p)) as [idx err].
    destruct (idx <? 0); [|now apply IH].
    injection H as <-. cbn. eauto.
  - destruct (cdp_segment plan p s) as [s1|s1] eqn:E1.
    + destruct (cdp_segment_sample _ _ _ _ E1) as [Hl1 _].
      destruct (IH _ _ H) as [t Ht]. exists t. congruence.
    + injection H as <-. now apply (cdp_segment_log plan p).
Qed.

(** The reports of a call come after those before it. *)
Lemma create_dive_from_plan_log (plan : diveplan) (master_dive : dive)
    (log : list report) :
  exists t, snd (create_dive_from_plan plan master_dive log) = log ++ t.
Proof.
  unfold create_dive_from_plan.
  destruct (dp plan) as [|first rest]; [exists []; cbn; now rewrite app_nil_r|].
  match goal with
  | |- context [cdp_loop plan ?l ?s0] =>
      destruct (cdp_loop plan l s0) as [s|s] eqn:E
  end.
  - destruct (cdp_loop_last_sample _ _ _ _ E) as [Hl _]. cbn in Hl.
    exists []. rewrite app_nil_r.
    destruct (Z.of_nat (length (dc_sample (c_dive s))) <=? 1); exact Hl.
  - destruct (cdp_loop_log _ _ _ _ E) as [t Ht]. cbn in Ht.
    exists (t ++ [Too_many_gas_mixes]). cbn [snd]. now rewrite Ht, app_assoc.
Qed.

(** A dive is made only of a plan with a segment, and its last sample is
    where the last segment ends. *)
Lemma create_dive_from_plan_last_sample (plan : diveplan) (master_dive : dive)
    (log : list report) (d : dive) :
  fst (fst (create_dive_from_plan plan master_dive log)) = Some d ->
  exists p,
    last_segment (dp plan) = Some p
    /\ s_time (last_sample d) = dp_time p
    /\ s_depth (last_sample d) = dp_depth p
    /\ s_po2 (last_sample d) = dp_po2 p.
Proof.
  unfold create_dive_from_plan.
  destruct (dp plan) as [|first rest] eqn:El; [discriminate|].
  match goal with
  | |- context [cdp_loop plan ?l ?s0] =>
      destruct (cdp_loop plan l s0) as [s|s] eqn:E; [|discriminate]
  end.
  destruct (cdp_loop_last_sample _ _ _ _ E) as [_ Hs].
  destruct (last_segment (first :: rest)) as [p|].
  - destruct Hs as (pre & c & Hs).
    destruct (Z.of_nat (length (dc_sample (c_dive s))) <=? 1); [discriminate|].
    intros [= <-]. exists p. unfold last_sample. rewrite Hs, last_last.
    auto.
  - cbn in Hs. rewrite Hs. cbn. discriminate.
Qed.

Lemma last_segment_In (l : list divedatapoint) (p : divedatapoint) :
  last_segment l = Some p -> In p l /\ dp_time p <> 0.
Proof.
  induction l as [|q l IH]; cbn [last_segment]; [discriminate|].
  destruct (last_segment l) as [r|].
  - intros [= <-]. destruct (IH eq_refl). split; [now right|assumption].
  - destruct (Z.eqb_spec (dp_time q) 0); [discriminate|].
    intros [= <-]. split; [now left|assumption].
Qed.

End DiveFromPlan.

(** ** plan *)

Section PlanProperties.
Context {L : DiveLib}.

Lemma default_surface_pressure_dp (plan : diveplan) :
  dp (default_surface_pressure plan) = dp plan.
Proof.
  unfold default_surface_pressure.
  now destruct (surface_pressure plan =? 0).
Qed.

Lemma times_increasing_default (plan : diveplan) :
  times_increasing plan -> times_increasing (default_surface_pressure plan).
Proof.
  unfold times_increasing, waypoint_times.
  now rewrite default_surface_pressure_dp.
Qed.

(** From the point where the cylinder is known, a run leaves the times of
    the way points increasing if it finds them so, wherever it stops. *)
Lemma plan_with_cylinder_times (fuel : nat) (levels : list Z)
    (plan0 : diveplan) (cached_datap : option snapshot) (d master_dive : dive)
    (add_deco show_disclaimer : bool) (ds : deco_state) (table : dive_table_t)
    (gas : gasmix) (current_cylinder : Z) (log : list report) :
  times_increasing plan0 -> 0 <= s_depth (last_sample d) ->
  times_increasing
    (o_diveplan
       (plan_with_cylinder fuel levels plan0 cached_datap d master_dive
          add_deco show_disclaimer ds table gas current_cylinder log)).
Proof.
  intros Hp Hd. unfold plan_with_cylinder.
  destruct add_deco; cbn [negb].
  - destruct (tissue_at_end (Some d) cached_datap ds log)
      as [[[tissue_tolerance cached'] ds'] log'].
    destruct (analyze_gaslist plan0 d (s_depth (last_sample d))
                current_cylinder) as [[[chs nr] best]|]; [|exact Hp].
    destruct (sort_stops levels _ chs nr) as [stoplevels|]; [|exact Hp].
    destruct (if negb (best =? current_cylinder)
              then (true, best, cyl_gasmix (cyl_at d best))
              else (false, current_cylinder, gas)) as [[stopping cyl] gas'].
    match goal with
    | |- context [ascent_loop ?a ?b ?c ?e ?f ?g fuel ?s0] =>
        pose proof (ascent_loop_inv a b c e f g fuel s0) as Hinv;
        destruct (ascent_loop a b c e f g fuel s0) as [st s]
    end.
    cbn [snd] in Hinv.
    destruct Hinv as [Hc Hi]; [split; [cbn; lia|exact Hp]|].
    destruct st; try exact Hi.
    destruct (create_dive_from_plan _ master_dive log') as [[divep m] lg].
    cbn [o_diveplan]. apply times_increasing_add; [lia|exact Hi].
  - destruct (create_dive_from_plan _ master_dive log) as [[divep m] lg].
    cbn [o_diveplan]. apply times_increasing_add; [|exact Hp].
    apply Z.quot_pos; lia.
Qed.

Lemma tissue_at_end_loop_log (d : dive) (samples : list sample) :
  forall i psample t0 lastdepth gas st log,
    exists t,
      snd (tissue_at_end_loop d samples i psample t0 lastdepth gas st log)
      = log ++ t.
Proof.
  induction samples as [|smp rest IH]; intros i psample t0 lastdepth gas st log;
    cbn [tissue_at_end_loop].
  - exists []. cbn. now rewrite app_nil_r.
  - unfold tissue_at_end_sample.
    destruct (get_gasidx d (get_gas_from_events (dc_events d) t0 gas) =? -1).
    + match goal with
      | |- context [tissue_at_end_loop d rest ?a ?b ?c ?e ?f ?g (log ++ ?x)] =>
          destruct (IH a b c e f g (log ++ x)) as [t Ht]; rewrite Ht;
          exists (x ++ t); now rewrite app_assoc
      end.
    + apply IH.
Qed.

Lemma tissue_at_end_log (d : option dive) (cached_datap : option snapshot)
    (ds : deco_state) (log : list report) :
  exists t, snd (tissue_at_end d cached_datap ds log) = log ++ t.
Proof.
  unfold tissue_at_end.
  destruct d as [d|]; [|exists []; cbn; now rewrite app_nil_r].
  destruct (match cached_datap with Some _ => _ | None => _ end)
    as [[ds' tol] cached'].
  destruct (dc_sample d) as [|first rest] eqn:Es;
    [exists []; cbn; now rewrite app_nil_r|].
  match goal with
  | |- context [tissue_at_end_loop d ?l ?a ?b ?c ?e ?f ?g log] =>
      destruct (tissue_at_end_loop_log d l a b c e f g log) as [t Ht];
      destruct (tissue_at_end_loop d l a b c e f g log) as [st lg]
  end.
  cbn [snd] in *. eauto.
Qed.

(** The reports that a run leaves begin with those it was entered with. *)
Lemma plan_with_cylinder_log (fuel : nat) (levels : list Z)
    (plan0 : diveplan) (cached_datap : option snapshot) (d master_dive : dive)
    (add_deco show_disclaimer : bool) (ds : deco_state) (table : dive_table_t)
    (gas : gasmix) (current_cylinder : Z) (log : list report) :
  exists t,
    o_log (plan_with_cylinder fuel levels plan0 cached_datap d master_dive
             add_deco show_disclaimer ds table gas current_cylinder log)
    = log ++ t.
Proof.
  unfold plan_with_cylinder.
  destruct add_deco; cbn [negb].
  - destruct (tissue_at_end_log (Some d) cached_datap ds log) as [t Ht].
    destruct (tissue_at_end (Some d) cached_datap ds log)
      as [[[tissue_tolerance cached'] ds'] log'].
    cbn [snd] in Ht. subst log'.
    destruct (analyze_gaslist plan0 d (s_depth (last_sample d))
                current_cylinder) as [[[chs nr] best]|]; [|now exists t].
    destruct (sort_stops levels _ chs nr) as [stoplevels|]; [|now exists t].
    destruct (if negb (best =? current_cylinder)
              then (true, best, cyl_gasmix (cyl_at d best))
              else (false, current_cylinder, gas)) as [[stopping cyl] gas'].
    match goal with
    | |- context [ascent_loop ?a ?b ?c ?e ?f ?g fuel ?s0] =>
        destruct (ascent_loop a b c e f g fuel s0) as [st s]
    end.
    destruct st; try (now exists t).
    match goal with
    | |- context [create_dive_from_plan ?pl master_dive (log ++ t)] =>
        destruct (create_dive_from_plan_log pl master_dive (log ++ t))
          as [t' Ht'];
        destruct (create_dive_from_plan pl master_dive (log ++ t))
          as [[divep m] lg]
    end.
    cbn [snd] in Ht'. subst lg. exists (t ++ t'). cbn. now rewrite app_assoc.
  - match goal with
    | |- context [create_dive_from_plan ?pl master_dive log] =>
        destruct (create_dive_from_plan_log pl master_dive log) as [t' Ht'];
        destruct (create_dive_from_plan pl master_dive log) as [[divep m] lg]
    end.
    cbn [snd] in Ht'. subst lg. now exists t'.
Qed.

End PlanProperties.

(** C3, as amended.  For every plan run with add_deco = false the run
    returns without entering the ascent loop (it is the same with no fuel).
    When a dive can be made from the plan, the run appends exactly one way
    point, at depth 0 and not entered, of duration start_depth / 75 seconds,
    where start_depth is the depth at which the last segment of the plan
    ends: its time is 0 when this duration is 0 and is the duration past the
    latest time of the plan otherwise.  When no dive can be made from the
    plan, no way point is appended and no dive is handed out. *)
Theorem plan_without_deco {L : DiveLib} (fuel : nat) (levels : list Z)
    (diveplan0 : diveplan) (cached_datap : option snapshot)
    (divep : option dive) (master_dive : dive) (show_disclaimer : bool)
    (ds : deco_state) (table : dive_table_t) (log : list report) :
  let out := plan fuel levels diveplan0 cached_datap divep master_dive false
               show_disclaimer ds table log in
  o_status out = Returned
  /\ out = plan 0 levels diveplan0 cached_datap divep master_dive false
             show_disclaimer ds table log
  /\ match fst (fst (create_dive_from_plan
                       (default_surface_pressure diveplan0) master_dive log))
     with
     | Some d =>
         exists p,
           last_segment (dp diveplan0) = Some p
           /\ s_depth (last_sample d) = dp_depth p
           /\ dp (o_diveplan out)
              = dp diveplan0
                ++ [mk_dp (if Z.quot (dp_depth p) 75 =? 0 then 0
                           else Z.quot (dp_depth p) 75
                                + max_time (dp diveplan0))
                      0
                      (get_gas_from_events (dc_events d)
                         (s_time (last_sample d)) (cyl_gasmix (cyl_at d 0)))
                      (dp_po2 p) false]
     | None =>
         o_diveplan out = default_surface_pressure diveplan0
         /\ o_divep out = None
     end.
Proof.
  cbv zeta. unfold plan.
  pose proof (create_dive_from_plan_last_sample
                (default_surface_pressure diveplan0) master_dive log) as Hlast.
  destruct (create_dive_from_plan (default_surface_pressure diveplan0)
              master_dive log) as [[[d|] m] lg]; cbn [fst] in *.
  - destruct (Hlast d eq_refl) as (p & Hp & Ht & Hd & Hpo).
    rewrite default_surface_pressure_dp in Hp.
    assert (Hw : forall cyl lg',
      let out := plan_with_cylinder fuel levels
                   (default_surface_pressure diveplan0) cached_datap d m false
                   show_disclaimer
                   (set_gf (gflow diveplan0) (gfhigh diveplan0)
                      gf_low_at_maxdepth ds)
                   (record_dive d
                      match divep with
                      | Some _ => delete_single_dive (dive_table_nr table - 1)
                                    table
                      | None => table
                      end)
                   (get_gas_from_events (dc_events d) (s_time (last_sample d))
                      (cyl_gasmix (cyl_at d 0))) cyl lg' in
      o_status out = Returned
      /\ out = plan_with_cylinder 0 levels
                 (default_surface_pressure diveplan0) cached_datap d m false
                 show_disclaimer
                 (set_gf (gflow diveplan0) (gfhigh diveplan0)
                    gf_low_at_maxdepth ds)
                 (record_dive d
                    match divep with
                    | Some _ => delete_single_dive (dive_table_nr table - 1)
                                  table
                    | None => table
                    end)
                 (get_gas_from_events (dc_events d) (s_time (last_sample d))
                    (cyl_gasmix (cyl_at d 0))) cyl lg'
      /\ dp (o_diveplan out)
         = dp diveplan0
           ++ [mk_dp (if Z.quot (dp_depth p) 75 =? 0 then 0
                      else Z.quot (dp_depth p) 75 + max_time (dp diveplan0))
                 0
                 (get_gas_from_events (dc_events d) (s_time (last_sample d))
                    (cyl_gasmix (cyl_at d 0)))
                 (dp_po2 p) false]).
    { intros cyl lg'. cbv zeta. unfold plan_with_cylinder. cbn [negb].
      destruct (create_dive_from_plan _ m lg') as [[divep' m'] lg''].
      cbn [o_status o_diveplan]. split; [reflexivity|]. split; [reflexivity|].
      destruct (plan_add_segment_absolute_time_aux
                  (default_surface_pressure diveplan0)
                  (Z.quot (s_depth (last_sample d)) 75) 0
                  (get_gas_from_events (dc_events d) (s_time (last_sample d))
                     (cyl_gasmix (cyl_at d 0)))
                  (s_po2 (last_sample d)) false) as [-> _].
      now rewrite default_surface_pressure_dp, Hd, Hpo. }
    destruct (get_gasidx d _ =? -1);
      match goal with
      | |- context [plan_with_cylinder fuel _ _ _ _ _ _ _ _ _ _ ?cyl ?lg'] =>
          destruct (Hw cyl lg') as (H1 & H2 & H3)
      end;
      (split; [exact H1|]); (split; [exact H2|]);
      exists p; auto.
  - cbn. auto.
Qed.

(** The dive of 18 m: the way up is one way point, 18000 / 75 = 240 s after
    the last one. *)
Example plan_18m_without_deco :
  map (fun p => (dp_time p, dp_depth p, dp_entered p))
    (dp (o_diveplan
           (plan (L := lib_no_decoder) 0 decostoplevels plan_18m None None
              one_cylinder false false tt 0 [])))
  = [(60, 18000, true); (1860, 18000, true); (2100, 0, false)].
Proof. vm_compute. reflexivity. Qed.

(** C3 as stated fails on the empty plan: no dive is made of it, and the run
    returns without appending a way point. *)
Lemma plan_without_deco_empty_plan :
  let out := plan (L := lib_no_decoder) 0 decostoplevels (plan_of []) None
               None one_cylinder false false tt 0 [] in
  dp (o_diveplan out) = []
  /\ o_divep out = None
  /\ forall wp, dp (o_diveplan out) <> dp (plan_of []) ++ [wp].
Proof.
  cbv zeta. split; [reflexivity|]. split; [reflexivity|].
  intros wp. vm_compute. discriminate.
Qed.






(** ** The properties at work *)

(** The fixed stops up to 21 m with gas changes at 4 m and at 21 m. *)
Lemma sort_stops_ascending_union_witness :
  0 <= 8 <= Z.of_nat (length decostoplevels)
  /\ 0 <= 2 <= Z.of_nat (length (gstops_of [4000; 21000]))
  /\ (1 <= 8 \/ 2 = 0)
  /\ ascending (fixed_depths decostoplevels 8)
  /\ ascending (change_depths (gstops_of [4000; 21000]) 2)
  /\ Forall (fun x => 0 <= x) (fixed_depths decostoplevels 8)
  /\ Forall (fun x => 0 <= x) (change_depths (gstops_of [4000; 21000]) 2)
  /\ sort_stops decostoplevels 8 (gstops_of [4000; 21000]) 2
     = Some [0; 0; 3000; 4000; 6000; 9000; 12000; 15000; 18000; 21000]
  /\ exists stoplevels,
    sort_stops decostoplevels 8 (gstops_of [4000; 21000]) 2 = Some stoplevels
    /\ ascending stoplevels
    /\ (forall x, In x (fixed_depths decostoplevels 8)
                  \/ In x (change_depths (gstops_of [4000; 21000]) 2) -> In x stoplevels)
    /\ (forall x, In x stoplevels ->
                  In x (fixed_depths decostoplevels 8)
                  \/ In x (change_depths (gstops_of [4000; 21000]) 2) \/ x = 0)
    /\ (forall x, x <> 0 ->
          occurrences stoplevels x
          = Nat.max (occurrences (fixed_depths decostoplevels 8) x)
                    (occurrences (change_depths (gstops_of [4000; 21000]) 2) x))
    /\ (forall x, x <> 0 ->
          occurrences (fixed_depths decostoplevels 8) x = 1%nat ->
          occurrences (change_depths (gstops_of [4000; 21000]) 2) x = 1%nat ->
          occurrences stoplevels x = 1%nat).
Proof.
  assert (H1 : 0 <= 8 <= Z.of_nat (length decostoplevels)) by by_computation.
  assert (H2 : 0 <= 2 <= Z.of_nat (length (gstops_of [4000; 21000])))
    by by_computation.
  assert (H0 : 1 <= 8 \/ 2 = 0) by (left; lia).
  assert (H3 : ascending (fixed_depths decostoplevels 8)) by by_computation.
  assert (H4 : ascending (change_depths (gstops_of [4000; 21000]) 2)) by by_computation.
  assert (H5 : Forall (fun x => 0 <= x) (fixed_depths decostoplevels 8))
    by by_computation.
  assert (H6 : Forall (fun x => 0 <= x) (change_depths (gstops_of [4000; 21000]) 2))
    by by_computation.
  repeat (split; [assumption|]).
  split; [reflexivity|].
  exact (sort_stops_ascending_union decostoplevels 8
           (gstops_of [4000; 21000]) 2 H1 H2 H0 H3 H4 H5 H6).
Defined.

(** C1 as stated fails: on a descending array of fixed depths the returned
    array is not in ascending order. *)
Lemma sort_stops_descending_counterexample :
  descending [6000; 3000; 0]
  /\ ascending (change_depths (gstops_of [4000]) 1)
  /\ sort_stops [6000; 3000; 0] 3 (gstops_of [4000]) 1
     = Some [6000; 3000; 0; 4000]
  /\ (ascending [6000; 3000; 0; 4000] -> False).
Proof.
  split; [by_computation|]. split; [by_computation|].
  split; [reflexivity|].
  intros H. inversion H as [|? ? _ Hf]; subst.
  inversion Hf as [|? ? Hle _]; subst. lia.
Qed.


(** A rejected mix and a rejected pO2 leave what was there. *)
Lemma validate_failure_keeps_output_witness :
  fst (validate_gas (Some (str "21/80")) air) = 0
  /\ fst (validate_po2 (Some (str "1.4x")) 1300) = 0
  /\ snd (validate_gas (Some (str "21/80")) air) = air
  /\ snd (validate_po2 (Some (str "1.4x")) 1300) = 1300.
Proof.
  assert (H1 : fst (validate_gas (Some (str "21/80")) air) = 0)
    by reflexivity.
  assert (H2 : fst (validate_po2 (Some (str "1.4x")) 1300) = 0)
    by reflexivity.
  split; [exact H1|]. split; [exact H2|].
  destruct (validate_failure_keeps_output (Some (str "21/80")) air 0)
    as [Hg _].
  destruct (validate_failure_keeps_output (Some (str "1.4x")) air 1300)
    as [_ Hp].
  split; [exact (Hg H1)|exact (Hp H2)].
Defined.


(** * More of planner.c *)

(** ** Plans without a segment *)

Lemma diveplan_empty_no_segment (plan : diveplan) :
  diveplan_empty plan = true <-> last_segment (dp plan) = None.
Proof.
  unfold diveplan_empty.
  induction (dp plan) as [|p l IH]; cbn [forallb last_segment]; [tauto|].
  destruct (last_segment l) as [q|].
  - split; [|discriminate]. intros H. apply andb_true_iff in H.
    destruct H as [_ H]. apply IH in H. discriminate.
  - destruct (dp_time p =? 0); cbn [andb]; [tauto|].
    split; discriminate.
Qed.



(** ** get_nth_dp *)

Lemma get_nth_dp_walk_spec (l : list divedatapoint) :
  forall i idx,
    get_nth_dp_walk l i idx
    = if (length l <=? Z.to_nat (idx - i))%nat
      then (l, [], i + Z.of_nat (length l))
      else (firstn (Z.to_nat (idx - i)) l, skipn (Z.to_nat (idx - i)) l,
            i + Z.of_nat (Z.to_nat (idx - i)) + 1).
Proof.
  induction l as [|p l IH]; intros i idx; cbn [get_nth_dp_walk length].
  - cbn. f_equal. lia.
  - destruct (Z.ltb_spec i idx) as [Hlt|Hge].
    + rewrite IH.
      replace (Z.to_nat (idx - i)) with (S (Z.to_nat (idx - (i + 1)))) by lia.
      cbn [Nat.leb firstn skipn].
      destruct (length l <=? Z.to_nat (idx - (i + 1)))%nat; f_equal; lia.
    + replace (Z.to_nat (idx - i)) with 0%nat by lia.
      cbn. f_equal. lia.
Qed.

Lemma nth_error_app_repeat {A : Type} (l : list A) (x : A) (n k : nat) :
  (length l <= k < length l + n)%nat ->
  nth_error (l ++ repeat x n) k = Some x.
Proof.
  intros H. rewrite nth_error_app2 by lia.
  apply nth_error_repeat. lia.
Qed.

(** [get_nth_dp] in one equation for an index that is not negative. *)
Lemma get_nth_dp_spec (plan : diveplan) (idx : Z) :
  0 <= idx ->
  dp (fst (get_nth_dp plan idx))
  = dp plan
    ++ repeat placeholder_dp (Z.to_nat (idx + 1) - length (dp plan))
  /\ snd (get_nth_dp plan idx)
     = nth_error (dp (fst (get_nth_dp plan idx))) (Z.to_nat idx).
Proof.
  intros H0. unfold get_nth_dp. rewrite get_nth_dp_walk_spec.
  rewrite Z.sub_0_r.
  destruct (Nat.leb_spec (length (dp plan)) (Z.to_nat idx)) as [Hle|Hgt].
  - replace (Z.to_nat (idx - (0 + Z.of_nat (length (dp plan))) + 1))
      with (S (Z.to_nat idx - length (dp plan))) by lia.
    cbn [fst snd dp].
    replace (Z.to_nat (idx + 1) - length (dp plan))%nat
      with (S (Z.to_nat idx - length (dp plan))) by lia.
    split; [reflexivity|].
    symmetry. apply nth_error_app_repeat. lia.
  - replace (Z.to_nat (idx - (0 + Z.of_nat (Z.to_nat idx) + 1) + 1))
      with 0%nat by lia.
    cbn [fst snd].
    replace (Z.to_nat (idx + 1) - length (dp plan))%nat with 0%nat by lia.
    cbn [repeat]. rewrite app_nil_r. split; [reflexivity|].
    generalize (Z.to_nat idx) as k. clear. intros k.
    revert k. induction (dp plan) as [|p l IH]; intros [|k]; cbn; auto.
Qed.

Lemma get_nth_dp_negative (plan : diveplan) (idx : Z) :
  idx < 0 -> get_nth_dp plan idx = (plan, hd_error (dp plan)).
Proof.
  intros Hneg. unfold get_nth_dp. rewrite get_nth_dp_walk_spec.
  replace (Z.to_nat (idx - 0)) with 0%nat by lia.
  destruct (dp plan) as [|p l] eqn:El; cbn [length Nat.leb].
  - replace (Z.to_nat (idx - (0 + Z.of_nat 0) + 1)) with 0%nat by lia.
    reflexivity.
  - replace (Z.to_nat (idx - (0 + Z.of_nat 0 + 1) + 1)) with 0%nat by lia.
    reflexivity.
Qed.

(** X2.  [get_nth_dp] with an index that is not negative keeps the way
    points of the plan as they are, in their places, appends placeholders
    (time 0, depth 0, no gas, not entered) up to the index when the list is
    too short, and returns the way point at the index, which then exists;
    nothing else of the plan changes.  With a negative index it leaves the
    plan alone and returns the first way point, or NULL for a plan without
    way points. *)
Theorem get_nth_dp_extends_plan (plan : diveplan) (idx : Z) :
  (0 <= idx ->
   dp (fst (get_nth_dp plan idx))
   = dp plan
     ++ repeat placeholder_dp (Z.to_nat (idx + 1) - length (dp plan))
   /\ Z.of_nat (length (dp (fst (get_nth_dp plan idx))))
      = Z.max (Z.of_nat (length (dp plan))) (idx + 1)
   /\ (exists p, snd (get_nth_dp plan idx) = Some p
                 /\ nth_error (dp (fst (get_nth_dp plan idx))) (Z.to_nat idx)
                    = Some p)
   /\ (forall k p, nth_error (dp plan) k = Some p ->
                   nth_error (dp (fst (get_nth_dp plan idx))) k = Some p))
  /\ (idx < 0 ->
      get_nth_dp plan idx = (plan, hd_error (dp plan)))
  /\ set_dp (fst (get_nth_dp plan idx)) (dp plan) = plan.
Proof.
  split; [|split].
  - intros H0. destruct (get_nth_dp_spec plan idx H0) as [Hdp Hr].
    split; [exact Hdp|].
    assert (Hlen : Z.of_nat (length (dp (fst (get_nth_dp plan idx))))
                   = Z.max (Z.of_nat (length (dp plan))) (idx + 1)).
    { rewrite Hdp, length_app, repeat_length. lia. }
    split; [exact Hlen|]. split.
    + destruct (nth_error_in_range (dp (fst (get_nth_dp plan idx)))
                  (Z.to_nat idx)) as [p Hp]; [lia|].
      exists p. split; [congruence|exact Hp].
    + intros k p Hk. rewrite Hdp. rewrite nth_error_app1; [exact Hk|].
      apply nth_error_Some. congruence.
  - apply get_nth_dp_negative.
  - unfold get_nth_dp.
    destruct (get_nth_dp_walk (dp plan) 0 idx) as [[walked rest] i].
    destruct (Z.to_nat (idx - i + 1)); destruct plan; reflexivity.
Qed.

Lemma filter_repeat_false {A : Type} (f : A -> bool) (x : A) (n : nat) :
  f x = false -> filter f (repeat x n) = [].
Proof.
  intros H. induction n as [|n IH]; cbn [repeat filter]; [reflexivity|].
  now rewrite H.
Qed.

(** X3.  The placeholders of [get_nth_dp] are zero-time declarations: the
    call changes neither the times of the segments nor whether the plan is
    empty, so times that increase still do; and a second call with the same
    index changes nothing and returns the same way point. *)
Theorem get_nth_dp_keeps_the_profile (plan : diveplan) (idx : Z) :
  waypoint_times (fst (get_nth_dp plan idx)) = waypoint_times plan
  /\ diveplan_empty (fst (get_nth_dp plan idx)) = diveplan_empty plan
  /\ (times_increasing plan -> times_increasing (fst (get_nth_dp plan idx)))
  /\ get_nth_dp (fst (get_nth_dp plan idx)) idx = get_nth_dp plan idx.
Proof.
  destruct (Z.ltb_spec idx 0) as [Hneg|H0].
  - rewrite (get_nth_dp_negative plan idx Hneg). cbn [fst].
    repeat split; auto. now apply get_nth_dp_negative.
  - destruct (get_nth_dp_spec plan idx H0) as [Hdp Hr].
    assert (Ht : waypoint_times (fst (get_nth_dp plan idx))
                 = waypoint_times plan).
    { unfold waypoint_times. rewrite Hdp, map_app, filter_app, map_repeat.
      rewrite filter_repeat_false by reflexivity. apply app_nil_r. }
    split; [exact Ht|]. split.
    { unfold diveplan_empty. rewrite Hdp, forallb_app.
      replace (forallb (fun p => dp_time p =? 0) (repeat placeholder_dp _))
        with true; [apply andb_true_r|].
      symmetry. apply forallb_forall. intros x Hx.
      apply repeat_spec in Hx. now subst x. }
    split; [unfold times_increasing; now rewrite Ht|].
    destruct (get_nth_dp_spec (fst (get_nth_dp plan idx)) idx H0)
      as [Hdp2 Hr2].
    assert (Hno : (Z.to_nat (idx + 1)
                   - length (dp (fst (get_nth_dp plan idx))))%nat = 0%nat).
    { rewrite Hdp, length_app, repeat_length. lia. }
    rewrite Hno in Hdp2. cbn [repeat] in Hdp2. rewrite app_nil_r in Hdp2.
    assert (E1 : fst (get_nth_dp (fst (get_nth_dp plan idx)) idx)
                 = fst (get_nth_dp plan idx)).
    { unfold get_nth_dp at 1.
      unfold get_nth_dp at 1 in Hdp2.
      destruct (get_nth_dp_walk (dp (fst (get_nth_dp plan idx))) 0 idx)
        as [[walked rest] i].
      destruct (Z.to_nat (idx - i + 1)); [reflexivity|].
      cbn [fst dp] in *. rewrite Hdp2.
      now destruct (fst (get_nth_dp plan idx)). }
    rewrite (surjective_pairing (get_nth_dp (fst (get_nth_dp plan idx)) idx)).
    rewrite (surjective_pairing (get_nth_dp plan idx)) at 3.
    f_equal; [exact E1|]. rewrite Hr2, Hr, E1. reflexivity.
Qed.

(** ** Plans built by appending *)

Lemma max_time_app (l : list divedatapoint) (p : divedatapoint) :
  max_time (l ++ [p]) = Z.max (max_time l) (dp_time p).
Proof.
  unfold max_time. induction l as [|q l IH]; cbn [app map fold_right].
  - lia.
  - rewrite IH. lia.
Qed.



(** ** analyze_gaslist *)

Lemma insert_gaschange_perm (g : gaschanges) (l : list gaschanges) :
  Permutation (insert_gaschange g l) (g :: l).
Proof.
  induction l as [|h t IH]; cbn [insert_gaschange]; [reflexivity|].
  destruct (gc_depth g <? gc_depth h); [reflexivity|].
  rewrite IH. apply perm_swap.
Qed.

Lemma insert_gaschange_ascending (g : gaschanges) (l : list gaschanges) :
  ascending (map gc_depth l) ->
  ascending (map gc_depth (insert_gaschange g l)).
Proof.
  unfold ascending.
  induction l as [|h t IH]; intros Hs; cbn [insert_gaschange map].
  - repeat constructor.
  - cbn [map] in Hs. apply StronglySorted_inv in Hs. destruct Hs as [Hs Hf].
    destruct (Z.ltb_spec (gc_depth g) (gc_depth h)) as [Hlt|Hge]; cbn [map].
    + constructor; [now constructor|].
      constructor; [lia|].
      eapply Forall_impl; [|exact Hf]. cbn. intros; lia.
    + constructor; [now apply IH|].
      apply Forall_forall. intros x Hx.
      apply in_map_iff in Hx. destruct Hx as (y & <- & Hy).
      apply (Permutation_in _ (insert_gaschange_perm g t)) in Hy.
      destruct Hy as [<-|Hy]; [lia|].
      rewrite Forall_forall in Hf. apply Hf. now apply in_map.
Qed.

Lemma filter_split {A : Type} (g : A -> bool) (l : list A) :
  forall pre x post,
    filter g l = pre ++ x :: post ->
    exists a b, l = a ++ x :: b /\ filter g a = pre /\ filter g b = post.
Proof.
  induction l as [|h t IH]; intros pre x post H; cbn [filter] in H.
  - now destruct pre.
  - destruct (g h) eqn:Eh.
    + destruct pre as [|y pre]; cbn [app] in H; injection H as -> H.
      * exists [], t. cbn. auto.
      * destruct (IH _ _ _ H) as (a & b & -> & Ha & Hb).
        exists (y :: a), b. cbn [app filter]. rewrite Eh, Ha. auto.
    + destruct (IH _ _ _ H) as (a & b & -> & Ha & Hb).
      exists (h :: a), b. cbn [app filter]. rewrite Eh. auto.
Qed.

Lemma filter_twice {A : Type} (f g : A -> bool) (l : list A) :
  filter f (filter g l) = filter (fun x => g x && f x) l.
Proof.
  induction l as [|h t IH]; cbn [filter]; [reflexivity|].
  destruct (g h); cbn [andb filter]; [|exact IH].
  destruct (f h); now rewrite IH.
Qed.

Section GasList.
Context {L : DiveLib}.

Lemma analyze_gaslist_loop_changes (d : dive) (depth : Z)
    (l : list divedatapoint) :
  forall changes best asc changes' asc',
    analyze_gaslist_loop l d depth changes best asc = Some (changes', asc') ->
    Permutation changes'
      (map (change_of d)
         (filter (fun p => (dp_time p =? 0) && (dp_depth p <=? depth)) l)
       ++ changes)
    /\ (ascending (map gc_depth changes) -> ascending (map gc_depth changes'))
    /\ Forall (fun p => get_gasidx d (dp_gasmix p) <> -1)
         (filter (fun p => (dp_time p =? 0) && (dp_depth p <=? depth)) l).
Proof.
  induction l as [|p next IH]; intros changes best asc changes' asc' H;
    cbn [analyze_gaslist_loop filter] in *.
  - injection H as <- <-. cbn [map app]. auto.
  - destruct (dp_time p =? 0); cbn [andb].
    + destruct (dp_depth p <=? depth).
      * destruct (Z.eqb_spec (get_gasidx d (dp_gasmix p)) (-1)) as [E|E];
          [discriminate|].
        apply IH in H. destruct H as (Hp & Hs & Hf).
        split; [|split].
        -- rewrite Hp. cbn [map app]. fold (change_of d p).
           rewrite insert_gaschange_perm. symmetry.
           apply Permutation_middle.
        -- intros Ha. apply Hs. now apply insert_gaschange_ascending.
        -- constructor; assumption.
      * destruct (dp_depth p <? best); now apply IH in H.
    + now apply IH in H.
Qed.

(** The loop fails exactly when a declared change has a gas that is on no
    cylinder. *)
Lemma analyze_gaslist_loop_none (d : dive) (depth : Z)
    (l : list divedatapoint) :
  forall changes best asc,
    analyze_gaslist_loop l d depth changes best asc = None <->
    Exists (fun p => get_gasidx d (dp_gasmix p) = -1)
      (filter (fun p => (dp_time p =? 0) && (dp_depth p <=? depth)) l).
Proof.
  induction l as [|p next IH]; intros changes best asc;
    cbn [analyze_gaslist_loop filter].
  - split; [discriminate|]. intros H. inversion H.
  - destruct (dp_time p =? 0); cbn [andb].
    + destruct (dp_depth p <=? depth).
      * destruct (Z.eqb_spec (get_gasidx d (dp_gasmix p)) (-1)) as [E|E].
        -- split; [intros _; now left|reflexivity].
        -- rewrite IH. split; [intros H; now right|].
           intros H. inversion H; subst; [contradiction|assumption].
      * destruct (dp_depth p <? best); apply IH.
    + apply IH.
Qed.

Lemma analyze_gaslist_loop_ascent (d : dive) (depth : Z)
    (l : list divedatapoint) :
  forall changes best asc changes' asc',
    analyze_gaslist_loop l d depth changes best asc = Some (changes', asc') ->
    let deeper :=
      filter (fun p => (dp_time p =? 0) && (depth <? dp_depth p)
                       && (dp_depth p <? best)) l in
    (deeper = [] /\ asc' = asc)
    \/ (exists pre p post,
          deeper = pre ++ p :: post
          /\ asc' = get_gasidx d (dp_gasmix p)
          /\ Forall (fun q => dp_depth p < dp_depth q) pre
          /\ Forall (fun q => dp_depth p <= dp_depth q) post).
Proof.
  induction l as [|p next IH]; intros changes best asc changes' asc' H;
    cbn [analyze_gaslist_loop filter] in *.
  - injection H as <- <-. now left.
  - destruct (dp_time p =? 0) eqn:Et; cbn [andb].
    + destruct (Z.leb_spec (dp_depth p) depth) as [Hle|Hgt].
      * destruct (get_gasidx d (dp_gasmix p) =? -1); [discriminate|].
        destruct (Z.ltb_spec depth (dp_depth p)); [lia|]. cbn [andb].
        now apply IH in H.
      * destruct (Z.ltb_spec depth (dp_depth p)); [|lia]. cbn [andb].
        destruct (Z.ltb_spec (dp_depth p) best) as [Hb|Hb];
          [|now apply IH in H].
        apply IH in H. cbn zeta in H. right.
        set (F := filter (fun p0 => (dp_time p0 =? 0)
                            && (depth <? dp_depth p0)
                            && (dp_depth p0 <? best)) next).
        assert (EF : filter (fun p0 => (dp_time p0 =? 0)
                               && (depth <? dp_depth p0)
                               && (dp_depth p0 <? dp_depth p)) next
                     = filter (fun q => dp_depth q <? dp_depth p) F).
        { subst F. rewrite filter_twice. apply filter_ext. intros q.
          destruct (dp_time q =? 0); cbn [andb]; [|reflexivity].
          destruct (depth <? dp_depth q); cbn [andb]; [|reflexivity].
          destruct (Z.ltb_spec (dp_depth q) best);
            destruct (Z.ltb_spec (dp_depth q) (dp_depth p));
            cbn [andb]; (reflexivity || lia). }
        rewrite EF in H.
        assert (Hrest : forall G,
                  filter (fun q => dp_depth q <? dp_depth p) G = [] ->
                  Forall (fun q => dp_depth p <= dp_depth q) G).
        { intros G HG. apply Forall_forall. intros q Hq.
          destruct (Z.ltb_spec (dp_depth q) (dp_depth p)) as [Hlt|]; [|lia].
          assert (Hin : In q (filter (fun q => dp_depth q <? dp_depth p) G))
            by (apply filter_In; split; [assumption|now apply Z.ltb_lt]).
          rewrite HG in Hin. destruct Hin. }
        destruct H as [[Hnil ->]|(pre' & p' & post' & Hsplit & -> & Hpre & Hpost)].
        -- exists [], p, F. split; [reflexivity|]. split; [reflexivity|].
           split; [constructor|]. now apply Hrest.
        -- destruct (filter_split _ _ _ _ _ Hsplit) as (a & b & EFab & Ha & Hb').
           assert (Hp' : dp_depth p' < dp_depth p).
           { assert (Hin : In p' (filter (fun q => dp_depth q <? dp_depth p) F))
               by (rewrite Hsplit; apply in_or_app; right; now left).
             apply filter_In in Hin. destruct Hin as [_ Hin].
             now apply Z.ltb_lt in Hin. }
           assert (Hsides : forall G pre0 (R : Z -> Z -> Prop),
                     (forall x y, x < y -> R x y) ->
                     filter (fun q => dp_depth q <? dp_depth p) G = pre0 ->
                     Forall (fun q => R (dp_depth p') (dp_depth q)) pre0 ->
                     Forall (fun q => R (dp_depth p') (dp_depth q)) G).
           { intros G pre0 R HR HG Hf. apply Forall_forall. intros q Hq.
             destruct (Z.ltb_spec (dp_depth q) (dp_depth p)) as [Hlt|Hge].
             - rewrite Forall_forall in Hf. apply Hf. rewrite <- HG.
               apply filter_In. split; [assumption|now apply Z.ltb_lt].
             - apply HR. lia. }
           exists (p :: a), p', b. rewrite EFab. split; [reflexivity|].
           split; [reflexivity|]. split.
           ++ constructor; [exact Hp'|].
              apply (Hsides a pre' Z.lt); auto.
           ++ apply (Hsides b post' Z.le); auto. intros; lia.
    + now apply IH in H.
Qed.

End GasList.

(** X5.  When [analyze_gaslist] returns, the array it built holds one gas
    change for every zero-time way point at or above [depth], whatever the
    order they were declared in: as many entries as [*gaschangenr] says,
    each with the depth of its way point and the index [get_gasidx] finds
    for its gas, which is a cylinder index; and the depths of the array
    ascend. *)
Theorem analyze_gaslist_sorted_changes {L : DiveLib} (plan : diveplan)
    (d : dive) (depth asc_cylinder : Z) (changes : list gaschanges)
    (nr asc' : Z) :
  analyze_gaslist plan d depth asc_cylinder = Some (changes, nr, asc') ->
  nr = Z.of_nat (length (declared_changes plan depth))
  /\ Z.of_nat (length changes) = nr
  /\ Permutation changes (map (change_of d) (declared_changes plan depth))
  /\ ascending (map gc_depth changes)
  /\ Forall (fun g => gc_depth g <= depth /\ 0 <= gasidx g < MAX_CYLINDERS)
       changes.
Proof.
  unfold analyze_gaslist, declared_changes. intros H.
  destruct (analyze_gaslist_loop (dp plan) d depth []
              (cyl_depth_mm (cyl_at d asc_cylinder)) asc_cylinder)
    as [[chs a]|] eqn:E; [|discriminate].
  cbn in H. injection H as <- <- <-.
  destruct (analyze_gaslist_loop_changes _ _ _ _ _ _ _ _ E) as (Hp & Hs & Hf).
  rewrite app_nil_r in Hp.
  assert (Hlen : length chs
                 = length (filter (fun p => (dp_time p =? 0)
                                     && (dp_depth p <=? depth)) (dp plan))).
  { rewrite (Permutation_length Hp). apply length_map. }
  split; [now rewrite Hlen|]. split; [reflexivity|].
  split; [exact Hp|]. split; [apply Hs; constructor|].
  apply Forall_forall. intros g Hg.
  apply (Permutation_in _ Hp) in Hg.
  apply in_map_iff in Hg. destruct Hg as (p & <- & Hin).
  rewrite Forall_forall in Hf. specialize (Hf p Hin).
  apply filter_In in Hin. destruct Hin as [_ Hc].
  apply andb_true_iff in Hc. destruct Hc as [_ Hc]. apply Z.leb_le in Hc.
  cbn [change_of gc_depth gasidx]. split; [assumption|].
  destruct (get_gasidx_first_index d (dp_gasmix p)) as [(Hr & _)|(Hr & _)];
    [assumption|contradiction].
Qed.

(** X6.  The [assert] of [analyze_gaslist] fails exactly when a zero-time
    way point at or above [depth] names a gas from which every cylinder is
    200 or more away; a gas that is missing below [depth] does not fail
    it. *)
Theorem analyze_gaslist_fails_on_missing_gas {L : DiveLib} (plan : diveplan)
    (d : dive) (depth asc_cylinder : Z) :
  analyze_gaslist plan d depth asc_cylinder = None <->
  exists p, In p (declared_changes plan depth)
            /\ forall j, 0 <= j < MAX_CYLINDERS ->
                         200 <= gasmix_distance (cyl_gasmix (cyl_at d j))
                                  (dp_gasmix p).
Proof.
  unfold analyze_gaslist, declared_changes.
  pose proof (analyze_gaslist_loop_none d depth (dp plan) []
                (cyl_depth_mm (cyl_at d asc_cylinder)) asc_cylinder) as Hn.
  destruct (analyze_gaslist_loop (dp plan) d depth []
              (cyl_depth_mm (cyl_at d asc_cylinder)) asc_cylinder)
    as [[chs a]|].
  - split; [discriminate|]. intros (p & Hin & Hp).
    assert (Hex : Exists (fun p => get_gasidx d (dp_gasmix p) = -1)
                    (filter (fun p => (dp_time p =? 0)
                               && (dp_depth p <=? depth)) (dp plan))).
    { apply Exists_exists. exists p. split; [assumption|].
      now apply get_gasidx_none. }
    apply Hn in Hex. discriminate.
  - split; [|reflexivity]. intros _.
    destruct Hn as [Hn _]. specialize (Hn eq_refl).
    apply Exists_exists in Hn. destruct Hn as (p & Hin & Hp).
    exists p. split; [assumption|]. now apply get_gasidx_none.
Qed.

(** X7.  The cylinder to start the ascent with: [analyze_gaslist] leaves
    [*asc_cylinder] alone unless a zero-time way point lies below [depth] and
    above the depth of that cylinder; then it is what [get_gasidx] answers
    for the gas of the shallowest of these way points, the first one in the
    plan among several at that depth (-1 when that gas is on no cylinder:
    nothing is asserted here). *)
Theorem analyze_gaslist_first_ascent_gas {L : DiveLib} (plan : diveplan)
    (d : dive) (depth asc_cylinder : Z) (changes : list gaschanges)
    (nr asc' : Z) :
  analyze_gaslist plan d depth asc_cylinder = Some (changes, nr, asc') ->
  let deeper :=
    deeper_gases plan depth (cyl_depth_mm (cyl_at d asc_cylinder)) in
  (deeper = [] /\ asc' = asc_cylinder)
  \/ (exists pre p post,
        deeper = pre ++ p :: post
        /\ asc' = get_gasidx d (dp_gasmix p)
        /\ Forall (fun q => dp_depth p < dp_depth q) pre
        /\ Forall (fun q => dp_depth p <= dp_depth q) post).
Proof.
  unfold analyze_gaslist, deeper_gases. intros H.
  destruct (analyze_gaslist_loop (dp plan) d depth []
              (cyl_depth_mm (cyl_at d asc_cylinder)) asc_cylinder)
    as [[chs a]|] eqn:E; [|discriminate].
  cbn in H. injection H as <- <- <-.
  exact (analyze_gaslist_loop_ascent _ _ _ _ _ _ _ _ E).
Qed.

Lemma analyze_gaslist_sorted_changes_witness :
  analyze_gaslist (L := lib_two_cylinders) plan_with_changes two_cylinders
    40000 0
  = Some ([mk_gaschanges 3000 0; mk_gaschanges 6000 1; mk_gaschanges 21000 1],
          3, 0)
  /\ ascending [3000; 6000; 21000].
Proof.
  assert (H : analyze_gaslist (L := lib_two_cylinders) plan_with_changes
                two_cylinders 40000 0
              = Some ([mk_gaschanges 3000 0; mk_gaschanges 6000 1;
                       mk_gaschanges 21000 1], 3, 0)) by reflexivity.
  split; [exact H|].
  exact (proj1 (proj2 (proj2 (proj2
           (analyze_gaslist_sorted_changes _ _ _ _ _ _ _ H))))).
Defined.

(** Air declared at 30 m and EAN50 at 21 m, both below the 18 m of the dive:
    the ascent starts on EAN50, cylinder 1. *)
Lemma analyze_gaslist_first_ascent_gas_witness :
  analyze_gaslist (L := lib_two_cylinders) plan_with_deeper_gases
    cylinders_with_depth 18000 0
  = Some ([], 0, 1)
  /\ deeper_gases plan_with_deeper_gases 18000 66000
     = [mk_dp 0 30000 air 0 false; mk_dp 0 21000 ean50 0 false]
  /\ ((deeper_gases plan_with_deeper_gases 18000 66000 = [] /\ 1 = 0)
      \/ exists pre p post,
           deeper_gases plan_with_deeper_gases 18000 66000
           = pre ++ p :: post
           /\ 1 = get_gasidx (L := lib_two_cylinders) cylinders_with_depth
                    (dp_gasmix p)
           /\ Forall (fun q => dp_depth p < dp_depth q) pre
           /\ Forall (fun q => dp_depth p <= dp_depth q) post).
Proof.
  assert (H : analyze_gaslist (L := lib_two_cylinders) plan_with_deeper_gases
                cylinders_with_depth 18000 0
              = Some ([], 0, 1)) by reflexivity.
  split; [exact H|]. split; [reflexivity|].
  exact (analyze_gaslist_first_ascent_gas _ _ _ _ _ _ _ H).
Defined.

(** ** The gases of the dive made from a plan *)

Section CylinderGases.
Context {L : DiveLib}.

Lemma cyl_at_gasmix (d d' : dive) :
  map cyl_gasmix (cylinder d) = map cyl_gasmix (cylinder d') ->
  forall i, cyl_gasmix (cyl_at d i) = cyl_gasmix (cyl_at d' i).
Proof.
  intros H i. unfold cyl_at, rd. destruct (i <? 0); [reflexivity|].
  assert (E : option_map cyl_gasmix (nth_error (cylinder d) (Z.to_nat i))
              = option_map cyl_gasmix (nth_error (cylinder d') (Z.to_nat i)))
    by now rewrite <- !nth_error_map, H.
  destruct (nth_error (cylinder d) (Z.to_nat i));
    destruct (nth_error (cylinder d') (Z.to_nat i)); cbn in E;
    congruence.
Qed.

Lemma get_gasidx_gasmix (d d' : dive) (mix : gasmix) :
  map cyl_gasmix (cylinder d) = map cyl_gasmix (cylinder d') ->
  get_gasidx d mix = get_gasidx d' mix.
Proof.
  intros H. unfold get_gasidx. generalize 0 as i.
  induction (Z.to_nat MAX_CYLINDERS) as [|n IH]; intros i;
    cbn [get_gasidx_from]; [reflexivity|].
  rewrite (cyl_at_gasmix d d' H i), IH. reflexivity.
Qed.

Lemma list_set_gasmix (l : list cylinder_t) (n : nat) (c : cylinder_t) :
  (forall c0, nth_error l n = Some c0 -> cyl_gasmix c = cyl_gasmix c0) ->
  map cyl_gasmix (list_set l n c) = map cyl_gasmix l.
Proof.
  revert n. induction l as [|h t IH]; intros [|n] H; cbn [list_set map];
    try reflexivity.
  - f_equal. now apply H.
  - f_equal. apply IH. intros c0 Hc. now apply H.
Qed.

(** Accounting for the gas of a segment leaves the mix of every cylinder of
    the dive as it is. *)
Lemma set_cylinder_gasmix (d d0 : dive) (i old_depth new_depth duration sac : Z) :
  map cyl_gasmix
    (cylinder (set_cylinder d i
                 (update_cylinder_pressure d0 old_depth new_depth duration sac
                    (cyl_at d i))))
  = map cyl_gasmix (cylinder d).
Proof.
  unfold set_cylinder. cbn [cylinder].
  destruct (Z.ltb_spec i 0) as [Hneg|Hpos]; [reflexivity|].
  apply list_set_gasmix. intros c0 Hc. cbn [update_cylinder_pressure cyl_gasmix].
  unfold cyl_at, rd. destruct (Z.ltb_spec i 0); [lia|]. now rewrite Hc.
Qed.

Lemma cdp_segment_gases (plan : diveplan) (p : divedatapoint)
    (s s' : cdp_state) :
  cdp_segment plan p s = inl s' ->
  map cyl_gasmix (cylinder (c_dive s'))
  = map cyl_gasmix (cylinder (c_dive s)).
Proof.
  unfold cdp_segment.
  set (d0 := if negb (c_oldpo2 s =? dp_po2 p) && negb (c_lasttime s =? 0)
             then _ else c_dive s).
  assert (H0 : cylinder d0 = cylinder (c_dive s))
    by (subst d0; now destruct (negb _ && negb _)).
  clearbody d0.
  destruct (gasmix_distance _ (c_oldgasmix s) >? 0).
  - destruct (verify_gas_exists d0 _) as [idx err].
    destruct (idx <? 0); [discriminate|].
    intros [= <-]. cbn [c_dive set_samples cylinder deref_cyl c_cyl].
    match goal with
    | |- context [set_cylinder ?d ?i (update_cylinder_pressure ?e ?a ?b ?c ?f
                                        (cyl_at ?d ?i))] =>
        rewrite (set_cylinder_gasmix d e i a b c f)
    end.
    cbn [cylinder set_events set_samples]. now rewrite H0.
  - destruct (c_cyl s) as [i|i] eqn:Ec; intros [= <-];
      cbn [c_dive set_samples cylinder deref_cyl c_cyl].
    + now rewrite H0.
    + match goal with
      | |- context [set_cylinder ?d ?i (update_cylinder_pressure ?e ?a ?b ?c ?f
                                          (cyl_at ?d ?i))] =>
          rewrite (set_cylinder_gasmix d e i a b c f)
      end.
      now rewrite H0.
Qed.

(** A gas that [verify_gas_exists] finds is found by [get_gasidx] too. *)
Lemma verify_gas_exists_get_gasidx (d : dive) (mix : gasmix) :
  (fst (verify_gas_exists d mix) <? 0) = false -> get_gasidx d mix <> -1.
Proof.
  unfold verify_gas_exists. cbn [fst].
  destruct (verify_gas_exists_from_spec d mix (Z.to_nat MAX_CYLINDERS) 0
              ltac:(lia)) as [(Hr & [_ Hc] & _)|(Hr & _)].
  - intros _ Hn. pose proof (proj1 (get_gasidx_none d mix) Hn) as Hn'.
    unfold gas_close in Hc.
    specialize (Hn' (verify_gas_exists_from (Z.to_nat MAX_CYLINDERS) 0 d mix)).
    lia.
  - cbv zeta in Hr. rewrite Hr. discriminate.
Qed.

Lemma cdp_loop_gases (plan : diveplan) (l : list divedatapoint) :
  forall s s',
    cdp_loop plan l s = inl s' ->
    map cyl_gasmix (cylinder (c_dive s'))
    = map cyl_gasmix (cylinder (c_dive s))
    /\ Forall (fun p => dp_time p = 0 ->
                        get_gasidx (c_dive s') (dp_gasmix p) <> -1) l.
Proof.
  induction l as [|p l IH]; intros s s' H; cbn [cdp_loop] in *.
  - injection H as <-. auto.
  - destruct (Z.eqb_spec (dp_time p) 0) as [E0|E0].
    + pose proof (verify_gas_exists_get_gasidx (c_dive s) (dp_gasmix p)) as Hv.
      destruct (verify_gas_exists (c_dive s) (dp_gasmix p)) as [idx err].
      cbn [fst] in Hv.
      destruct (idx <? 0); [discriminate|].
      destruct (IH _ _ H) as [Hg Hf]. split; [assumption|].
      constructor; [|assumption].
      intros _. rewrite (get_gasidx_gasmix _ _ (dp_gasmix p) Hg). now apply Hv.
    + destruct (cdp_segment plan p s) as [s1|s1] eqn:E1; [|discriminate].
      destruct (IH _ _ H) as [Hg Hf].
      split; [rewrite Hg; now apply (cdp_segment_gases plan p)|].
      constructor; [|assumption]. intros; contradiction.
Qed.

(** The dive made from a plan carries the gas mixes of the master dive's
    cylinders, and every gas that a zero-time way point declares is on one
    of them. *)
Lemma create_dive_from_plan_gases (plan : diveplan) (master_dive : dive)
    (log : list report) (d : dive) :
  fst (fst (create_dive_from_plan plan master_dive log)) = Some d ->
  map cyl_gasmix (cylinder d) = map cyl_gasmix (cylinder master_dive)
  /\ Forall (fun p => dp_time p = 0 -> get_gasidx d (dp_gasmix p) <> -1)
       (dp plan).
Proof.
  unfold create_dive_from_plan.
  destruct (dp plan) as [|first rest] eqn:El; [discriminate|].
  match goal with
  | |- context [cdp_loop plan ?l ?s0] =>
      destruct (cdp_loop plan l s0) as [s|s] eqn:E; [|discriminate]
  end.
  destruct (cdp_loop_gases _ _ _ _ E) as [Hg Hf].
  destruct (Z.of_nat (length (dc_sample (c_dive s))) <=? 1); [discriminate|].
  intros [= <-]. split; [exact Hg|exact Hf].
Qed.

End CylinderGases.

(** ** The assertion of analyze_gaslist inside plan *)

Section AscentStatus.
Context {L : DiveLib}.
Variables (d : dive) (po2 avg_depth bottom_time : Z).
Variables (stoplevels : list Z) (changes : list gaschanges).

Lemma ascend_status (fuel : nat) :
  forall s,
    fst (ascend d po2 avg_depth bottom_time stoplevels fuel s)
    <> Assert_failed.
Proof.
  induction fuel as [|fuel IH]; intros s; cbn [ascend]; [discriminate|].
  match goal with
  | |- context [rd stoplevels ?i] => destruct (rd stoplevels i)
  end; [|discriminate].
  match goal with
  | |- fst (if ?c then _ else _) <> _ => destruct c
  end; [apply IH|discriminate].
Qed.

Lemma trial_ascent_status (fuel : nat) :
  forall trial_depth s,
    fst (fst (trial_ascent d po2 avg_depth bottom_time stoplevels fuel
                trial_depth s))
    <> Assert_failed.
Proof.
  induction fuel as [|fuel IH]; intros trial_depth s; cbn [trial_ascent];
    [discriminate|].
  destruct (rd stoplevels (p_stopidx s)); [|discriminate].
  destruct (trial_depth >? z); [|discriminate].
  match goal with
  | |- fst (fst (if ?c then _ else _)) <> _ => destruct c
  end; [discriminate|apply IH].
Qed.

Lemma deco_stop_status (fuel : nat) :
  forall s,
    fst (deco_stop d po2 avg_depth bottom_time stoplevels fuel s)
    <> Assert_failed.
Proof.
  induction fuel as [|fuel IH]; intros s; cbn [deco_stop]; [discriminate|].
  pose proof (trial_ascent_status (S fuel) (p_depth s) s) as Ht.
  destruct (trial_ascent d po2 avg_depth bottom_time stoplevels (S fuel)
              (p_depth s) s) as [[st clear_to_ascend] s1].
  cbn [fst] in Ht.
  destruct st; try discriminate; [|contradiction].
  destruct clear_to_ascend; [discriminate|apply IH].
Qed.

Lemma ascent_loop_status (fuel : nat) :
  forall s,
    fst (ascent_loop d po2 avg_depth bottom_time stoplevels changes fuel s)
    <> Assert_failed.
Proof.
  induction fuel as [|fuel IH]; intros s; cbn [ascent_loop]; [discriminate|].
  pose proof (ascend_status (S fuel) s) as Ha.
  destruct (ascend d po2 avg_depth bottom_time stoplevels (S fuel) s)
    as [st s1].
  cbn [fst] in Ha.
  destruct st; try discriminate; [|contradiction].
  destruct (p_depth s1 <=? 0); [discriminate|].
  destruct (gas_change d po2 stoplevels changes s1) as [s2|]; [|discriminate].
  match goal with
  | |- context [deco_stop _ _ _ _ _ _ ?s3] =>
      pose proof (deco_stop_status (S fuel) s3) as Hd;
      destruct (deco_stop d po2 avg_depth bottom_time stoplevels (S fuel) s3)
        as [st s4]
  end.
  cbn [fst] in Hd.
  destruct st; try discriminate; [|contradiction].
  apply IH.
Qed.

End AscentStatus.

(** X8.  Inside [plan] the [assert] of [analyze_gaslist] cannot fail:
    [create_dive_from_plan] has looked up the gas of every zero-time way
    point with [verify_gas_exists] and made no dive if one was missing, and
    the dive it makes carries the gas mixes of the master dive's cylinders
    unchanged, so that [get_gasidx] finds each of these gases.  No run of
    [plan], whatever the plan, the cylinders and the decompression model,
    stops at the assertion. *)
Theorem plan_never_fails_the_assertion {L : DiveLib} (fuel : nat)
    (levels : list Z) (diveplan0 : diveplan) (cached_datap : option snapshot)
    (divep : option dive) (master_dive : dive)
    (add_deco show_disclaimer : bool) (ds : deco_state) (table : dive_table_t)
    (log : list report) :
  o_status (plan fuel levels diveplan0 cached_datap divep master_dive add_deco
              show_disclaimer ds table log)
  <> Assert_failed
  /\ forall d depth asc_cylinder,
       fst (fst (create_dive_from_plan diveplan0 master_dive log)) = Some d ->
       map cyl_gasmix (cylinder d) = map cyl_gasmix (cylinder master_dive)
       /\ analyze_gaslist diveplan0 d depth asc_cylinder <> None.
Proof.
  assert (Hgas : forall plan0 d depth asc_cylinder,
            fst (fst (create_dive_from_plan plan0 master_dive log)) = Some d ->
            map cyl_gasmix (cylinder d) = map cyl_gasmix (cylinder master_dive)
            /\ analyze_gaslist plan0 d depth asc_cylinder <> None).
  { intros plan0 d depth asc_cylinder Hd.
    destruct (create_dive_from_plan_gases _ _ _ _ Hd) as [Hg Hf].
    split; [exact Hg|]. unfold analyze_gaslist.
    destruct (analyze_gaslist_loop (dp plan0) d depth []
                (cyl_depth_mm (cyl_at d asc_cylinder)) asc_cylinder)
      as [[chs a]|] eqn:E; [discriminate|].
    apply analyze_gaslist_loop_none in E.
    apply Exists_exists in E. destruct E as (p & Hin & Hp).
    apply filter_In in Hin.
    destruct Hin as [Hin Hc]. apply andb_true_iff in Hc. destruct Hc as [Hc _].
    apply Z.eqb_eq in Hc.
    rewrite Forall_forall in Hf. now destruct (Hf p Hin Hc). }
  split; [|intros d depth asc_cylinder; apply Hgas].
  unfold plan.
  set (plan0 := default_surface_pressure diveplan0).
  destruct (create_dive_from_plan plan0 master_dive log) as [[dv m] lg] eqn:Ec.
  destruct dv as [d|]; [|discriminate].
  assert (Hd : fst (fst (create_dive_from_plan plan0 master_dive log)) = Some d)
    by now rewrite Ec.
  assert (Hw : forall table' gas cyl lg',
            o_status (plan_with_cylinder fuel levels plan0 cached_datap d m
                        add_deco show_disclaimer
                        (set_gf (gflow diveplan0) (gfhigh diveplan0)
                           gf_low_at_maxdepth ds) table' gas cyl lg')
            <> Assert_failed).
  { intros table' gas cyl lg'. unfold plan_with_cylinder.
    destruct add_deco; cbn [negb].
    - destruct (tissue_at_end (Some d) cached_datap _ lg')
        as [[[tissue_tolerance cached'] ds'] log'].
      destruct (Hgas plan0 d (s_depth (last_sample d)) cyl Hd) as [_ Ha].
      destruct (analyze_gaslist plan0 d (s_depth (last_sample d)) cyl)
        as [[[chs nr] best]|]; [|contradiction].
      destruct (sort_stops levels _ chs nr) as [stoplevels|]; [|discriminate].
      destruct (if negb (best =? cyl)
                then (true, best, cyl_gasmix (cyl_at d best))
                else (false, cyl, gas)) as [[stopping cyl'] gas'].
      match goal with
      | |- context [ascent_loop ?a ?b ?c ?e ?f ?g fuel ?s0] =>
          pose proof (ascent_loop_status a b c e f g fuel s0) as Hs;
          destruct (ascent_loop a b c e f g fuel s0) as [st s]
      end.
      cbn [fst] in Hs.
      destruct st; try discriminate; [|contradiction].
      now destruct (create_dive_from_plan _ m log') as [[dv' m'] lg''].
    - now destruct (create_dive_from_plan _ m lg') as [[dv' m'] lg'']. }
  destruct (get_gasidx d _ =? -1); apply Hw.
Qed.

(** ** The steps of the ascent *)

Lemma ascend_velocity_bounds (depth avg_depth bottom_time : Z) :
  16 <= ascend_velocity depth avg_depth bottom_time <= 150.
Proof.
  unfold ascend_velocity.
  destruct (depth <=? 6000); [cbn; lia|].
  destruct (depth * 4 >? avg_depth * 3); cbn; lia.
Qed.

Section AscentSteps.
Context {L : DiveLib}.
Variables (d : dive) (po2 avg_depth bottom_time : Z).
Variables (stoplevels : list Z) (changes : list gaschanges).

(** The [do ... while] loop towards the stop at [stoplevels[stopidx]]. *)
Lemma ascend_spec (fuel : nat) :
  forall s level,
    rd stoplevels (p_stopidx s) = Some level ->
    let r := ascend d po2 avg_depth bottom_time stoplevels fuel s in
    (fst r = Returned \/ fst r = Out_of_fuel)
    /\ p_stopidx (snd r) = p_stopidx s
    /\ p_gi (snd r) = p_gi s
    /\ p_gas (snd r) = p_gas s
    /\ p_current_cylinder (snd r) = p_current_cylinder s
    /\ p_trial_cache (snd r) = p_trial_cache s
    /\ (fst r = Returned ->
        p_depth (snd r) = level
        /\ p_clock s < p_clock (snd r)
        /\ (level <= p_depth s ->
            16 * (p_clock (snd r) - p_clock s - 1) <= p_depth s - level
            /\ p_depth s - level <= 150 * (p_clock (snd r) - p_clock s)))
    /\ (Z.max 0 (p_depth s - level) / 16 < Z.of_nat fuel -> fst r = Returned).
Proof.
  induction fuel as [|fuel IH]; intros s level Hrd; cbn zeta.
  - cbn [ascend fst snd]. repeat split; auto; try discriminate.
    intros H. pose proof (Z.div_pos (Z.max 0 (p_depth s - level)) 16). lia.
  - cbn [ascend].
    pose proof (ascend_velocity_bounds (p_depth s) avg_depth bottom_time)
      as Hrate.
    set (rate := ascend_velocity (p_depth s) avg_depth bottom_time) in *.
    set (s1 := if negb (rate =? p_last_ascend_rate s)
               then set_last_ascend_rate rate
                      (set_stopping false (add_waypoint po2 (p_depth s) s))
               else s).
    assert (H1 : p_stopidx s1 = p_stopidx s /\ p_gi s1 = p_gi s
                 /\ p_gas s1 = p_gas s
                 /\ p_current_cylinder s1 = p_current_cylinder s
                 /\ p_trial_cache s1 = p_trial_cache s
                 /\ p_depth s1 = p_depth s /\ p_clock s1 = p_clock s)
      by (subst s1; destruct (negb (rate =? p_last_ascend_rate s));
          cbn; repeat split; reflexivity).
    clearbody s1. destruct H1 as (E1 & E2 & E3 & E4 & E5 & E6 & E7).
    rewrite E1, Hrd, E6.
    set (deltad := if p_depth s - rate * TIMESTEP <? level
                   then p_depth s - level else rate * TIMESTEP).
    assert (Hd : p_depth s - deltad = Z.max (p_depth s - rate) level).
    { subst deltad. unfold TIMESTEP.
      destruct (Z.ltb_spec (p_depth s - rate * 1) level); lia. }
    match goal with
    | |- context [ascend _ _ _ _ _ fuel ?x] => set (s2 := x)
    end.
    assert (H2 : p_stopidx s2 = p_stopidx s /\ p_gi s2 = p_gi s
                 /\ p_gas s2 = p_gas s
                 /\ p_current_cylinder s2 = p_current_cylinder s
                 /\ p_trial_cache s2 = p_trial_cache s
                 /\ p_depth s2 = Z.max (p_depth s - rate) level
                 /\ p_clock s2 = p_clock s + 1)
      by (subst s2; cbn; unfold TIMESTEP; rewrite ?E6, ?E7; repeat split;
          assumption).
    clearbody s2. destruct H2 as (F1 & F2 & F3 & F4 & F5 & F6 & F7).
    destruct (Z.gtb_spec (p_depth s2) level) as [Hgt|Hle].
    + assert (Hrd2 : rd stoplevels (p_stopidx s2) = Some level)
        by now rewrite F1.
      destruct (IH s2 level Hrd2)
        as (Hst & G1 & G2 & G3 & G4 & G5 & Hret & Hfuel).
      split; [exact Hst|].
      repeat (split; [congruence|]).
      split.
      * intros Hr. destruct (Hret Hr) as (Hdep & Hclk & Hb).
        split; [exact Hdep|]. split; [lia|].
        intros Hlev. destruct Hb as [Hb1 Hb2]; [lia|]. lia.
      * intros Hf. apply Hfuel.
        assert (Hq : (p_depth s - level) / 16 < Z.of_nat (S fuel)).
        { rewrite Z.max_r in Hf by lia. exact Hf. }
        rewrite Z.max_r by lia.
        assert (Hq2 : (p_depth s2 - level) / 16
                      <= (p_depth s - level - 16) / 16)
          by (apply Z.div_le_mono; lia).
        replace (p_depth s - level - 16) with (p_depth s - level + (-1) * 16)
          in Hq2 by lia.
        rewrite Z.div_add in Hq2 by lia. lia.
    + cbn [fst snd]. split; [now left|].
      repeat (split; [assumption|]).
      split; [|reflexivity].
      intros _. split; [lia|]. split; [lia|]. intros Hlev. lia.
Qed.

(** The trial ascent is a probe: it changes the tissues of the
    decompression model and nothing else. *)
Lemma trial_ascent_frame (fuel : nat) :
  forall trial_depth s,
    let r := trial_ascent d po2 avg_depth bottom_time stoplevels fuel
               trial_depth s in
    snd r = set_tissues (p_deco (snd r), p_tissue_tolerance (snd r)) s.
Proof.
  induction fuel as [|fuel IH]; intros trial_depth s; cbn zeta;
    cbn [trial_ascent].
  - now destruct s.
  - destruct (rd stoplevels (p_stopidx s)) as [level|]; [|now destruct s].
    destruct (trial_depth >? level); [|now destruct s].
    match goal with
    | |- context [if ?c then _ else _] => destruct c
    end; [now destruct s|].
    rewrite IH at 1. now destruct s.
Qed.

Lemma trial_ascent_returns (fuel : nat) :
  forall trial_depth s level,
    rd stoplevels (p_stopidx s) = Some level ->
    let r := trial_ascent d po2 avg_depth bottom_time stoplevels fuel
               trial_depth s in
    (fst (fst r) = Returned \/ fst (fst r) = Out_of_fuel)
    /\ (Z.max 0 (trial_depth - level + 15) / 16 < Z.of_nat fuel ->
        fst (fst r) = Returned).
Proof.
  induction fuel as [|fuel IH]; intros trial_depth s level Hrd; cbn zeta;
    cbn [trial_ascent].
  - split; [now right|]. intros H.
    pose proof (Z.div_pos (Z.max 0 (trial_depth - level + 15)) 16). lia.
  - rewrite Hrd.
    destruct (Z.gtb_spec trial_depth level) as [Hgt|Hle];
      [|split; [now left|reflexivity]].
    match goal with
    | |- context [if ?c then _ else _] => destruct c
    end; [split; [now left|reflexivity]|].
    pose proof (ascend_velocity_bounds trial_depth avg_depth bottom_time)
      as Hrate.
    set (rate := ascend_velocity trial_depth avg_depth bottom_time) in *.
    destruct (IH (trial_depth - rate * TIMESTEP)
                (breathe d po2 trial_depth TIMESTEP s) level Hrd)
      as [Hst Hfuel].
    split; [exact Hst|]. intros Hf. apply Hfuel. unfold TIMESTEP.
    rewrite Z.max_r in Hf by lia.
    destruct (Z.max_spec 0 (trial_depth - rate * 1 + - level + 15))
      as [[_ Hm]|[_ Hm]].
    + replace (trial_depth - rate * 1 - level + 15)
        with (trial_depth - rate * 1 + - level + 15) by lia.
      rewrite Hm.
      assert (Hq : (trial_depth - rate * 1 + - level + 15) / 16
                   <= (trial_depth - level + 15 + (-1) * 16) / 16)
        by (apply Z.div_le_mono; lia).
      rewrite Z.div_add in Hq by lia. lia.
    + replace (trial_depth - rate * 1 - level + 15)
        with (trial_depth - rate * 1 + - level + 15) by lia.
      rewrite Hm.
      assert (Hq : 1 <= (trial_depth - level + 15) / 16)
        by (apply Z.div_le_lower_bound; lia).
      cbn. lia.
Qed.

(** What the plan keeps when way points that were not entered are
    appended. *)
Variable Q : diveplan -> Prop.
Hypothesis Q_add :
  forall plan duration depth gas,
    Q plan -> Q (plan_add_segment plan duration depth gas po2 false).

Lemma ascend_plan (fuel : nat) :
  forall s, Q (p_diveplan s) ->
    Q (p_diveplan (snd (ascend d po2 avg_depth bottom_time stoplevels fuel s))).
Proof.
  induction fuel as [|fuel IH]; intros s Hs; [exact Hs|].
  cbn [ascend].
  set (rate := ascend_velocity (p_depth s) avg_depth bottom_time).
  set (s1 := if negb (rate =? p_last_ascend_rate s)
             then set_last_ascend_rate rate
                    (set_stopping false (add_waypoint po2 (p_depth s) s))
             else s).
  assert (H1 : Q (p_diveplan s1)).
  { subst s1. destruct (negb (rate =? p_last_ascend_rate s)); [|assumption].
    cbn. now apply Q_add. }
  clearbody s1.
  destruct (rd stoplevels (p_stopidx s1)) as [level|]; [|exact H1].
  match goal with
  | |- Q (p_diveplan (snd (if ?c then _ else _))) => destruct c
  end; [apply IH|]; exact H1.
Qed.

(** A stop: the depth, the stop, the gas and the cylinder stay; the clock
    advances by whole minutes; a way point is appended on entering the stop
    if the last segment was an ascent. *)
Lemma deco_stop_frame (fuel : nat) :
  forall s,
    let r := deco_stop d po2 avg_depth bottom_time stoplevels fuel s in
    p_depth (snd r) = p_depth s
    /\ p_stopidx (snd r) = p_stopidx s
    /\ p_gi (snd r) = p_gi s
    /\ p_gas (snd r) = p_gas s
    /\ p_current_cylinder (snd r) = p_current_cylinder s
    /\ p_last_ascend_rate (snd r) = p_last_ascend_rate s
    /\ (Q (p_diveplan s) -> Q (p_diveplan (snd r)))
    /\ exists minutes,
         0 <= minutes
         /\ p_clock (snd r) = p_clock s + minutes * DECOTIMESTEP
         /\ (minutes = 0 ->
             p_diveplan (snd r) = p_diveplan s
             /\ p_stopping (snd r) = p_stopping s
             /\ p_previous_point_time (snd r) = p_previous_point_time s)
         /\ (0 < minutes ->
             p_stopping (snd r) = true
             /\ (p_stopping s = true ->
                 p_diveplan (snd r) = p_diveplan s
                 /\ p_previous_point_time (snd r) = p_previous_point_time s)
             /\ (p_stopping s = false ->
                 p_diveplan (snd r)
                 = plan_add_segment (p_diveplan s)
                     (p_clock s - p_previous_point_time s) (p_depth s)
                     (p_gas s) po2 false
                 /\ p_previous_point_time (snd r) = p_clock s)).
Proof.
  induction fuel as [|fuel IH]; intros s; cbn zeta.
  - cbn [deco_stop snd]. repeat (split; [auto|]).
    exists 0. repeat split; auto; lia.
  - cbn [deco_stop].
    pose proof (trial_ascent_frame (S fuel) (p_depth s) s) as Ht.
    cbn zeta in Ht.
    destruct (trial_ascent d po2 avg_depth bottom_time stoplevels (S fuel)
                (p_depth s) s) as [[st clear_to_ascend] s1].
    cbn [snd] in Ht.
    assert (Hstay : forall st',
              let r : status * pstate := (st', s1) in
              p_depth (snd r) = p_depth s
              /\ p_stopidx (snd r) = p_stopidx s
              /\ p_gi (snd r) = p_gi s
              /\ p_gas (snd r) = p_gas s
              /\ p_current_cylinder (snd r) = p_current_cylinder s
              /\ p_last_ascend_rate (snd r) = p_last_ascend_rate s
              /\ (Q (p_diveplan s) -> Q (p_diveplan (snd r)))
              /\ exists minutes,
                   0 <= minutes
                   /\ p_clock (snd r) = p_clock s + minutes * DECOTIMESTEP
                   /\ (minutes = 0 ->
                       p_diveplan (snd r) = p_diveplan s
                       /\ p_stopping (snd r) = p_stopping s
                       /\ p_previous_point_time (snd r)
                          = p_previous_point_time s)
                   /\ (0 < minutes ->
                       p_stopping (snd r) = true
                       /\ (p_stopping s = true ->
                           p_diveplan (snd r) = p_diveplan s
                           /\ p_previous_point_time (snd r)
                              = p_previous_point_time s)
                       /\ (p_stopping s = false ->
                           p_diveplan (snd r)
                           = plan_add_segment (p_diveplan s)
                               (p_clock s - p_previous_point_time s)
                               (p_depth s) (p_gas s) po2 false
                           /\ p_previous_point_time (snd r) = p_clock s))).
    { intros st'. cbn zeta. cbn [snd]. rewrite Ht. cbn.
      repeat (split; [auto|]). exists 0. repeat split; auto; lia. }
    destruct st; try apply Hstay.
    destruct clear_to_ascend.
    { cbn [snd]. rewrite Ht. cbn.
      repeat (split; [auto|]). exists 0. repeat split; auto; lia. }
    match goal with
    | |- context [deco_stop _ _ _ _ _ fuel ?x] => set (s6 := x)
    end.
    destruct (IH s6) as (G1 & G2 & G3 & G4 & G5 & G6 & GQ & m & Hm & Hc & Hz & Hp).
    assert (F : p_depth s6 = p_depth s /\ p_stopidx s6 = p_stopidx s
                /\ p_gi s6 = p_gi s /\ p_gas s6 = p_gas s
                /\ p_current_cylinder s6 = p_current_cylinder s
                /\ p_last_ascend_rate s6 = p_last_ascend_rate s
                /\ p_clock s6 = p_clock s + DECOTIMESTEP
                /\ p_stopping s6 = true
                /\ (p_stopping s = true ->
                    p_diveplan s6 = p_diveplan s
                    /\ p_previous_point_time s6 = p_previous_point_time s)
                /\ (p_stopping s = false ->
                    p_diveplan s6
                    = plan_add_segment (p_diveplan s)
                        (p_clock s - p_previous_point_time s) (p_depth s)
                        (p_gas s) po2 false
                    /\ p_previous_point_time s6 = p_clock s)
                /\ (Q (p_diveplan s) -> Q (p_diveplan s6))).
    { subst s6. rewrite Ht. cbn.
      destruct (p_stopping s) eqn:Es; cbn;
        repeat (split; [auto; try discriminate|]); auto;
        try discriminate. }
    clearbody s6.
    destruct F as (F1 & F2 & F3 & F4 & F5 & F6 & F7 & F8 & F9 & F10 & FQ).
    repeat (split; [congruence|]).
    split; [auto|].
    exists (m + 1). split; [lia|]. split; [lia|]. split; [lia|].
    intros _.
    assert (Hsame : p_diveplan
                      (snd (deco_stop d po2 avg_depth bottom_time stoplevels
                              fuel s6)) = p_diveplan s6
                    /\ p_stopping
                         (snd (deco_stop d po2 avg_depth bottom_time
                                 stoplevels fuel s6)) = true
                    /\ p_previous_point_time
                         (snd (deco_stop d po2 avg_depth bottom_time
                                 stoplevels fuel s6))
                       = p_previous_point_time s6).
    { destruct (Z.eq_dec m 0) as [E0|E0].
      - destruct (Hz E0) as (Z1 & Z2 & Z3). rewrite Z1, Z2, Z3. auto.
      - destruct Hp as (P1 & P2 & _); [lia|].
        destruct (P2 F8) as [P3 P4]. auto. }
    destruct Hsame as (S1 & S2 & S3).
    split; [exact S2|]. rewrite S1, S3. split; assumption.
Qed.

Lemma deco_stop_returns (fuel : nat) :
  forall s level,
    rd stoplevels (p_stopidx s) = Some level ->
    let r := deco_stop d po2 avg_depth bottom_time stoplevels fuel s in
    fst r = Returned \/ fst r = Out_of_fuel.
Proof.
  induction fuel as [|fuel IH]; intros s level Hrd; cbn zeta;
    cbn [deco_stop]; [now right|].
  pose proof (trial_ascent_frame (S fuel) (p_depth s) s) as Ht.
  destruct (trial_ascent_returns (S fuel) (p_depth s) s level Hrd) as [Hs _].
  cbn zeta in Ht.
  destruct (trial_ascent d po2 avg_depth bottom_time stoplevels (S fuel)
              (p_depth s) s) as [[st clear_to_ascend] s1].
  cbn [fst snd] in *.
  destruct st; try (destruct Hs; discriminate); [|now right].
  destruct clear_to_ascend; [now left|].
  apply (IH _ level). rewrite Ht. cbn.
  destruct (p_stopping s); cbn; exact Hrd.
Qed.

Lemma gas_change_spec (s : pstate) (level : Z) :
  rd stoplevels (p_stopidx s) = Some level ->
  p_gi s < Z.of_nat (length changes) ->
  exists s',
    gas_change d po2 stoplevels changes s = Some s'
    /\ p_stopidx s' = p_stopidx s
    /\ p_depth s' = p_depth s
    /\ p_clock s' = p_clock s
    /\ p_gi s' <= p_gi s
    /\ (Q (p_diveplan s) -> Q (p_diveplan s')).
Proof.
  intros Hrd Hgi. unfold gas_change. rewrite Hrd.
  destruct (Z.geb_spec (p_gi s) 0) as [H0|H0].
  - destruct (nth_error_in_range changes (Z.to_nat (p_gi s))) as [g Hg];
      [lia|].
    assert (Hrg : rd changes (p_gi s) = Some g).
    { unfold rd. destruct (Z.ltb_spec (p_gi s) 0); [lia|exact Hg]. }
    rewrite Hrg. cbn [obind].
    destruct (level =? gc_depth g).
    + eexists. split; [reflexivity|]. cbn.
      repeat (split; [reflexivity || lia|]). intros Hq. now apply Q_add.
    + exists s. repeat split; auto; lia.
  - exists s. repeat split; auto; lia.
Qed.

Lemma gas_change_plan (s s' : pstate) :
  gas_change d po2 stoplevels changes s = Some s' ->
  Q (p_diveplan s) -> Q (p_diveplan s').
Proof.
  unfold gas_change.
  destruct (p_gi s >=? 0); [|now intros [= <-]].
  destruct (rd stoplevels (p_stopidx s)) as [level|]; [|discriminate].
  destruct (rd changes (p_gi s)) as [g|]; [|discriminate].
  cbn [obind].
  destruct (level =? gc_depth g); [|now intros [= <-]].
  intros [= <-] Hq. cbn. now apply Q_add.
Qed.

(** The whole ascent keeps what appending keeps, and is left as returned
    only at the surface. *)
Lemma ascent_loop_plan (fuel : nat) :
  forall s,
    let r := ascent_loop d po2 avg_depth bottom_time stoplevels changes fuel
               s in
    (Q (p_diveplan s) -> Q (p_diveplan (snd r)))
    /\ (fst r = Returned -> p_depth (snd r) <= 0).
Proof.
  induction fuel as [|fuel IH]; intros s; cbn zeta.
  - cbn [ascent_loop fst snd]. split; [auto|discriminate].
  - cbn [ascent_loop].
    pose proof (ascend_plan (S fuel) s) as Ha.
    destruct (ascend d po2 avg_depth bottom_time stoplevels (S fuel) s)
      as [st s1].
    cbn [snd] in Ha.
    destruct st; try (cbn [fst snd]; split; [exact Ha|discriminate]).
    destruct (Z.leb_spec (p_depth s1) 0) as [Hsurf|Hdeep];
      [cbn [fst snd]; split; [exact Ha|auto]|].
    destruct (gas_change d po2 stoplevels changes s1) as [s2|] eqn:Eg;
      [|cbn [fst snd]; split; [exact Ha|discriminate]].
    pose proof (gas_change_plan s1 s2 Eg) as Hg.
    match goal with
    | |- context [deco_stop _ _ _ _ _ _ ?x] =>
        destruct (deco_stop_frame (S fuel) x) as (_ & _ & _ & _ & _ & _ & Hd & _);
        destruct (deco_stop d po2 avg_depth bottom_time stoplevels (S fuel) x)
          as [st s4]
    end.
    cbn [snd p_diveplan set_trial_cache set_stopidx] in Hd.
    destruct st; try (cbn [fst snd]; split; [auto|discriminate]).
    match goal with
    | |- context [ascent_loop _ _ _ _ _ _ fuel ?x] =>
        destruct (IH x) as [Hq Hr]
    end.
    split; [|exact Hr].
    intros H0. apply Hq.
    destruct (p_stopping s4); [cbn; apply Q_add|]; auto.
Qed.

(** With the shallowest stop level at the surface, the stop index stays
    inside [stoplevels] and the index of the next gas change inside
    [changes]: the ascent reads no array outside its bounds. *)
Lemma ascent_loop_in_range (fuel : nat) :
  (exists z, rd stoplevels 0 = Some z /\ z <= 0) ->
  Z.of_nat (length stoplevels) <= 2 ^ 32 ->
  forall s,
    0 <= p_stopidx s < Z.of_nat (length stoplevels) ->
    p_gi s < Z.of_nat (length changes) ->
    let r := ascent_loop d po2 avg_depth bottom_time stoplevels changes fuel
               s in
    fst r = Returned \/ fst r = Out_of_fuel.
Proof.
  intros (z0 & Hz0 & Hle0) Hsize.
  assert (Hrd : forall i, 0 <= i < Z.of_nat (length stoplevels) ->
                          exists level, rd stoplevels i = Some level).
  { intros i Hi. unfold rd. destruct (Z.ltb_spec i 0); [lia|].
    apply nth_error_in_range. lia. }
  induction fuel as [|fuel IH]; intros s Hidx Hgi; cbn zeta;
    cbn [ascent_loop]; [now right|].
  destruct (Hrd _ Hidx) as [level Hlevel].
  destruct (ascend_spec (S fuel) s level Hlevel)
    as (Hst & A1 & A2 & _ & _ & _ & Hret & _).
  destruct (ascend d po2 avg_depth bottom_time stoplevels (S fuel) s)
    as [st s1].
  cbn [fst snd] in *.
  destruct st; try (destruct Hst; discriminate); [|now right].
  destruct (Hret eq_refl) as (Hdepth & _).
  destruct (Z.leb_spec (p_depth s1) 0) as [Hsurf|Hdeep]; [now left|].
  assert (Hlevel1 : rd stoplevels (p_stopidx s1) = Some level)
    by now rewrite A1.
  destruct (gas_change_spec s1 level Hlevel1 ltac:(lia))
    as (s2 & Eg & G1 & G2 & G3 & G4 & _).
  rewrite Eg.
  assert (Hpos : 0 < p_stopidx s).
  { destruct (Z.eq_dec (p_stopidx s) 0) as [E0|E0]; [|lia].
    rewrite E0 in Hlevel. rewrite Hz0 in Hlevel. injection Hlevel as <-. lia. }
  assert (Hu : uint (p_stopidx s2 - 1) = p_stopidx s - 1).
  { unfold uint. rewrite G1, A1. apply Z.mod_small. lia. }
  rewrite Hu.
  match goal with
  | |- context [deco_stop _ _ _ _ _ _ ?x] => set (s3 := x)
  end.
  assert (H3 : p_stopidx s3 = p_stopidx s - 1 /\ p_gi s3 = p_gi s2)
    by (subst s3; cbn; auto).
  clearbody s3. destruct H3 as [H3 H3g].
  destruct (Hrd (p_stopidx s3) ltac:(lia)) as [level3 Hlevel3].
  pose proof (deco_stop_returns (S fuel) s3 level3 Hlevel3) as Hds.
  destruct (deco_stop_frame (S fuel) s3) as (_ & D2 & D3 & _).
  cbn zeta in Hds.
  destruct (deco_stop d po2 avg_depth bottom_time stoplevels (S fuel) s3)
    as [st s4].
  cbn [fst snd] in *.
  destruct st; try (destruct Hds; discriminate); [|now right].
  apply IH.
  - destruct (p_stopping s4); cbn; lia.
  - destruct (p_stopping s4); cbn; lia.
Qed.

End AscentSteps.

(** X9.  The ascent to the next stop, [stoplevels[stopidx]] being a stop
    level [level]: with fuel for one round per 16 mm of the way the
    loop is left, and the depth is then the stop level itself, from
    wherever the ascent started; the stop index, the pending gas change, the
    gas and the cylinder are as before.  Every round takes a second, and
    starting at or below the stop the way is covered at no more than 150 mm
    and, the last second apart, no less than 16 mm per second. *)
Theorem ascend_reaches_the_stop {L : DiveLib} (d : dive)
    (po2 avg_depth bottom_time : Z) (stoplevels : list Z) (fuel : nat)
    (s : pstate) (level : Z) :
  rd stoplevels (p_stopidx s) = Some level ->
  Z.max 0 (p_depth s - level) / 16 < Z.of_nat fuel ->
  exists s',
    ascend d po2 avg_depth bottom_time stoplevels fuel s = (Returned, s')
    /\ p_depth s' = level
    /\ p_stopidx s' = p_stopidx s
    /\ p_gi s' = p_gi s
    /\ p_gas s' = p_gas s
    /\ p_current_cylinder s' = p_current_cylinder s
    /\ p_clock s < p_clock s'
    /\ (level <= p_depth s ->
        16 * (p_clock s' - p_clock s - 1) <= p_depth s - level
        /\ p_depth s - level <= 150 * (p_clock s' - p_clock s)).
Proof.
  intros Hrd Hfuel.
  destruct (ascend_spec d po2 avg_depth bottom_time stoplevels fuel s level
              Hrd) as (_ & A1 & A2 & A3 & A4 & _ & Hret & Hf).
  specialize (Hf Hfuel). destruct (Hret Hf) as (Hd & Hc & Hb).
  destruct (ascend d po2 avg_depth bottom_time stoplevels fuel s) as [st s'].
  cbn [fst snd] in *. subst st. exists s'. repeat split; auto; now apply Hb.
Qed.

(** From 18 m to the stop at 15 m. *)
Lemma ascend_reaches_the_stop_witness :
  rd decostoplevels (p_stopidx leaving_18m) = Some 15000
  /\ Z.max 0 (p_depth leaving_18m - 15000) / 16 < Z.of_nat 188
  /\ p_depth
       (snd (ascend (L := lib_two_cylinders) one_cylinder 0 18000 1860
               decostoplevels 188 leaving_18m)) = 15000.
Proof.
  assert (H1 : rd decostoplevels (p_stopidx leaving_18m) = Some 15000)
    by reflexivity.
  assert (H2 : Z.max 0 (p_depth leaving_18m - 15000) / 16 < Z.of_nat 188)
    by (vm_compute; reflexivity).
  split; [exact H1|]. split; [exact H2|].
  destruct (ascend_reaches_the_stop (L := lib_two_cylinders) one_cylinder 0
              18000 1860 decostoplevels 188 leaving_18m 15000 H1 H2)
    as (s' & E & Hd & _).
  rewrite E. exact Hd.
Defined.

(** X10.  Waiting at a stop, however the run of the loop ends: the depth,
    the stop index, the pending gas change, the gas, the cylinder and the
    last ascent rate are as before; the clock has advanced by a whole number
    of [DECOTIMESTEP]s; if by none, the way points are untouched, and
    otherwise the stop is marked as one ([stopping]) and exactly one way
    point was appended on entering it, at the depth of the stop with the time
    spent since the way point before, unless the stop was already marked.
    The trial ascents in between change the tissues of the decompression
    model and nothing else. *)
Theorem deco_stop_waits_whole_minutes {L : DiveLib} (d : dive)
    (po2 avg_depth bottom_time : Z) (stoplevels : list Z) (fuel : nat)
    (s : pstate) :
  (let s' := snd (deco_stop d po2 avg_depth bottom_time stoplevels fuel s) in
   p_depth s' = p_depth s
   /\ p_stopidx s' = p_stopidx s
   /\ p_gi s' = p_gi s
   /\ p_gas s' = p_gas s
   /\ p_current_cylinder s' = p_current_cylinder s
   /\ p_last_ascend_rate s' = p_last_ascend_rate s
   /\ exists minutes,
        0 <= minutes
        /\ p_clock s' = p_clock s + minutes * DECOTIMESTEP
        /\ (minutes = 0 ->
            p_diveplan s' = p_diveplan s
            /\ p_stopping s' = p_stopping s
            /\ p_previous_point_time s' = p_previous_point_time s)
        /\ (0 < minutes ->
            p_stopping s' = true
            /\ (p_stopping s = true ->
                p_diveplan s' = p_diveplan s
                /\ p_previous_point_time s' = p_previous_point_time s)
            /\ (p_stopping s = false ->
                p_diveplan s'
                = plan_add_segment (p_diveplan s)
                    (p_clock s - p_previous_point_time s) (p_depth s)
                    (p_gas s) po2 false
                /\ p_previous_point_time s' = p_clock s)))
  /\ forall trial_depth,
       let t := snd (trial_ascent d po2 avg_depth bottom_time stoplevels fuel
                       trial_depth s) in
       t = set_tissues (p_deco t, p_tissue_tolerance t) s.
Proof.
  split; [|intros trial_depth; apply trial_ascent_frame].
  destruct (deco_stop_frame d po2 avg_depth bottom_time stoplevels
              (fun _ => True) ltac:(auto) fuel s)
    as (D1 & D2 & D3 & D4 & D5 & D6 & _ & Hm).
  cbn zeta. repeat (split; [assumption|]). exact Hm.
Qed.

(** ** The arrays of the ascent *)

Lemma find_stop_bounds (levels : list Z) (depth : Z) :
  forall i, i <= find_stop levels i depth <= i + Z.of_nat (length levels).
Proof.
  induction levels as [|level rest IH]; intros i; cbn [find_stop length].
  - lia.
  - destruct (level >=? depth); [lia|]. specialize (IH (i + 1)). lia.
Qed.

Lemma Forall_firstn {A : Type} (P : A -> Prop) (l : list A) (n : nat) :
  Forall P l -> Forall P (firstn n l).
Proof.
  intros H. revert n. induction H as [|a l Ha Hl IH]; intros [|n];
    cbn [firstn]; constructor; auto.
Qed.

Lemma ascending_firstn (l : list Z) (n : nat) :
  ascending l -> ascending (firstn n l).
Proof.
  unfold ascending. intros H. revert n.
  induction H as [|a l Hs IH Hf]; intros [|n]; cbn [firstn];
    try constructor; auto.
  now apply Forall_firstn.
Qed.

(** The array of stops that [plan] has [sort_stops] make: as long as the
    fixed depths and the gas changes announced, with the shallowest stop at
    or above the surface. *)
Lemma sort_stops_for_plan (levels : list Z) (dnr : Z)
    (changes : list gaschanges) :
  hd_error levels = Some 0 -> ascending levels ->
  1 <= dnr <= Z.of_nat (length levels) ->
  ascending (map gc_depth changes) ->
  exists stoplevels,
    sort_stops levels dnr changes (Z.of_nat (length changes))
    = Some stoplevels
    /\ Z.of_nat (length stoplevels) = dnr + Z.of_nat (length changes)
    /\ exists z, rd stoplevels 0 = Some z /\ z <= 0.
Proof.
  intros Hhd Ha Hdnr Hc.
  rewrite sort_stops_spec by lia.
  set (ds := fixed_depths levels dnr).
  set (gs := change_depths changes (Z.of_nat (length changes))).
  assert (Eg : gs = map gc_depth changes).
  { subst gs. unfold change_depths. rewrite Nat2Z.id. now rewrite firstn_all. }
  assert (Hds : descending (rev ds))
    by (apply descending_rev; subst ds; now apply ascending_firstn).
  assert (Hgs : descending (rev gs))
    by (apply descending_rev; now rewrite Eg).
  assert (H0 : In 0 (merge_down (rev ds) (rev gs))).
  { apply merge_down_In. left. apply in_rev. rewrite rev_involutive.
    subst ds. unfold fixed_depths.
    destruct levels as [|l0 rest]; [discriminate|].
    injection Hhd as ->.
    destruct (Z.to_nat dnr) as [|n] eqn:En; [lia|]. now left. }
  pose proof (merge_down_descending _ _ Hds Hgs) as Hm.
  pose proof (merge_common_length (rev ds) (rev gs)) as Hl.
  eexists. split; [reflexivity|]. split.
  - rewrite length_app, repeat_length, length_rev.
    rewrite !length_rev in Hl.
    assert (length ds = Z.to_nat dnr)
      by (subst ds; unfold fixed_depths; rewrite length_firstn; lia).
    assert (length gs = length changes) by (rewrite Eg; apply length_map).
    lia.
  - destruct (length (common_down (rev ds) (rev gs))) as [|k].
    + cbn [repeat app].
      apply ascending_rev in Hm. apply in_rev in H0. revert Hm H0.
      generalize (rev (merge_down (rev ds) (rev gs))) as l.
      intros [|z l] Hm H0; [destruct H0|].
      exists z. split; [reflexivity|].
      apply StronglySorted_inv in Hm. destruct Hm as [_ Hf].
      destruct H0 as [->|H0]; [lia|].
      rewrite Forall_forall in Hf. now apply Hf.
    + exists 0. split; [reflexivity|lia].
Qed.

Section PlanInRange.
Context {L : DiveLib}.

(** From the point where the cylinder is known, the run reads [stoplevels]
    and the gas changes inside their bounds. *)
Lemma plan_with_cylinder_in_range (fuel : nat) (levels : list Z)
    (plan0 : diveplan) (cached_datap : option snapshot) (d master_dive : dive)
    (add_deco show_disclaimer : bool) (ds : deco_state) (table : dive_table_t)
    (gas : gasmix) (current_cylinder : Z) (log : list report) :
  hd_error levels = Some 0 -> ascending levels ->
  Z.of_nat (length levels) + Z.of_nat (length (dp plan0)) <= 2 ^ 32 ->
  o_status (plan_with_cylinder fuel levels plan0 cached_datap d master_dive
              add_deco show_disclaimer ds table gas current_cylinder log)
  <> Undefined_behaviour.
Proof.
  intros Hhd Ha Hsize. unfold plan_with_cylinder.
  destruct add_deco; cbn [negb];
    [|now destruct (create_dive_from_plan _ master_dive log)
            as [[dv' m'] lg'']].
  destruct (tissue_at_end (Some d) cached_datap ds log)
    as [[[tissue_tolerance cached'] ds'] log'].
  set (depth := s_depth (last_sample d)).
  unfold analyze_gaslist.
  destruct (analyze_gaslist_loop (dp plan0) d depth []
              (cyl_depth_mm (cyl_at d current_cylinder)) current_cylinder)
    as [[chs best]|] eqn:E; cbn [obind]; [|discriminate].
  destruct (analyze_gaslist_loop_changes _ _ _ _ _ _ _ _ E) as (Hp & Hs & _).
  rewrite app_nil_r in Hp.
  assert (Hlen : (length chs <= length (dp plan0))%nat).
  { rewrite (Permutation_length Hp), length_map. apply filter_length_le. }
  set (stopidx0 := find_stop levels 0 depth).
  set (stopidx := if stopidx0 >? 0 then stopidx0 - 1 else stopidx0).
  pose proof (find_stop_bounds levels depth 0) as Hb. fold stopidx0 in Hb.
  assert (Hne : (0 < length levels)%nat)
    by (destruct levels; [discriminate|cbn; lia]).
  assert (Hidx : 0 <= stopidx < Z.of_nat (length levels))
    by (subst stopidx; destruct (Z.gtb_spec stopidx0 0); lia).
  destruct (sort_stops_for_plan levels (stopidx + 1) chs Hhd Ha ltac:(lia)
              (Hs ltac:(constructor)))
    as (stoplevels & Es & Hsl & Hz).
  rewrite Es.
  assert (Hu : uint (stopidx + Z.of_nat (length chs))
               = Z.of_nat (length stoplevels) - 1)
    by (unfold uint; rewrite Z.mod_small; lia).
  rewrite Hu.
  destruct (if negb (best =? current_cylinder)
            then (true, best, cyl_gasmix (cyl_at d best))
            else (false, current_cylinder, gas)) as [[stopping cyl'] gas'].
  match goal with
  | |- context [ascent_loop ?a ?b ?c ?e ?f ?g fuel ?s0] =>
      pose proof (ascent_loop_in_range a b c e f g (fun _ => True)
                    ltac:(auto) fuel Hz ltac:(lia) s0
                    ltac:(cbn; lia) ltac:(cbn; lia)) as Hst;
      destruct (ascent_loop a b c e f g fuel s0) as [st s]
  end.
  cbn [fst] in Hst.
  destruct st; try (destruct Hst; discriminate).
  now destruct (create_dive_from_plan _ master_dive log') as [[dv' m'] lg''].
Qed.

End PlanInRange.

(** X11.  With a table of stop levels that ascends from 0 (as
    [decostoplevels] does, whatever [set_last_stop] made of it) and fewer
    than 2^32 levels and way points together, no run of [plan] reads
    [stoplevels] or the array of gas changes outside its bounds, and the
    unsigned stop index never wraps around: [sort_stops] is called with
    arrays that hold what the counts announce, the index starts at the last
    entry of [stoplevels], and it is decremented only above the surface,
    where the stop just reached is not the first entry. *)
Theorem plan_reads_inside_its_arrays {L : DiveLib} (fuel : nat)
    (levels : list Z) (diveplan0 : diveplan) (cached_datap : option snapshot)
    (divep : option dive) (master_dive : dive)
    (add_deco show_disclaimer : bool) (ds : deco_state) (table : dive_table_t)
    (log : list report) :
  hd_error levels = Some 0 -> ascending levels ->
  Z.of_nat (length levels) + Z.of_nat (length (dp diveplan0)) <= 2 ^ 32 ->
  o_status (plan fuel levels diveplan0 cached_datap divep master_dive add_deco
              show_disclaimer ds table log)
  <> Undefined_behaviour.
Proof.
  intros Hhd Ha Hsize. unfold plan.
  destruct (create_dive_from_plan (default_surface_pressure diveplan0)
              master_dive log) as [[dv m] lg].
  destruct dv as [d|]; [|discriminate].
  destruct (get_gasidx d _ =? -1);
    apply plan_with_cylinder_in_range; auto;
    now rewrite default_surface_pressure_dp.
Qed.

Lemma plan_reads_inside_its_arrays_witness :
  hd_error decostoplevels = Some 0
  /\ ascending decostoplevels
  /\ Z.of_nat (length decostoplevels) + Z.of_nat (length (dp plan_40m))
     <= 2 ^ 32
  /\ (o_status
        (plan (L := lib_two_cylinders) 3000 decostoplevels plan_40m None None
           two_cylinders true false tt 0 [])
      = Undefined_behaviour -> False).
Proof.
  assert (H1 : hd_error decostoplevels = Some 0) by reflexivity.
  assert (H2 : ascending decostoplevels) by by_computation.
  assert (H3 : Z.of_nat (length decostoplevels)
               + Z.of_nat (length (dp plan_40m)) <= 2 ^ 32)
    by by_computation.
  split; [exact H1|]. split; [exact H2|]. split; [exact H3|].
  exact (plan_reads_inside_its_arrays (L := lib_two_cylinders) 3000
           decostoplevels plan_40m None None two_cylinders true false tt 0 []
           H1 H2 H3).
Defined.

(** ** What a run adds to the plan *)

Section PlanAppends.
Context {L : DiveLib}.

Lemma plan_add_segment_appends (plan0 plan : diveplan)
    (duration depth : Z) (gas : gasmix) (po2 : Z) (added : list divedatapoint) :
  dp plan = dp plan0 ++ added ->
  set_dp plan (dp plan0) = plan0 ->
  exists p,
    dp (plan_add_segment plan duration depth gas po2 false)
    = dp plan0 ++ added ++ [p]
    /\ dp_depth p = depth /\ dp_gasmix p = gas /\ dp_po2 p = po2
    /\ dp_entered p = false
    /\ set_dp (plan_add_segment plan duration depth gas po2 false) (dp plan0)
       = plan0.
Proof.
  intros Hdp Hset.
  destruct (plan_add_segment_absolute_time_aux plan duration depth gas po2
              false) as [E _].
  eexists. rewrite E, Hdp, <- app_assoc.
  split; [reflexivity|]. cbn. repeat (split; [reflexivity|]).
  exact Hset.
Qed.

(** From the point where the cylinder is known: the way points that the run
    leaves are those it found and, behind them, way points that are not
    entered and carry the pO2 of the last sample; a run that returns has
    added at least the one at the surface. *)
Lemma plan_with_cylinder_appends (fuel : nat) (levels : list Z)
    (plan0 : diveplan) (cached_datap : option snapshot) (d master_dive : dive)
    (add_deco show_disclaimer : bool) (ds : deco_state) (table : dive_table_t)
    (gas : gasmix) (current_cylinder : Z) (log : list report) :
  let out := plan_with_cylinder fuel levels plan0 cached_datap d master_dive
               add_deco show_disclaimer ds table gas current_cylinder log in
  exists added,
    dp (o_diveplan out) = dp plan0 ++ added
    /\ Forall (fun p => dp_entered p = false
                        /\ dp_po2 p = s_po2 (last_sample d)) added
    /\ set_dp (o_diveplan out) (dp plan0) = plan0
    /\ (o_status out = Returned ->
        exists before p, added = before ++ [p] /\ dp_depth p = 0).
Proof.
  cbn zeta.
  set (Q := fun pl : diveplan =>
              exists added,
                dp pl = dp plan0 ++ added
                /\ Forall (fun p => dp_entered p = false
                                    /\ dp_po2 p = s_po2 (last_sample d)) added
                /\ set_dp pl (dp plan0) = plan0).
  assert (Q0 : Q plan0).
  { exists []. rewrite app_nil_r. repeat split; [constructor|].
    now destruct plan0. }
  assert (Q_add : forall pl duration depth g,
            Q pl ->
            Q (plan_add_segment pl duration depth g (s_po2 (last_sample d))
                 false)).
  { intros pl duration depth g (added & Hdp & Hf & Hset).
    destruct (plan_add_segment_appends plan0 pl duration depth g
                (s_po2 (last_sample d)) added Hdp Hset)
      as (p & E & _ & _ & Hpo & He & Hs).
    exists (added ++ [p]). split; [exact E|]. split; [|exact Hs].
    apply Forall_app. split; [exact Hf|]. repeat constructor; assumption. }
  assert (Hstay : forall st cd dv m dst tb lg,
            st <> Returned ->
            let out := mk_out st plan0 cd dv m dst tb lg in
            exists added,
              dp (o_diveplan out) = dp plan0 ++ added
              /\ Forall (fun p => dp_entered p = false
                                  /\ dp_po2 p = s_po2 (last_sample d)) added
              /\ set_dp (o_diveplan out) (dp plan0) = plan0
              /\ (o_status out = Returned ->
                  exists before p, added = before ++ [p] /\ dp_depth p = 0)).
  { intros st cd dv m dst tb lg Hst. cbn.
    destruct Q0 as (added & Hdp & Hf & Hset). exists added.
    repeat (split; [assumption|]). intros; contradiction. }
  assert (Hsurface : forall pl duration g,
            Q pl ->
            exists added,
              dp (plan_add_segment pl duration 0 g (s_po2 (last_sample d))
                    false) = dp plan0 ++ added
              /\ Forall (fun p => dp_entered p = false
                                  /\ dp_po2 p = s_po2 (last_sample d)) added
              /\ set_dp (plan_add_segment pl duration 0 g
                           (s_po2 (last_sample d)) false) (dp plan0) = plan0
              /\ exists before p, added = before ++ [p] /\ dp_depth p = 0).
  { intros pl duration g (added & Hdp & Hf & Hset).
    destruct (plan_add_segment_appends plan0 pl duration 0 g
                (s_po2 (last_sample d)) added Hdp Hset)
      as (p & E & Hd & _ & Hpo & He & Hs).
    exists (added ++ [p]). split; [exact E|]. split.
    { apply Forall_app. split; [exact Hf|]. repeat constructor; assumption. }
    split; [exact Hs|]. now exists added, p. }
  unfold plan_with_cylinder.
  destruct add_deco; cbn [negb].
  - destruct (tissue_at_end (Some d) cached_datap ds log)
      as [[[tissue_tolerance cached'] ds'] log'].
    destruct (analyze_gaslist plan0 d (s_depth (last_sample d))
                current_cylinder) as [[[chs nr] best]|];
      [|apply Hstay; discriminate].
    destruct (sort_stops levels _ chs nr) as [stoplevels|];
      [|apply Hstay; discriminate].
    destruct (if negb (best =? current_cylinder)
              then (true, best, cyl_gasmix (cyl_at d best))
              else (false, current_cylinder, gas)) as [[stopping cyl'] gas'].
    match goal with
    | |- context [ascent_loop ?a ?b ?c ?e ?f ?g fuel ?s0] =>
        destruct (ascent_loop_plan a b c e f g Q Q_add fuel s0) as [Hq _];
        destruct (ascent_loop a b c e f g fuel s0) as [st s]
    end.
    cbn [snd p_diveplan] in Hq. specialize (Hq Q0).
    destruct st.
    + destruct (create_dive_from_plan _ master_dive log') as [[dv' m'] lg''].
      cbn [o_diveplan o_status].
      destruct (Hsurface (p_diveplan s) (p_clock s - p_previous_point_time s)
                  (p_gas s) Hq) as (added & H1 & H2 & H3 & H4).
      exists added. auto.
    + cbn. destruct Hq as (added & H1 & H2 & H3). exists added.
      repeat (split; [assumption|]). discriminate.
    + cbn. destruct Hq as (added & H1 & H2 & H3). exists added.
      repeat (split; [assumption|]). discriminate.
    + cbn. destruct Hq as (added & H1 & H2 & H3). exists added.
      repeat (split; [assumption|]). discriminate.
  - destruct (create_dive_from_plan _ master_dive log) as [[dv' m'] lg''].
    cbn [o_diveplan o_status].
    destruct (Hsurface plan0 (Z.quot (s_depth (last_sample d)) 75) gas Q0)
      as (added & H1 & H2 & H3 & H4).
    exists added. auto.
Qed.

End PlanAppends.

(** X12.  A run of [plan], however it ends, only appends to the list of way
    points and changes nothing else of the plan but a surface pressure of 0,
    which becomes [SURFACE_PRESSURE]: the way points it was given are still
    there, unchanged and in order; those behind them are not marked as
    entered and carry the pO2 of the last segment of the given plan.  When no
    dive can be made of the given plan nothing is appended, and otherwise a
    run that returns has appended at least one way point, the last one at
    depth 0. *)
Theorem plan_appends_way_points {L : DiveLib} (fuel : nat)
    (levels : list Z) (diveplan0 : diveplan) (cached_datap : option snapshot)
    (divep : option dive) (master_dive : dive)
    (add_deco show_disclaimer : bool) (ds : deco_state) (table : dive_table_t)
    (log : list report) :
  let out := plan fuel levels diveplan0 cached_datap divep master_dive
               add_deco show_disclaimer ds table log in
  let made := fst (fst (create_dive_from_plan
                          (default_surface_pressure diveplan0) master_dive
                          log)) in
  exists added,
    dp (o_diveplan out) = dp diveplan0 ++ added
    /\ set_dp (o_diveplan out) (dp diveplan0)
       = default_surface_pressure diveplan0
    /\ Forall (fun p => dp_entered p = false
                        /\ forall q, last_segment (dp diveplan0) = Some q ->
                                     dp_po2 p = dp_po2 q) added
    /\ (made = None -> added = [])
    /\ (made <> None -> o_status out = Returned ->
        exists before p, added = before ++ [p] /\ dp_depth p = 0).
Proof.
  cbn zeta. unfold plan.
  set (plan0 := default_surface_pressure diveplan0).
  assert (Edp : dp plan0 = dp diveplan0)
    by apply default_surface_pressure_dp.
  pose proof (create_dive_from_plan_last_sample plan0 master_dive log) as Hlast.
  destruct (create_dive_from_plan plan0 master_dive log) as [[dv m] lg].
  cbn [fst] in *.
  destruct dv as [d|].
  - destruct (Hlast d eq_refl) as (q & Hq & _ & _ & Hpo).
    assert (Hw : forall table' gas cyl lg',
              let out := plan_with_cylinder fuel levels plan0 cached_datap d m
                           add_deco show_disclaimer
                           (set_gf (gflow diveplan0) (gfhigh diveplan0)
                              gf_low_at_maxdepth ds) table' gas cyl lg' in
              exists added,
                dp (o_diveplan out) = dp diveplan0 ++ added
                /\ set_dp (o_diveplan out) (dp diveplan0) = plan0
                /\ Forall (fun p => dp_entered p = false
                                    /\ forall q,
                                         last_segment (dp diveplan0) = Some q ->
                                         dp_po2 p = dp_po2 q) added
                /\ (Some d = None -> added = [])
                /\ (Some d <> None -> o_status out = Returned ->
                    exists before p, added = before ++ [p] /\ dp_depth p = 0)).
    { intros table' gas cyl lg'.
      destruct (plan_with_cylinder_appends fuel levels plan0 cached_datap d m
                  add_deco show_disclaimer
                  (set_gf (gflow diveplan0) (gfhigh diveplan0)
                     gf_low_at_maxdepth ds) table' gas cyl lg')
        as (added & H1 & H2 & H3 & H4).
      cbn zeta. exists added. rewrite <- Edp.
      split; [exact H1|]. split; [exact H3|]. split.
      { eapply Forall_impl; [|exact H2]. cbn. intros p [He Hp].
        split; [exact He|]. intros q' Hq'. rewrite Edp in Hq. congruence. }
      split; [discriminate|]. intros _. exact H4. }
    destruct (get_gasidx d _ =? -1); apply Hw.
  - exists []. cbn [o_diveplan o_status]. rewrite app_nil_r, <- Edp.
    split; [reflexivity|]. split; [now destruct plan0|].
    split; [constructor|]. split; [reflexivity|]. intros H. contradiction.
Qed.

(** ** Decimal numerals *)

Lemma digit_char_cases (d : Z) :
  is_digit d ->
  d = 0 \/ d = 1 \/ d = 2 \/ d = 3 \/ d = 4 \/ d = 5 \/ d = 6 \/ d = 7
  \/ d = 8 \/ d = 9.
Proof. unfold is_digit. lia. Qed.

Lemma digit_char_spec (d : Z) :
  is_digit d ->
  code (digit_char d) = 48 + d
  /\ isdigit (digit_char d) = true
  /\ isspace (digit_char d) = false
  /\ digit_char d <> "-"%char /\ digit_char d <> "+"%char
  /\ digit_char d <> "."%char /\ digit_char d <> "/"%char
  /\ digit_char d <> "%"%char
  /\ tolower (digit_char d) = digit_char d.
Proof.
  intros H. apply digit_char_cases in H.
  repeat (destruct H as [H|H]); subst d;
    repeat split; (reflexivity || discriminate).
Qed.

Lemma read_digits_numeral (ds : list Z) (rest : list ascii) :
  Forall is_digit ds -> isdigit (peek rest) = false ->
  forall acc,
    read_digits (numeral ds ++ rest) acc
    = (fold_left (fun a d => a * 10 + d) ds acc, rest).
Proof.
  intros Hd Hr. induction Hd as [|d ds Hd Hds IH]; intros acc;
    cbn [numeral map app fold_left].
  - destruct rest as [|c rest]; [reflexivity|]. cbn [read_digits].
    cbn [peek hd] in Hr. now rewrite Hr.
  - cbn [read_digits].
    destruct (digit_char_spec d Hd) as (Hc & Hi & _).
    rewrite Hi, Hc. fold (numeral ds). rewrite IH. f_equal. f_equal. lia.
Qed.

Lemma skip_digits_numeral (ds : list Z) (rest : list ascii) :
  Forall is_digit ds -> isdigit (peek rest) = false ->
  skip_digits (numeral ds ++ rest) = rest.
Proof.
  intros Hd Hr. induction Hd as [|d ds Hd Hds IH]; cbn [numeral map app].
  - destruct rest as [|c rest]; [reflexivity|]. cbn [skip_digits].
    cbn [peek hd] in Hr. now rewrite Hr.
  - cbn [skip_digits].
    destruct (digit_char_spec d Hd) as (_ & Hi & _). now rewrite Hi.
Qed.

Lemma skip_spaces_blank (ws t : list ascii) :
  blank ws -> skip_spaces (ws ++ t) = skip_spaces t.
Proof.
  induction 1 as [|c ws Hc Hws IH]; cbn [app skip_spaces]; [reflexivity|].
  now rewrite Hc.
Qed.

Lemma skip_spaces_stay (t : list ascii) :
  isspace (peek t) = false -> skip_spaces t = t.
Proof.
  destruct t as [|c t]; [reflexivity|]. cbn [peek hd skip_spaces].
  now intros ->.
Qed.

Lemma skip_spaces_only (ws : list ascii) : blank ws -> skip_spaces ws = [].
Proof.
  intros H. rewrite <- (app_nil_r ws). now rewrite skip_spaces_blank.
Qed.

Lemma numeral_value_from (ds : list Z) (acc : Z) :
  fold_left (fun a d => a * 10 + d) ds acc
  = acc * 10 ^ Z.of_nat (length ds) + numeral_value ds.
Proof.
  unfold numeral_value. revert acc.
  induction ds as [|d ds IH]; intros acc; cbn [fold_left length].
  - cbn. lia.
  - rewrite IH, (IH (0 * 10 + d)).
    rewrite Nat2Z.inj_succ, Z.pow_succ_r by lia. lia.
Qed.

(** [strtol] on a numeral behind white space and an optional minus sign. *)
Lemma strtol_numeral (ws : list ascii) (neg : bool) (ip : list Z)
    (rest : list ascii) :
  blank ws -> Forall is_digit ip -> ip <> [] ->
  isdigit (peek rest) = false ->
  strtol (ws ++ (if neg then ["-"%char] else []) ++ numeral ip ++ rest)
  = Some (clamp_long (if neg then - numeral_value ip else numeral_value ip),
          rest).
Proof.
  intros Hws Hd Hne Hr. unfold strtol. rewrite skip_spaces_blank by assumption.
  destruct ip as [|d ip]; [contradiction|].
  inversion Hd as [|? ? Hd1 Hds]; subst.
  destruct (digit_char_spec d Hd1) as (Hc & Hi & Hs & Hm & Hp & _).
  assert (Hread : read_digits (numeral (d :: ip) ++ rest) 0
                  = (numeral_value (d :: ip), rest))
    by now rewrite read_digits_numeral.
  destruct neg; cbn [app].
  - cbn [skip_spaces]. replace (isspace "-") with false by reflexivity.
    cbn [numeral map app peek hd] in *. rewrite Hi, Hread. reflexivity.
  - rewrite skip_spaces_stay by (cbn [numeral map app peek hd]; exact Hs).
    cbn [numeral map app] in *.
    destruct (ascii_dec (digit_char d) "-") as [E|_]; [contradiction|].
    destruct (ascii_dec (digit_char d) "+") as [E|_]; [contradiction|].
    assert (Hmatch : forall (A : Type) (x y z : A),
              match digit_char d :: map digit_char ip ++ rest with
              | "-"%char :: _ => x
              | "+"%char :: _ => y
              | _ => z
              end = z).
    { intros A x y z. destruct (digit_char d) as [[] [] [] [] [] [] [] []];
        try reflexivity; contradiction. }
    rewrite Hmatch. cbn [peek hd]. rewrite Hi, Hread. reflexivity.
Qed.

Ltac by_character c :=
  destruct c as [[] [] [] [] [] [] [] []]; try reflexivity; contradiction.

Lemma numeral_value_nonneg (ds : list Z) :
  Forall is_digit ds -> 0 <= numeral_value ds.
Proof.
  unfold numeral_value. intros H.
  assert (G : forall acc, 0 <= acc ->
                          0 <= fold_left (fun a d => a * 10 + d) ds acc).
  { induction H as [|d ds Hd Hds IH]; intros acc Hacc; cbn [fold_left];
      [assumption|].
    apply IH. unfold is_digit in Hd. lia. }
  apply G. lia.
Qed.

Lemma strtol_int_small (n : Z) :
  - 2 ^ 31 <= n < 2 ^ 31 -> strtol_int n = n.
Proof.
  intros H. unfold strtol_int, clamp_long, LONG_MAX, LONG_MIN, int_of_long.
  destruct (Z.gtb_spec n (2 ^ 63 - 1)); [lia|].
  destruct (Z.ltb_spec n (- 2 ^ 63)); [lia|].
  rewrite Z.mod_small; lia.
Qed.

Lemma blank_peek (ws : list ascii) :
  blank ws ->
  isdigit (peek ws) = false /\ isspace (peek ws) = false \/ ws <> [].
Proof.
  intros _. destruct ws; [left; split; reflexivity|right; discriminate].
Qed.

(** White space is neither a digit nor one of the characters of a number
    or a mix. *)
Lemma space_char (c : ascii) :
  isspace c = true ->
  isdigit c = false /\ c <> "."%char /\ c <> "/"%char /\ c <> "%"%char.
Proof.
  destruct c as [[] [] [] [] [] [] [] []]; cbn; intros H;
    try discriminate H; repeat split; discriminate.
Qed.

Lemma blank_stops (ws : list ascii) :
  blank ws ->
  isdigit (peek ws) = false /\ peek ws <> "."%char /\ peek ws <> "/"%char
  /\ peek ws <> "%"%char.
Proof.
  intros H. destruct H as [|c ws Hc _]; cbn [peek hd].
  - repeat split; discriminate.
  - now apply space_char.
Qed.

Section Numerals.
Variables (ws : list ascii) (neg : bool) (ip : list Z).
Hypothesis Hws : blank ws.
Hypothesis Hip : Forall is_digit ip.
Hypothesis Hne : ip <> [].

Lemma get_tenths_whole (rest endp : list ascii) :
  isdigit (peek rest) = false -> peek rest <> "."%char ->
  get_tenths (ws ++ (if neg then ["-"%char] else []) ++ numeral ip ++ rest)
    endp
  = (strtol_int (if neg then - numeral_value ip else numeral_value ip) * 10,
     rest).
Proof.
  intros Hd Hdot. unfold get_tenths.
  rewrite strtol_numeral by assumption.
  destruct rest as [|c rest]; [reflexivity|].
  cbn [peek hd] in Hdot. by_character c.
Qed.

Lemma get_tenths_fraction (f : Z) (fp : list Z) (rest endp : list ascii) :
  is_digit f -> Forall is_digit fp -> isdigit (peek rest) = false ->
  get_tenths
    (ws ++ (if neg then ["-"%char] else []) ++ numeral ip
     ++ "."%char :: numeral (f :: fp) ++ rest) endp
  = (strtol_int (if neg then - numeral_value ip else numeral_value ip) * 10
     + f, rest).
Proof.
  intros Hf Hfp Hd. unfold get_tenths.
  rewrite strtol_numeral by (assumption || reflexivity).
  destruct (digit_char_spec f Hf) as (Hc & Hi & _).
  cbn [numeral map app peek hd tl]. rewrite Hi, Hc.
  fold (numeral fp). rewrite skip_digits_numeral by assumption.
  unfold strtol_int. f_equal. change (code "0") with 48. lia.
Qed.

Lemma get_tenths_bare_point (rest endp : list ascii) :
  isdigit (peek rest) = false ->
  get_tenths
    (ws ++ (if neg then ["-"%char] else []) ++ numeral ip
     ++ "."%char :: rest) endp
  = (-1, endp).
Proof.
  intros Hd. unfold get_tenths.
  rewrite strtol_numeral by (assumption || reflexivity).
  now rewrite Hd.
Qed.

End Numerals.





(** ** Gas mixes given as numbers *)

Lemma strcasecmp_eq_head (c c' : ascii) (t t' : list ascii) :
  tolower c <> tolower c' -> strcasecmp_eq (c :: t) (c' :: t') = false.
Proof.
  intros H. unfold strcasecmp_eq. cbn [map].
  destruct (list_eq_dec ascii_dec _ _) as [E|_]; [|reflexivity].
  injection E as E1 _. contradiction.
Qed.

Lemma digit_is_no_letter (c : ascii) :
  isdigit c = true ->
  isspace c = false /\ tolower c <> "a"%char /\ tolower c <> "e"%char.
Proof.
  destruct c as [[] [] [] [] [] [] [] []]; cbn; intros H;
    try discriminate H; repeat split; discriminate.
Qed.

(** The parse of a mix that starts with a digit: oxygen, then helium behind
    a slash. *)
Lemma validate_gas_digit (ws : list ascii) (c : ascii) (t : list ascii)
    (gas : gasmix) :
  blank ws -> isdigit c = true ->
  validate_gas (Some (ws ++ c :: t)) gas
  = (let '(o2, he, text) :=
       let '(o2, text) := get_permille (c :: t) (c :: t) in
       match text with
       | "/"%char :: rest =>
           let '(he, text) := get_permille rest text in (o2, he, text)
       | _ => (o2, 0, text)
       end in
     match skip_spaces text with
     | _ :: _ => (0, gas)
     | [] =>
         if (o2 <? 1) || (o2 >? 1000) || (he <? 0) || (o2 + he >? 1000)
         then (0, gas) else (1, mk_gasmix o2 he)
     end).
Proof.
  intros Hws Hc. destruct (digit_is_no_letter c Hc) as (Hs & Ha & He).
  unfold validate_gas. rewrite skip_spaces_blank by assumption.
  rewrite skip_spaces_stay by exact Hs.
  change (translate "air") with ("a"%char :: str "ir").
  rewrite (strcasecmp_eq_head c "a" t (str "ir")) by exact Ha.
  unfold strncasecmp_eq.
  change (firstn 3 (translate "ean")) with ("e"%char :: str "an").
  cbn [firstn]. rewrite (strcasecmp_eq_head c "e") by exact He.
  reflexivity.
Qed.

Lemma get_permille_whole (ip : list Z) (rest endp : list ascii) :
  Forall is_digit ip -> ip <> [] -> numeral_value ip < 2 ^ 31 ->
  isdigit (peek rest) = false -> peek rest <> "."%char ->
  get_permille (numeral ip ++ rest) endp
  = (numeral_value ip * 10,
     match rest with
     | "%"%char :: r => r
     | _ => rest
     end).
Proof.
  intros Hip Hne Hsmall Hd Hdot. unfold get_permille.
  pose proof (get_tenths_whole [] false ip ltac:(constructor) Hip Hne rest
                endp Hd Hdot) as E.
  cbn [app] in E. rewrite E.
  pose proof (numeral_value_nonneg ip Hip) as H0.
  rewrite strtol_int_small by lia.
  destruct (Z.geb_spec (numeral_value ip * 10) 0); [|lia].
  destruct rest as [|c r]; [reflexivity|].
  destruct c as [[] [] [] [] [] [] [] []]; reflexivity.
Qed.

Lemma ean_prefix (ean : list ascii) :
  map tolower ean = str "ean" ->
  exists e a n,
    ean = [e; a; n] /\ tolower e = "e"%char /\ tolower a = "a"%char
    /\ tolower n = "n"%char.
Proof.
  destruct ean as [|e [|a [|n [|x ean]]]]; try discriminate.
  cbn. intros [= He Ha Hn]. exists e, a, n. auto.
Qed.

Lemma letter_e_is_no_space (e : ascii) :
  tolower e = "e"%char -> isspace e = false.
Proof.
  destruct e as [[] [] [] [] [] [] [] []]; cbn; intros H;
    try discriminate H; reflexivity.
Qed.

(** The parse of a mix that starts with "ean", in capitals or not. *)
Lemma validate_gas_ean (ws ean t : list ascii) (gas : gasmix) :
  blank ws -> map tolower ean = str "ean" ->
  validate_gas (Some (ws ++ ean ++ t)) gas
  = (let '(o2, text) := get_permille t (ean ++ t) in
     match skip_spaces text with
     | _ :: _ => (0, gas)
     | [] =>
         if (o2 <? 1) || (o2 >? 1000) || (0 <? 0) || (o2 + 0 >? 1000)
         then (0, gas) else (1, mk_gasmix o2 0)
     end).
Proof.
  intros Hws Hean.
  destruct (ean_prefix ean Hean) as (e & a & n & -> & He & Ha & Hn).
  unfold validate_gas. rewrite skip_spaces_blank by assumption.
  cbn [app]. rewrite skip_spaces_stay by now apply letter_e_is_no_space.
  change (translate "air") with ("a"%char :: str "ir").
  rewrite (strcasecmp_eq_head e "a") by (rewrite He; discriminate).
  unfold strncasecmp_eq.
  change (firstn 3 (translate "ean")) with (str "ean").
  cbn [firstn skipn]. unfold strcasecmp_eq at 1. cbn [map].
  rewrite He, Ha, Hn.
  destruct (list_eq_dec ascii_dec _ _) as [_|Hn']; [|now destruct Hn'].
  destruct (get_permille t (e :: a :: n :: t)) as [o2 text].
  reflexivity.
Qed.



(** ** The gas in use at a time *)

Section GasFromEvents.
Context {L : DiveLib}.

Lemma get_gas_from_events_fold (events : list event) (time : Z) :
  forall gas,
    get_gas_from_events events time gas
    = fold_left
        (fun g e => if is_gaschange e then get_gasmix_from_event e else g)
        (events_until events time) gas.
Proof.
  induction events as [|e next IH]; intros gas;
    cbn [get_gas_from_events events_until]; [reflexivity|].
  destruct (ev_time e <=? time); [|reflexivity].
  cbn [fold_left]. apply IH.
Qed.

Lemma fold_last_change (l : list event) (gas : gasmix) :
  fold_left
    (fun g e => if is_gaschange e then get_gasmix_from_event e else g) l gas
  = match find is_gaschange (rev l) with
    | Some e => get_gasmix_from_event e
    | None => gas
    end.
Proof.
  revert gas. induction l as [|e l IH] using rev_ind; intros gas;
    [reflexivity|].
  rewrite fold_left_app, rev_app_distr. cbn [fold_left rev app find].
  destruct (is_gaschange e); [reflexivity|apply IH].
Qed.

Lemma events_until_prefix (events : list event) (t1 t2 : Z) :
  t1 <= t2 ->
  exists rest, events_until events t2 = events_until events t1 ++ rest.
Proof.
  intros Ht. induction events as [|e next [rest IH]]; cbn [events_until].
  - now exists [].
  - destruct (Z.leb_spec (ev_time e) t1) as [H1|H1].
    + destruct (Z.leb_spec (ev_time e) t2); [|lia].
      exists rest. cbn [app]. now rewrite IH.
    + eexists. reflexivity.
Qed.

Lemma events_until_stops (pre post : list event) (e : event) (time : Z) :
  time < ev_time e ->
  events_until (pre ++ e :: post) time = events_until pre time.
Proof.
  intros Ht. induction pre as [|x pre IH]; cbn [app events_until].
  - destruct (Z.leb_spec (ev_time e) time); [lia|reflexivity].
  - destruct (ev_time x <=? time); [now rewrite IH|reflexivity].
Qed.

Lemma find_none_app {A : Type} (f : A -> bool) (l1 l2 : list A) :
  find f (l1 ++ l2) = None -> find f l1 = None /\ find f l2 = None.
Proof.
  induction l1 as [|a l1 IH]; cbn [app find]; [auto|].
  destruct (f a); [discriminate|exact IH].
Qed.

End GasFromEvents.

(** X16.  [get_gas_from_events] looks at the events up to the first one
    later than [time] and no further, even if events at or before [time]
    follow.  If none of them is a "gaschange" the gas passed in is left as
    it is; otherwise the gas is the one of the last "gaschange" among them,
    whatever was passed in.  So a gas obtained for an earlier time can be
    passed on to a call for a later time, as [tissue_at_end] does. *)
Theorem get_gas_from_events_last_change {L : DiveLib} (events : list event)
    (time : Z) (gas : gasmix) :
  get_gas_from_events events time gas
  = match find is_gaschange (rev (events_until events time)) with
    | Some e => get_gasmix_from_event e
    | None => gas
    end
  /\ (forall pre e post,
        events = pre ++ e :: post -> time < ev_time e ->
        get_gas_from_events events time gas
        = get_gas_from_events pre time gas)
  /\ (forall t1,
        t1 <= time ->
        get_gas_from_events events time (get_gas_from_events events t1 gas)
        = get_gas_from_events events time gas).
Proof.
  split; [|split].
  - now rewrite get_gas_from_events_fold, fold_last_change.
  - intros pre e post -> Ht.
    now rewrite !get_gas_from_events_fold, events_until_stops.
  - intros t1 Ht.
    rewrite !get_gas_from_events_fold, !fold_last_change.
    destruct (events_until_prefix events t1 time Ht) as [rest E].
    destruct (find is_gaschange (rev (events_until events time))) eqn:Ef;
      [reflexivity|].
    rewrite E, rev_app_distr in Ef. apply find_none_app in Ef.
    destruct Ef as [_ Ef]. now rewrite Ef.
Qed.

(** ** What create_dive_from_plan reports *)

Section DiveReports.
Context {L : DiveLib}.

Lemma set_last_po2_length (po2 : Z) (l : list sample) :
  length (set_last_po2 po2 l) = length l.
Proof.
  induction l as [|x [|y t] IH]; cbn [set_last_po2 length] in *;
    try reflexivity.
  now rewrite IH.
Qed.

(** A segment adds a sample or two, reports nothing, and leaves as the gas
    in use the one before or its own; a segment that fails reports its gas
    and nothing else. *)
Lemma cdp_segment_outcome (plan : diveplan) (p : divedatapoint)
    (s : cdp_state) :
  let gas := if gasmix_is_null (dp_gasmix p) then c_oldgasmix s
             else dp_gasmix p in
  match cdp_segment plan p s with
  | inl s' =>
      c_log s' = c_log s
      /\ (length (dc_sample (c_dive s)) < length (dc_sample (c_dive s')))%nat
      /\ (c_oldgasmix s' = c_oldgasmix s \/ c_oldgasmix s' = gas)
  | inr s' => c_log s' = c_log s ++ [Gas_not_on_cylinder_list gas]
  end.
Proof.
  cbn zeta. unfold cdp_segment.
  set (gas := if gasmix_is_null (dp_gasmix p) then c_oldgasmix s
              else dp_gasmix p).
  set (d0 := if negb (c_oldpo2 s =? dp_po2 p) && negb (c_lasttime s =? 0)
             then _ else c_dive s).
  assert (H0 : dc_sample d0 = dc_sample (c_dive s))
    by (subst d0; now destruct (negb _ && negb _)).
  clearbody d0.
  destruct (gasmix_distance gas (c_oldgasmix s) >? 0).
  - unfold verify_gas_exists.
    destruct (verify_gas_exists_from _ 0 d0 gas =? -1) eqn:E1;
      destruct (verify_gas_exists_from _ 0 d0 gas <? 0) eqn:E2.
    + reflexivity.
    + apply Z.eqb_eq in E1. rewrite E1 in E2. discriminate.
    + apply Z.ltb_lt in E2. apply Z.eqb_neq in E1.
      destruct (verify_gas_exists_from_spec d0 gas (Z.to_nat MAX_CYLINDERS) 0
                  ltac:(lia)) as [(Hr & _)|(Hr & _)]; cbv zeta in Hr; lia.
    + cbn. split; [reflexivity|]. split; [|now right].
      rewrite !length_app, !set_last_po2_length, length_app,
        set_last_po2_length, H0. cbn. lia.
  - destruct (c_cyl s); cbn; (split; [reflexivity|]); (split; [|now left]);
      rewrite length_app, set_last_po2_length, H0; cbn; lia.
Qed.

Lemma cdp_loop_outcome (plan : diveplan) (l : list divedatapoint) :
  forall s,
    match cdp_loop plan l s with
    | inl s' =>
        c_log s' = c_log s
        /\ (length (dc_sample (c_dive s))
            + length (filter (fun p => negb (dp_time p =? 0)%Z) l)
            <= length (dc_sample (c_dive s')))%nat
    | inr s' =>
        exists g,
          c_log s' = c_log s ++ [Gas_not_on_cylinder_list g]
          /\ (g = c_oldgasmix s \/ exists p, In p l /\ dp_gasmix p = g)
    end.
Proof.
  induction l as [|p l IH]; intros s; cbn [cdp_loop filter].
  - split; [reflexivity|]. cbn. lia.
  - destruct (dp_time p =? 0); cbn [negb].
    + unfold verify_gas_exists.
      destruct (verify_gas_exists_from _ 0 (c_dive s) (dp_gasmix p) =? -1)
        eqn:E1;
        destruct (verify_gas_exists_from _ 0 (c_dive s) (dp_gasmix p) <? 0)
          eqn:E2.
      * exists (dp_gasmix p). split; [reflexivity|].
        right. exists p. split; [now left|reflexivity].
      * apply Z.eqb_eq in E1. rewrite E1 in E2. discriminate.
      * apply Z.ltb_lt in E2. apply Z.eqb_neq in E1.
        destruct (verify_gas_exists_from_spec (c_dive s) (dp_gasmix p)
                    (Z.to_nat MAX_CYLINDERS) 0 ltac:(lia))
          as [(Hr & _)|(Hr & _)]; cbv zeta in Hr; lia.
      * specialize (IH s). destruct (cdp_loop plan l s) as [s'|s'].
        -- exact IH.
        -- destruct IH as (g & Hg & Hin). exists g. split; [exact Hg|].
           destruct Hin as [Hin|(q & Hq & Eq)]; [now left|].
           right. exists q. split; [now right|exact Eq].
    + pose proof (cdp_segment_outcome plan p s) as Hseg. cbn zeta in Hseg.
      destruct (cdp_segment plan p s) as [s1|s1].
      * destruct Hseg as (Hl & Hn & Hg).
        specialize (IH s1). destruct (cdp_loop plan l s1) as [s'|s'].
        -- destruct IH as [Hl' Hn']. split; [congruence|]. cbn [length]. lia.
        -- destruct IH as (g & Hg' & Hin). exists g.
           split; [congruence|].
           destruct Hin as [Hin|(q & Hq & Eq)].
           ++ destruct Hg as [Hg|Hg]; [left; congruence|].
              destruct (gasmix_is_null (dp_gasmix p));
                [left; congruence|].
              right. exists p. split; [now left|congruence].
           ++ right. exists q. split; [now right|exact Eq].
      * exists (if gasmix_is_null (dp_gasmix p) then c_oldgasmix s
                else dp_gasmix p).
        split; [exact Hseg|].
        destruct (gasmix_is_null (dp_gasmix p)); [now left|].
        right. exists p. split; [now left|reflexivity].
Qed.

Lemma diveplan_empty_filter (plan : diveplan) :
  diveplan_empty plan = true <->
  filter (fun p => negb (dp_time p =? 0)) (dp plan) = [].
Proof.
  unfold diveplan_empty. induction (dp plan) as [|p l IH];
    cbn [forallb filter]; [tauto|].
  destruct (dp_time p =? 0); cbn [andb negb]; [exact IH|].
  split; discriminate.
Qed.

End DiveReports.

(** X17.  What [create_dive_from_plan] reports.  When it makes a dive it
    reports nothing, and the plan has a way point with a time.  When it
    makes none, either the plan has no way point with a time and nothing is
    reported, or a gas was not found on a cylinder with data, and then
    exactly two reports were added: the missing gas, which is the gas of a
    way point of the plan (or the gas of the master dive's first cylinder,
    taken for a way point without gas), and "Too many gas mixes". *)
Theorem create_dive_from_plan_reports {L : DiveLib} (plan : diveplan)
    (master_dive : dive) (log : list report) :
  let r := create_dive_from_plan plan master_dive log in
  (fst (fst r) <> None -> snd r = log /\ diveplan_empty plan = false)
  /\ (fst (fst r) = None ->
      (snd r = log /\ diveplan_empty plan = true)
      \/ exists g,
           snd r = log ++ [Gas_not_on_cylinder_list g; Too_many_gas_mixes]
           /\ (g = cyl_gasmix (cyl_at (reset_cylinders master_dive) 0)
               \/ exists p, In p (dp plan) /\ dp_gasmix p = g)).
Proof.
  cbn zeta.
  assert (Hsome : fst (fst (create_dive_from_plan plan master_dive log))
                  <> None -> diveplan_empty plan = false).
  { intros Hd.
    destruct (fst (fst (create_dive_from_plan plan master_dive log)))
      as [d|] eqn:E; [|contradiction].
    destruct (create_dive_from_plan_last_sample _ _ _ d E) as (p & Hp & _).
    apply last_segment_In in Hp. destruct Hp as [Hin Ht].
    unfold diveplan_empty.
    destruct (forallb _ (dp plan)) eqn:Ef; [|reflexivity].
    rewrite forallb_forall in Ef. specialize (Ef p Hin). lia. }
  revert Hsome. unfold create_dive_from_plan.
  pose proof (diveplan_empty_filter plan) as Hempty.
  destruct (dp plan) as [|first rest] eqn:El.
  - cbn [fst snd]. intros _. split; [intros H; now destruct H|].
    intros _. left. split; [reflexivity|]. now apply Hempty.
  - match goal with
    | |- context [cdp_loop plan ?l ?s0] =>
        pose proof (cdp_loop_outcome plan l s0) as Hloop;
        destruct (cdp_loop plan l s0) as [s|s]
    end.
    + destruct Hloop as [Hlog Hn].
      set (segs := filter (fun p => negb (dp_time p =? 0)) (first :: rest))
        in *.
      clearbody segs.
      cbn [c_log c_dive dc_sample set_samples copy_cylinders alloc_dive
             length app] in Hlog, Hn.
      destruct (Z.leb_spec (Z.of_nat (length (dc_sample (c_dive s)))) 1)
        as [Hfew|Hmany]; cbn [fst snd]; intros Hsome.
      * split; [intros H; now destruct H|]. intros _. left.
        split; [exact Hlog|]. apply Hempty.
        destruct segs; [reflexivity|]. cbn [length] in Hn. lia.
      * split; [|discriminate]. intros Hd. split; [exact Hlog|].
        now apply Hsome.
    + destruct Hloop as (g & Hg & Hin). cbn [fst snd c_log c_oldgasmix] in *.
      intros _. split; [intros H; now destruct H|]. intros _. right.
      exists g. split; [now rewrite Hg, <- app_assoc|exact Hin].
Qed.

(** ** Where the gas of a dive on one cylinder is booked *)

Section FirstCylinder.
Context {L : DiveLib}.

Lemma list_set_twice {A : Type} (l : list A) (n : nat) (x y : A) :
  list_set (list_set l n x) n y = list_set l n y.
Proof.
  revert n. induction l as [|h t IH]; intros [|n]; cbn [list_set];
    try reflexivity.
  now rewrite IH.
Qed.

Lemma set_cylinder_twice (d : dive) (i : Z) (x y : cylinder_t) :
  set_cylinder (set_cylinder d i x) i y = set_cylinder d i y.
Proof.
  unfold set_cylinder. cbn. destruct (i <? 0); [reflexivity|].
  now rewrite list_set_twice.
Qed.

(** While no gas is switched the local [cyl] keeps pointing at the first
    cylinder of the master dive: the dive's own cylinders are not written. *)
Lemma cdp_loop_first_cylinder (plan : diveplan) (g0 : gasmix)
    (cyls : list cylinder_t) (m0 : dive) (l : list divedatapoint) :
  Forall (fun p => dp_time p <> 0 ->
                   gasmix_distance
                     (if gasmix_is_null (dp_gasmix p) then g0
                      else dp_gasmix p) g0 <= 0) l ->
  forall s s',
    cdp_loop plan l s = inl s' ->
    c_cyl s = Master_cyl 0 -> c_oldgasmix s = g0 ->
    cylinder (c_dive s) = cyls ->
    (c_master s = m0 \/ exists c, c_master s = set_cylinder m0 0 c) ->
    cylinder (c_dive s') = cyls
    /\ (c_master s' = m0 \/ exists c, c_master s' = set_cylinder m0 0 c).
Proof.
  induction 1 as [|p l Hp Hl IH]; intros s s' Hloop Hcyl Hgas Hd Hm;
    cbn [cdp_loop] in Hloop.
  - injection Hloop as <-. auto.
  - destruct (Z.eqb_spec (dp_time p) 0) as [E0|E0].
    + destruct (verify_gas_exists (c_dive s) (dp_gasmix p)) as [idx err].
      destruct (idx <? 0); [discriminate|]. now apply (IH s).
    + destruct (cdp_segment plan p s) as [s1|s1] eqn:E1; [|discriminate].
      specialize (Hp E0).
      assert (H1 : c_cyl s1 = Master_cyl 0 /\ c_oldgasmix s1 = g0
                   /\ cylinder (c_dive s1) = cyls
                   /\ exists c, c_master s1 = set_cylinder m0 0 c).
      { unfold cdp_segment in E1. rewrite Hgas in E1.
        destruct (Z.gtb_spec
                    (gasmix_distance
                       (if gasmix_is_null (dp_gasmix p) then g0
                        else dp_gasmix p) g0) 0) as [Hgt|_]; [lia|].
        rewrite Hcyl in E1. injection E1 as <-. cbn.
        repeat (split; [auto|]).
        - rewrite <- Hd. now destruct (negb _ && negb _).
        - destruct Hm as [->|[c ->]]; [eauto|].
          rewrite set_cylinder_twice. eauto. }
      destruct H1 as (C1 & C2 & C3 & C4).
      apply (IH s1 s' Hloop C1 C2 C3). now right.
Qed.

End FirstCylinder.

(** X18.  A plan that never switches gas (every way point with a time has
    a gas at distance 0 from the one of the master dive's first cylinder, or
    no gas): in the dive that [create_dive_from_plan] makes the cylinders
    are those of the master dive as they were before the call, with no gas
    use booked on them; the gas of every segment is booked on the first
    cylinder of the master dive itself, which after the call differs from
    what [reset_cylinders] left in that cylinder only. *)
Theorem single_gas_dive_keeps_cylinders {L : DiveLib} (plan : diveplan)
    (master_dive : dive) (log : list report) (d : dive) :
  fst (fst (create_dive_from_plan plan master_dive log)) = Some d ->
  Forall (fun p => dp_time p <> 0 ->
                   gasmix_distance
                     (if gasmix_is_null (dp_gasmix p)
                      then cyl_gasmix (cyl_at (reset_cylinders master_dive) 0)
                      else dp_gasmix p)
                     (cyl_gasmix (cyl_at (reset_cylinders master_dive) 0))
                   <= 0) (dp plan) ->
  cylinder d = cylinder master_dive
  /\ exists c,
       snd (fst (create_dive_from_plan plan master_dive log))
       = set_cylinder (reset_cylinders master_dive) 0 c.
Proof.
  unfold create_dive_from_plan. intros Hd Hsingle.
  destruct (dp plan) as [|first rest] eqn:El; [discriminate|].
  match type of Hd with
  | context [cdp_loop plan ?l ?s0] =>
      pose proof (cdp_loop_first_cylinder plan _ (cylinder master_dive)
                    (reset_cylinders master_dive) l Hsingle s0) as Hloop;
      destruct (cdp_loop plan l s0) as [s|s]; [|discriminate]
  end.
  destruct (Hloop s eq_refl eq_refl eq_refl eq_refl ltac:(now left))
    as [Hc Hm].
  destruct (Z.leb_spec (Z.of_nat (length (dc_sample (c_dive s)))) 1)
    as [Hfew|Hmany]; [discriminate|].
  cbn [fst snd] in *. injection Hd as <-. split; [exact Hc|].
  destruct Hm as [Hm|Hm]; [|exact Hm].
  exists (cyl_at (reset_cylinders master_dive) 0). rewrite Hm.
  unfold set_cylinder, cyl_at, rd. cbn.
  destruct (reset_cylinders master_dive) as [w sp md smp ev cyls nt]. cbn.
  now destruct cyls.
Qed.

(** The cylinder of [dive_18m] is as full as before the dive. *)
Lemma single_gas_dive_keeps_cylinders_witness :
  fst (fst (create_dive_from_plan (L := lib_two_cylinders) plan_18m
              one_cylinder [])) = Some dive_18m
  /\ Forall (fun p => dp_time p <> 0 ->
                      @gasmix_distance lib_two_cylinders
                        (if @gasmix_is_null lib_two_cylinders (dp_gasmix p)
                         then cyl_gasmix
                                (cyl_at (@reset_cylinders lib_two_cylinders
                                           one_cylinder) 0)
                         else dp_gasmix p)
                        (cyl_gasmix
                           (cyl_at (@reset_cylinders lib_two_cylinders
                                      one_cylinder) 0))
                      <= 0) (dp plan_18m)
  /\ cylinder dive_18m = cylinder one_cylinder
  /\ end_mbar (cyl_at dive_18m 0) = 200000.
Proof.
  assert (H1 : fst (fst (create_dive_from_plan (L := lib_two_cylinders)
                           plan_18m one_cylinder [])) = Some dive_18m)
    by reflexivity.
  assert (H2 : Forall (fun p => dp_time p <> 0 ->
                      @gasmix_distance lib_two_cylinders
                        (if @gasmix_is_null lib_two_cylinders (dp_gasmix p)
                         then cyl_gasmix
                                (cyl_at (@reset_cylinders lib_two_cylinders
                                           one_cylinder) 0)
                         else dp_gasmix p)
                        (cyl_gasmix
                           (cyl_at (@reset_cylinders lib_two_cylinders
                                      one_cylinder) 0))
                      <= 0) (dp plan_18m)).
  { repeat constructor; intros _; vm_compute; discriminate. }
  split; [exact H1|]. split; [exact H2|].
  split; [|reflexivity].
  exact (proj1 (single_gas_dive_keeps_cylinders (L := lib_two_cylinders)
                  plan_18m one_cylinder [] dive_18m H1 H2)).
Defined.

(** ** The ascent never descends *)

Lemma ascending_nth (l : list Z) (i j : nat) (x y : Z) :
  ascending l -> (i <= j)%nat ->
  nth_error l i = Some x -> nth_error l j = Some y -> x <= y.
Proof.
  unfold ascending. intros H. revert i j.
  induction H as [|a l Hs IH Hf]; intros [|i] [|j] Hij Hx Hy;
    cbn [nth_error] in *; try discriminate; try lia.
  - injection Hx as <-. injection Hy as <-. lia.
  - injection Hx as <-. rewrite Forall_forall in Hf. apply Hf.
    eapply nth_error_In. exact Hy.
  - apply (IH i j); [lia|assumption|assumption].
Qed.

Section AscentDescends.
Context {L : DiveLib}.
Variables (d : dive) (po2 avg_depth bottom_time : Z).
Variables (stoplevels : list Z) (changes : list gaschanges).

(** What a plan keeps when way points at the depth [y] are appended, and
    when the depth decreases. *)
Variable Qd : Z -> diveplan -> Prop.
Hypothesis Qd_add :
  forall y plan duration gas,
    Qd y plan -> Qd y (plan_add_segment plan duration y gas po2 false).
Hypothesis Qd_weaken : forall y y' plan, y' <= y -> Qd y plan -> Qd y' plan.

Lemma ascend_descends (fuel : nat) :
  forall s level,
    rd stoplevels (p_stopidx s) = Some level ->
    level <= p_depth s ->
    Qd (p_depth s) (p_diveplan s) ->
    let s' := snd (ascend d po2 avg_depth bottom_time stoplevels fuel s) in
    level <= p_depth s' /\ p_depth s' <= p_depth s
    /\ Qd (p_depth s') (p_diveplan s').
Proof.
  induction fuel as [|fuel IH]; intros s level Hrd Hlev Hq; cbn zeta.
  - cbn [ascend snd]. repeat split; (lia || assumption).
  - cbn [ascend].
    pose proof (ascend_velocity_bounds (p_depth s) avg_depth bottom_time)
      as Hrate.
    set (rate := ascend_velocity (p_depth s) avg_depth bottom_time) in *.
    set (s1 := if negb (rate =? p_last_ascend_rate s)
               then set_last_ascend_rate rate
                      (set_stopping false (add_waypoint po2 (p_depth s) s))
               else s).
    assert (H1 : p_stopidx s1 = p_stopidx s /\ p_depth s1 = p_depth s
                 /\ Qd (p_depth s1) (p_diveplan s1)).
    { subst s1. destruct (negb (rate =? p_last_ascend_rate s)); cbn;
        repeat split; auto. }
    clearbody s1. destruct H1 as (E1 & E2 & Hq1).
    rewrite E1, Hrd, E2.
    match goal with
    | |- context [ascend _ _ _ _ _ fuel ?x] => set (s2 := x)
    end.
    assert (H2 : p_stopidx s2 = p_stopidx s
                 /\ p_depth s2 = Z.max (p_depth s - rate) level
                 /\ p_diveplan s2 = p_diveplan s1).
    { subst s2. cbn. rewrite E2. unfold TIMESTEP.
      repeat split; [assumption|].
      destruct (Z.ltb_spec (p_depth s - rate * 1) level); lia. }
    clearbody s2. destruct H2 as (F1 & F2 & F3).
    assert (Hq2 : Qd (p_depth s2) (p_diveplan s2)).
    { rewrite F3. apply (Qd_weaken (p_depth s1)); [lia|exact Hq1]. }
    destruct (p_depth s2 >? level).
    + destruct (IH s2 level ltac:(now rewrite F1) ltac:(lia) Hq2)
        as (G1 & G2 & G3).
      repeat split; (lia || assumption).
    + cbn [snd]. repeat split; (lia || assumption).
Qed.

Lemma gas_change_waypoint (s s' : pstate) :
  gas_change d po2 stoplevels changes s = Some s' ->
  Qd (p_depth s) (p_diveplan s) -> Qd (p_depth s') (p_diveplan s').
Proof.
  unfold gas_change.
  destruct (p_gi s >=? 0); [|now intros [= <-]].
  destruct (rd stoplevels (p_stopidx s)) as [level|]; [|discriminate].
  destruct (rd changes (p_gi s)) as [g|]; [|discriminate].
  cbn [obind].
  destruct (level =? gc_depth g); [|now intros [= <-]].
  intros [= <-] Hq. cbn. now apply Qd_add.
Qed.

Lemma deco_stop_waypoint (fuel : nat) (s : pstate) :
  Qd (p_depth s) (p_diveplan s) ->
  let s' := snd (deco_stop d po2 avg_depth bottom_time stoplevels fuel s) in
  Qd (p_depth s') (p_diveplan s').
Proof.
  intros Hq. cbn zeta.
  destruct (deco_stop_frame d po2 avg_depth bottom_time stoplevels
              (fun _ => True) ltac:(auto) fuel s)
    as (D1 & _ & _ & _ & _ & _ & _ & m & Hm & _ & H0 & Hp).
  cbn zeta in *. rewrite D1.
  destruct (Z.eq_dec m 0) as [E|E].
  - destruct (H0 E) as (-> & _). exact Hq.
  - destruct Hp as (_ & Ht & Hf); [lia|].
    destruct (p_stopping s).
    + destruct (Ht eq_refl) as [-> _]. exact Hq.
    + destruct (Hf eq_refl) as [-> _]. now apply Qd_add.
Qed.

(** With stop levels that ascend from the surface, from a depth at or
    below the stop at [stopidx]: the depth never increases and never
    becomes negative, wherever the loop ends. *)
Lemma ascent_loop_descends (fuel : nat) :
  ascending stoplevels -> Forall (fun x => 0 <= x) stoplevels ->
  (exists z, rd stoplevels 0 = Some z /\ z <= 0) ->
  Z.of_nat (length stoplevels) <= 2 ^ 32 ->
  forall s level,
    rd stoplevels (p_stopidx s) = Some level ->
    level <= p_depth s ->
    p_gi s < Z.of_nat (length changes) ->
    Qd (p_depth s) (p_diveplan s) ->
    let s' := snd (ascent_loop d po2 avg_depth bottom_time stoplevels changes
                     fuel s) in
    0 <= p_depth s' /\ Qd (p_depth s') (p_diveplan s').
Proof.
  intros Hasc Hpos (z0 & Hz0 & Hle0) Hsize.
  assert (Hnn : forall i x, rd stoplevels i = Some x -> 0 <= x).
  { intros i x Hx. unfold rd in Hx. destruct (i <? 0); [discriminate|].
    apply nth_error_In in Hx. rewrite Forall_forall in Hpos. now apply Hpos. }
  induction fuel as [|fuel IH]; intros s level Hrd Hlev Hgi Hq; cbn zeta.
  - cbn [ascent_loop snd]. split; [|exact Hq]. specialize (Hnn _ _ Hrd). lia.
  - cbn [ascent_loop].
    destruct (ascend_descends (S fuel) s level Hrd Hlev Hq) as (A1 & A2 & A3).
    destruct (ascend_spec d po2 avg_depth bottom_time stoplevels (S fuel) s
                level Hrd) as (_ & B1 & B2 & _ & _ & _ & Hret & _).
    destruct (ascend d po2 avg_depth bottom_time stoplevels (S fuel) s)
      as [st s1].
    cbn [fst snd] in *.
    assert (H0 : 0 <= p_depth s1) by (specialize (Hnn _ _ Hrd); lia).
    destruct st; try (split; assumption).
    destruct (Hret eq_refl) as (Hdepth & _).
    destruct (Z.leb_spec (p_depth s1) 0) as [Hsurf|Hdeep];
      [cbn [snd]; split; assumption|].
    assert (Hrd1 : rd stoplevels (p_stopidx s1) = Some level)
      by now rewrite B1.
    destruct (gas_change_spec d po2 stoplevels changes (fun _ => True)
                ltac:(auto) s1 level Hrd1 ltac:(lia))
      as (s2 & Eg & G1 & G2 & G3 & G4 & _).
    pose proof (gas_change_waypoint s1 s2 Eg A3) as Hq2.
    rewrite Eg.
    assert (Hin : 0 <= p_stopidx s < Z.of_nat (length stoplevels)).
    { unfold rd in Hrd. destruct (Z.ltb_spec (p_stopidx s) 0);
        [discriminate|].
      split; [lia|].
      assert (Hlt : (Z.to_nat (p_stopidx s) < length stoplevels)%nat)
        by (apply nth_error_Some; congruence).
      lia. }
    assert (Hpos1 : 0 < p_stopidx s).
    { destruct (Z.eq_dec (p_stopidx s) 0) as [E0|E0]; [|lia].
      rewrite E0, Hz0 in Hrd. injection Hrd as <-. lia. }
    assert (Hu : uint (p_stopidx s2 - 1) = p_stopidx s - 1).
    { unfold uint. rewrite G1, B1. apply Z.mod_small. lia. }
    rewrite Hu.
    match goal with
    | |- context [deco_stop _ _ _ _ _ _ ?x] => set (s3 := x)
    end.
    assert (H3 : p_stopidx s3 = p_stopidx s - 1 /\ p_gi s3 = p_gi s2
                 /\ p_depth s3 = p_depth s2
                 /\ p_diveplan s3 = p_diveplan s2)
      by (subst s3; cbn; auto).
    clearbody s3. destruct H3 as (H3 & H3g & H3d & H3p).
    destruct (nth_error_in_range stoplevels (Z.to_nat (p_stopidx s - 1)))
      as [level3 Hn3]; [lia|].
    assert (Hrd3 : rd stoplevels (p_stopidx s3) = Some level3).
    { unfold rd. rewrite H3. destruct (Z.ltb_spec (p_stopidx s - 1) 0);
        [lia|exact Hn3]. }
    assert (Hle3 : level3 <= level).
    { unfold rd in Hrd. destruct (Z.ltb_spec (p_stopidx s) 0); [lia|].
      apply (ascending_nth stoplevels (Z.to_nat (p_stopidx s - 1))
               (Z.to_nat (p_stopidx s))); (assumption || lia). }
    assert (Hq3 : Qd (p_depth s3) (p_diveplan s3))
      by (rewrite H3d, H3p; exact Hq2).
    pose proof (deco_stop_waypoint (S fuel) s3 Hq3) as Hq4.
    destruct (deco_stop_frame d po2 avg_depth bottom_time stoplevels
                (fun _ => True) ltac:(auto) (S fuel) s3)
      as (D1 & D2 & D3 & _).
    cbn zeta in Hq4, D1, D2, D3.
    destruct (deco_stop d po2 avg_depth bottom_time stoplevels (S fuel) s3)
      as [st s4].
    cbn [fst snd] in *.
    assert (H4 : 0 <= p_depth s4) by lia.
    destruct st; try (split; assumption).
    match goal with
    | |- context [ascent_loop _ _ _ _ _ _ fuel ?x] => set (s5 := x)
    end.
    assert (H5 : p_stopidx s5 = p_stopidx s4 /\ p_gi s5 = p_gi s4
                 /\ p_depth s5 = p_depth s4
                 /\ Qd (p_depth s5) (p_diveplan s5)).
    { subst s5. destruct (p_stopping s4); cbn; repeat split; auto. }
    clearbody s5. destruct H5 as (E5 & E5g & E5d & Hq5).
    apply (IH s5 level3); [congruence|lia|lia|exact Hq5].
Qed.

End AscentDescends.

Lemma find_stop_above (levels : list Z) (depth : Z) :
  forall i,
    Forall (fun x => x < depth)
      (firstn (Z.to_nat (find_stop levels i depth - i)) levels).
Proof.
  induction levels as [|level rest IH]; intros i; cbn [find_stop].
  - rewrite firstn_nil. constructor.
  - destruct (Z.geb_spec level depth) as [Hge|Hlt].
    + rewrite Z.sub_diag. constructor.
    + pose proof (find_stop_bounds rest depth (i + 1)) as Hb.
      replace (Z.to_nat (find_stop rest (i + 1) depth - i))
        with (S (Z.to_nat (find_stop rest (i + 1) depth - (i + 1)))) by lia.
      cbn [firstn]. constructor; [exact Hlt|apply IH].
Qed.

Lemma descending_snoc (l : list Z) (y : Z) :
  descending l -> Forall (fun x => y <= x) l -> descending (l ++ [y]).
Proof.
  intros Hl Hf. apply sorted_app; [exact Hl|repeat constructor|].
  intros a b Ha [<-|[]]. rewrite Forall_forall in Hf.
  specialize (Hf a Ha). lia.
Qed.

Lemma ascending_from_0 (levels : list Z) :
  hd_error levels = Some 0 -> ascending levels ->
  Forall (fun x => 0 <= x) levels.
Proof.
  destruct levels as [|z rest]; [discriminate|]. intros [= ->] H.
  apply StronglySorted_inv in H. destruct H as [_ H].
  constructor; [lia|exact H].
Qed.

(** The array of stops for the ascent from the depth [depth]: it ascends
    and every stop lies between the surface and [depth]. *)
Lemma sort_stops_for_ascent (levels : list Z) (depth : Z)
    (changes : list gaschanges) :
  hd_error levels = Some 0 -> ascending levels -> 0 <= depth ->
  ascending (map gc_depth changes) ->
  Forall (fun x => 0 <= x <= depth) (map gc_depth changes) ->
  let stopidx0 := find_stop levels 0 depth in
  let stopidx := if stopidx0 >? 0 then stopidx0 - 1 else stopidx0 in
  exists stoplevels,
    sort_stops levels (stopidx + 1) changes (Z.of_nat (length changes))
    = Some stoplevels
    /\ Z.of_nat (length stoplevels) = stopidx + 1 + Z.of_nat (length changes)
    /\ (exists z, rd stoplevels 0 = Some z /\ z <= 0)
    /\ ascending stoplevels
    /\ Forall (fun x => 0 <= x <= depth) stoplevels.
Proof.
  intros Hhd Ha Hdepth Hc Hcd. cbn zeta.
  set (stopidx0 := find_stop levels 0 depth).
  set (stopidx := if stopidx0 >? 0 then stopidx0 - 1 else stopidx0).
  pose proof (find_stop_bounds levels depth 0) as Hb. fold stopidx0 in Hb.
  pose proof (find_stop_above levels depth 0) as Habove.
  fold stopidx0 in Habove. rewrite Z.sub_0_r in Habove.
  assert (Hne : (0 < length levels)%nat)
    by (destruct levels; [discriminate|cbn; lia]).
  assert (Hidx : 0 <= stopidx < Z.of_nat (length levels))
    by (subst stopidx; destruct (Z.gtb_spec stopidx0 0); lia).
  pose proof (ascending_from_0 levels Hhd Ha) as Hl0.
  assert (Hds : Forall (fun x => 0 <= x <= depth)
                  (fixed_depths levels (stopidx + 1))).
  { unfold fixed_depths. subst stopidx.
    destruct (Z.gtb_spec stopidx0 0) as [Hgt|Hle].
    - replace (stopidx0 - 1 + 1) with stopidx0 by lia.
      apply Forall_forall. intros x Hx.
      rewrite Forall_forall in Habove. specialize (Habove x Hx).
      assert (Hx0 : In x levels).
      { rewrite <- (firstn_skipn (Z.to_nat stopidx0) levels).
        apply in_or_app. now left. }
      rewrite Forall_forall in Hl0. specialize (Hl0 x Hx0). lia.
    - replace (Z.to_nat (stopidx0 + 1)) with 1%nat by lia.
      destruct levels as [|z rest]; [discriminate|].
      injection Hhd as ->. cbn [firstn]. repeat constructor; lia. }
  destruct (sort_stops_for_plan levels (stopidx + 1) changes Hhd Ha
              ltac:(lia) Hc) as (stoplevels & Es & Hlen & Hz).
  exists stoplevels. split; [exact Es|]. split; [exact Hlen|].
  split; [exact Hz|].
  rewrite sort_stops_spec in Es by lia. injection Es as <-.
  assert (Eg : change_depths changes (Z.of_nat (length changes))
               = map gc_depth changes).
  { unfold change_depths. rewrite Nat2Z.id. now rewrite firstn_all. }
  rewrite Eg. split.
  - apply sort_stops_result_ascending.
    + unfold fixed_depths. now apply ascending_firstn.
    + exact Hc.
    + eapply Forall_impl; [|exact Hds]. cbn. intros; lia.
    + eapply Forall_impl; [|exact Hcd]. cbn. intros; lia.
  - apply Forall_app. split.
    + apply Forall_forall. intros x Hx. apply repeat_spec in Hx. lia.
    + apply Forall_forall. intros x Hx.
      apply in_rev, merge_down_In in Hx.
      rewrite Forall_forall in Hds, Hcd.
      destruct Hx as [Hx|Hx]; apply in_rev in Hx; auto.
Qed.

Section PlanDescends.
Context {L : DiveLib}.

Lemma plan_with_cylinder_descends (fuel : nat) (levels : list Z)
    (plan0 : diveplan) (cached_datap : option snapshot) (d master_dive : dive)
    (add_deco show_disclaimer : bool) (ds : deco_state) (table : dive_table_t)
    (gas : gasmix) (current_cylinder : Z) (log : list report) :
  hd_error levels = Some 0 -> ascending levels ->
  Z.of_nat (length levels) + Z.of_nat (length (dp plan0)) <= 2 ^ 32 ->
  Forall (fun p => 0 <= dp_depth p) (dp plan0) ->
  0 <= s_depth (last_sample d) ->
  exists added,
    dp (o_diveplan
          (plan_with_cylinder fuel levels plan0 cached_datap d master_dive
             add_deco show_disclaimer ds table gas current_cylinder log))
    = dp plan0 ++ added
    /\ descending (map dp_depth added)
    /\ Forall (fun p => 0 <= dp_depth p <= s_depth (last_sample d)) added.
Proof.
  intros Hhd Ha Hsize Hdepths Hstart.
  set (depth := s_depth (last_sample d)) in *.
  set (Qd := fun (y : Z) (pl : diveplan) =>
               y <= depth
               /\ exists added,
                    dp pl = dp plan0 ++ added
                    /\ descending (map dp_depth added)
                    /\ Forall (fun p => y <= dp_depth p <= depth) added).
  assert (Q0 : Qd depth plan0).
  { split; [lia|]. exists []. rewrite app_nil_r.
    repeat split; constructor. }
  assert (Qd_add : forall y pl duration g,
            Qd y pl ->
            Qd y (plan_add_segment pl duration y g (s_po2 (last_sample d))
                    false)).
  { intros y pl duration g (Hy & added & Hdp & Hdesc & Hf).
    split; [exact Hy|].
    destruct (plan_add_segment_absolute_time_aux pl duration y g
                (s_po2 (last_sample d)) false) as [E _].
    eexists. rewrite E, Hdp, <- app_assoc. split; [reflexivity|].
    rewrite map_app. cbn [map dp_depth]. split.
    - apply descending_snoc; [exact Hdesc|].
      apply Forall_forall. intros x Hx.
      apply in_map_iff in Hx. destruct Hx as (p & <- & Hp).
      rewrite Forall_forall in Hf. specialize (Hf p Hp). lia.
    - apply Forall_app. split; [exact Hf|]. repeat constructor; cbn; lia. }
  assert (Qd_weaken : forall y y' pl, y' <= y -> Qd y pl -> Qd y' pl).
  { intros y y' pl Hle (Hy & added & Hdp & Hdesc & Hf).
    split; [lia|]. exists added. repeat (split; [assumption|]).
    eapply Forall_impl; [|exact Hf]. cbn. intros; lia. }
  assert (Hend : forall pl, Qd 0 pl ->
            exists added,
              dp pl = dp plan0 ++ added
              /\ descending (map dp_depth added)
              /\ Forall (fun p => 0 <= dp_depth p <= depth) added).
  { intros pl (_ & added & H1 & H2 & H3). now exists added. }
  unfold plan_with_cylinder.
  destruct add_deco; cbn [negb].
  - destruct (tissue_at_end (Some d) cached_datap ds log)
      as [[[tissue_tolerance cached'] ds'] log'].
    fold depth. unfold analyze_gaslist.
    destruct (analyze_gaslist_loop (dp plan0) d depth []
                (cyl_depth_mm (cyl_at d current_cylinder)) current_cylinder)
      as [[chs best]|] eqn:E; cbn [obind];
      [|cbn [o_diveplan]; apply Hend; now apply (Qd_weaken depth)].
    destruct (analyze_gaslist_loop_changes _ _ _ _ _ _ _ _ E) as (Hp & Hs & _).
    rewrite app_nil_r in Hp.
    assert (Hlen : (length chs <= length (dp plan0))%nat).
    { rewrite (Permutation_length Hp), length_map. apply filter_length_le. }
    assert (Hcd : Forall (fun x => 0 <= x <= depth) (map gc_depth chs)).
    { apply Forall_forall. intros x Hx.
      apply in_map_iff in Hx. destruct Hx as (g & <- & Hg).
      apply (Permutation_in _ Hp) in Hg.
      apply in_map_iff in Hg. destruct Hg as (p & <- & Hin).
      apply filter_In in Hin. destruct Hin as [Hin Hc].
      apply andb_true_iff in Hc. destruct Hc as [_ Hc]. apply Z.leb_le in Hc.
      rewrite Forall_forall in Hdepths. specialize (Hdepths p Hin).
      cbn. lia. }
    destruct (sort_stops_for_ascent levels depth chs Hhd Ha Hstart
                (Hs ltac:(constructor)) Hcd)
      as (stoplevels & Es & Hsl & Hz & Hasc & Hrange).
    cbn zeta in Es, Hsl.
    set (stopidx0 := find_stop levels 0 depth) in *.
    set (stopidx := if stopidx0 >? 0 then stopidx0 - 1 else stopidx0) in *.
    pose proof (find_stop_bounds levels depth 0) as Hb. fold stopidx0 in Hb.
    assert (Hne : (0 < length levels)%nat)
      by (destruct levels; [discriminate|cbn; lia]).
    assert (Hidx : 0 <= stopidx < Z.of_nat (length levels))
      by (subst stopidx; destruct (Z.gtb_spec stopidx0 0); lia).
    rewrite Es.
    assert (Hu : uint (stopidx + Z.of_nat (length chs))
                 = Z.of_nat (length stoplevels) - 1)
      by (unfold uint; rewrite Z.mod_small; lia).
    rewrite Hu.
    destruct (nth_error_in_range stoplevels
                (Z.to_nat (Z.of_nat (length stoplevels) - 1)))
      as [top Htop]; [lia|].
    assert (Hrd : rd stoplevels (Z.of_nat (length stoplevels) - 1) = Some top).
    { unfold rd. destruct (Z.ltb_spec (Z.of_nat (length stoplevels) - 1) 0);
        [lia|exact Htop]. }
    assert (Htopd : top <= depth).
    { apply nth_error_In in Htop. rewrite Forall_forall in Hrange.
      specialize (Hrange top Htop). lia. }
    destruct (if negb (best =? current_cylinder)
              then (true, best, cyl_gasmix (cyl_at d best))
              else (false, current_cylinder, gas)) as [[stopping cyl'] gas'].
    match goal with
    | |- context [ascent_loop ?a ?b ?c ?e ?f ?g fuel ?s0] =>
        destruct (ascent_loop_descends a b c e f g Qd Qd_add Qd_weaken fuel
                    Hasc
                    ltac:(eapply Forall_impl; [|exact Hrange]; cbn; intros; lia)
                    Hz ltac:(lia) s0 top Hrd Htopd ltac:(cbn; lia) Q0)
          as [H0 Hq];
        destruct (ascent_loop a b c e f g fuel s0) as [st s]
    end.
    cbn [snd] in H0, Hq.
    apply (Qd_weaken _ 0) in Hq; [|exact H0].
    destruct st; try (cbn [o_diveplan]; now apply Hend).
    destruct (create_dive_from_plan _ master_dive log') as [[dv' m'] lg''].
    cbn [o_diveplan]. apply Hend. now apply Qd_add.
  - destruct (create_dive_from_plan _ master_dive log) as [[dv' m'] lg''].
    cbn [o_diveplan]. apply Hend. apply Qd_add.
    now apply (Qd_weaken depth).
Qed.

End PlanDescends.

(** X19.  The planned ascent never descends.  With a table of stop
    levels that ascends from 0, way points at no negative depth and fewer
    than 2^32 levels and way points together, the way points that a run of
    [plan] appends, wherever the run ends, have depths that never increase
    from one to the next and lie between the surface and the depth at which
    the last segment of the given plan ends. *)
Theorem plan_ascent_never_descends {L : DiveLib} (fuel : nat)
    (levels : list Z) (diveplan0 : diveplan) (cached_datap : option snapshot)
    (divep : option dive) (master_dive : dive)
    (add_deco show_disclaimer : bool) (ds : deco_state) (table : dive_table_t)
    (log : list report) :
  hd_error levels = Some 0 -> ascending levels ->
  Z.of_nat (length levels) + Z.of_nat (length (dp diveplan0)) <= 2 ^ 32 ->
  Forall (fun p => 0 <= dp_depth p) (dp diveplan0) ->
  exists added,
    dp (o_diveplan
          (plan fuel levels diveplan0 cached_datap divep master_dive add_deco
             show_disclaimer ds table log))
    = dp diveplan0 ++ added
    /\ descending (map dp_depth added)
    /\ Forall (fun p => 0 <= dp_depth p
                        /\ forall q, last_segment (dp diveplan0) = Some q ->
                                     dp_depth p <= dp_depth q) added.
Proof.
  intros Hhd Ha Hsize Hdepths. unfold plan.
  set (plan0 := default_surface_pressure diveplan0).
  assert (Edp : dp plan0 = dp diveplan0)
    by apply default_surface_pressure_dp.
  pose proof (create_dive_from_plan_last_sample plan0 master_dive log) as Hlast.
  destruct (create_dive_from_plan plan0 master_dive log) as [[dv m] lg].
  cbn [fst] in *.
  destruct dv as [d|].
  - destruct (Hlast d eq_refl) as (q & Hq & _ & Hqd & _).
    rewrite Edp in Hq.
    assert (Hstart : 0 <= s_depth (last_sample d)).
    { rewrite Hqd. apply last_segment_In in Hq. destruct Hq as [Hin _].
      rewrite Forall_forall in Hdepths. now apply Hdepths. }
    assert (Hw : forall table' gas cyl lg',
              exists added,
                dp (o_diveplan
                      (plan_with_cylinder fuel levels plan0 cached_datap d m
                         add_deco show_disclaimer
                         (set_gf (gflow diveplan0) (gfhigh diveplan0)
                            gf_low_at_maxdepth ds) table' gas cyl lg'))
                = dp diveplan0 ++ added
                /\ descending (map dp_depth added)
                /\ Forall (fun p => 0 <= dp_depth p
                                    /\ forall q,
                                         last_segment (dp diveplan0) = Some q ->
                                         dp_depth p <= dp_depth q) added).
    { intros table' gas cyl lg'.
      destruct (plan_with_cylinder_descends fuel levels plan0 cached_datap d m
                  add_deco show_disclaimer
                  (set_gf (gflow diveplan0) (gfhigh diveplan0)
                     gf_low_at_maxdepth ds) table' gas cyl lg' Hhd Ha
                  ltac:(now rewrite Edp) ltac:(now rewrite Edp) Hstart)
        as (added & H1 & H2 & H3).
      exists added. rewrite <- Edp. split; [exact H1|]. split; [exact H2|].
      eapply Forall_impl; [|exact H3]. cbn. intros p [Hp0 Hp1].
      split; [exact Hp0|]. intros q' Hq'. congruence. }
    destruct (get_gasidx d _ =? -1); apply Hw.
  - exists []. cbn [o_diveplan]. rewrite app_nil_r.
    split; [exact Edp|]. split; constructor.
Qed.

Lemma plan_ascent_never_descends_witness :
  hd_error decostoplevels = Some 0
  /\ ascending decostoplevels
  /\ Z.of_nat (length decostoplevels) + Z.of_nat (length (dp plan_40m))
     <= 2 ^ 32
  /\ Forall (fun p => 0 <= dp_depth p) (dp plan_40m)
  /\ exists added,
       dp (o_diveplan
             (plan (L := lib_two_cylinders) 3000 decostoplevels plan_40m None
                None two_cylinders true false tt 0 []))
       = dp plan_40m ++ added
       /\ descending (map dp_depth added)
       /\ Forall (fun p => 0 <= dp_depth p
                           /\ forall q, last_segment (dp plan_40m) = Some q ->
                                        dp_depth p <= dp_depth q) added.
Proof.
  assert (H1 : hd_error decostoplevels = Some 0) by reflexivity.
  assert (H2 : ascending decostoplevels) by by_computation.
  assert (H3 : Z.of_nat (length decostoplevels)
               + Z.of_nat (length (dp plan_40m)) <= 2 ^ 32)
    by by_computation.
  assert (H4 : Forall (fun p => 0 <= dp_depth p) (dp plan_40m))
    by by_computation.
  repeat (split; [assumption|]).
  exact (plan_ascent_never_descends (L := lib_two_cylinders) 3000
           decostoplevels plan_40m None None two_cylinders true false tt 0 []
           H1 H2 H3 H4).
Defined.

(** ** The profile of the dive made from a plan *)

Section DiveProfile.
Context {L : DiveLib}.

Lemma set_last_po2_profile (po2 : Z) (l : list sample) :
  map (fun s => (s_time s, s_depth s)) (set_last_po2 po2 l)
  = map (fun s => (s_time s, s_depth s)) l.
Proof.
  induction l as [|x [|y t] IH]; cbn [set_last_po2 map] in *;
    try reflexivity.
  now rewrite IH.
Qed.

Lemma cdp_segment_profile (plan : diveplan) (p : divedatapoint)
    (s s' : cdp_state) :
  cdp_segment plan p s = inl s' ->
  c_lasttime s' = dp_time p /\ c_lastdepth s' = dp_depth p
  /\ exists b : bool,
       map (fun x => (s_time x, s_depth x)) (dc_sample (c_dive s'))
       = map (fun x => (s_time x, s_depth x)) (dc_sample (c_dive s))
         ++ (if b then [(c_lasttime s + 1, c_lastdepth s)] else [])
         ++ [(dp_time p, dp_depth p)].
Proof.
  unfold cdp_segment.
  set (d0 := if negb (c_oldpo2 s =? dp_po2 p) && negb (c_lasttime s =? 0)
             then _ else c_dive s).
  assert (H0 : dc_sample d0 = dc_sample (c_dive s))
    by (subst d0; now destruct (negb _ && negb _)).
  clearbody d0.
  destruct (gasmix_distance _ (c_oldgasmix s) >? 0).
  - destruct (verify_gas_exists d0 _) as [idx err].
    destruct (idx <? 0); [discriminate|].
    intros [= <-]. cbn. repeat (split; [reflexivity|]). exists true.
    rewrite !map_app, !set_last_po2_profile, map_app, set_last_po2_profile,
      H0.
    cbn. now rewrite <- app_assoc.
  - destruct (c_cyl s); intros [= <-]; cbn;
      repeat (split; [reflexivity|]); exists false;
      now rewrite map_app, set_last_po2_profile, H0.
Qed.

Lemma cdp_loop_profile (plan : diveplan) (l : list divedatapoint) :
  forall s s',
    cdp_loop plan l s = inl s' ->
    exists switches,
      length switches
      = length (filter (fun p => negb (dp_time p =? 0)) l)
      /\ map (fun x => (s_time x, s_depth x)) (dc_sample (c_dive s'))
         = map (fun x => (s_time x, s_depth x)) (dc_sample (c_dive s))
           ++ profile_points (filter (fun p => negb (dp_time p =? 0)) l)
                switches (c_lasttime s) (c_lastdepth s).
Proof.
  induction l as [|p l IH]; intros s s' H; cbn [cdp_loop filter] in *.
  - injection H as <-. exists []. cbn. now rewrite app_nil_r.
  - destruct (dp_time p =? 0); cbn [negb].
    + destruct (verify_gas_exists (c_dive s) (dp_gasmix p)) as [idx err].
      destruct (idx <? 0); [discriminate|]. now apply IH.
    + destruct (cdp_segment plan p s) as [s1|s1] eqn:E1; [|discriminate].
      destruct (cdp_segment_profile _ _ _ _ E1) as (Ht & Hd & b & Hb).
      destruct (IH _ _ H) as (switches & Hlen & Hs).
      exists (b :: switches). split; [cbn; now rewrite Hlen|].
      rewrite Hs, Hb, Ht, Hd. cbn [profile_points].
      now rewrite <- !app_assoc.
Qed.

End DiveProfile.

Lemma profile_points_length (segs : list divedatapoint) :
  forall switches lasttime lastdepth,
    length switches = length segs ->
    length (profile_points segs switches lasttime lastdepth)
    = (length segs + length (filter (fun b : bool => b) switches))%nat.
Proof.
  induction segs as [|p ps IH]; intros [|b bs] lasttime lastdepth Hlen;
    try discriminate; [reflexivity|].
  cbn [profile_points length filter]. rewrite length_app. cbn [length].
  injection Hlen as Hlen. rewrite (IH bs _ _ Hlen).
  destruct b; cbn [length]; lia.
Qed.



(** ** The value that tissue_at_end returns *)

Section TissueAtEnd.
Context {L : DiveLib}.

(** No second between [t0] and [t1]: no segment is added and the local
    [tissue_tolerance] is returned as it was declared. *)
Lemma interpolate_transition_empty (d : dive) (t0 t1 d0 d1 : Z)
    (mix : gasmix) (ppo2 : Z) (ds : deco_state) :
  t1 <= t0 ->
  interpolate_transition d t0 t1 d0 d1 mix ppo2 ds = (ds, indeterminate).
Proof.
  intros H. unfold interpolate_transition.
  replace (Z.to_nat (t1 - t0)) with 0%nat by lia. reflexivity.
Qed.

Lemma tissue_at_end_loop_last (d : dive) (pre : list sample) (a b : sample) :
  s_time b <= s_time a ->
  forall i psample t0 lastdepth gas st log,
    snd (fst (tissue_at_end_loop d (pre ++ [a; b]) i psample t0 lastdepth gas
                st log))
    = indeterminate.
Proof.
  intros Hab.
  induction pre as [|x pre IH]; intros i psample t0 lastdepth gas st log;
    cbn [app tissue_at_end_loop].
  - unfold tissue_at_end_sample.
    destruct (get_gasidx d (get_gas_from_events (dc_events d) t0 gas) =? -1);
      destruct (get_gasidx d
                  (get_gas_from_events (dc_events d) (s_time a)
                     (get_gas_from_events (dc_events d) t0 gas)) =? -1);
      now rewrite (interpolate_transition_empty d (s_time a) (s_time b)).
  - unfold tissue_at_end_sample at 1.
    destruct (get_gasidx d (get_gas_from_events (dc_events d) t0 gas) =? -1);
      apply IH.
Qed.

End TissueAtEnd.

(** X21.  [tissue_at_end] returns the value of the last
    [interpolate_transition], and that function returns its local
    [tissue_tolerance] without having assigned it when no second lies
    between its two times.  So for a dive whose last sample is not later
    than the one before, or whose only sample is at a time that is not
    positive, what [tissue_at_end] returns is an uninitialised value,
    whatever the decompression model computed before. *)
Theorem tissue_at_end_uninitialised {L : DiveLib} (d : dive)
    (cached_datap : option snapshot) (ds : deco_state) (log : list report)
    (pre : list sample) (a b : sample) :
  (dc_sample d = pre ++ [a; b] -> s_time b <= s_time a ->
   fst (fst (fst (tissue_at_end (Some d) cached_datap ds log)))
   = indeterminate)
  /\ (dc_sample d = [a] -> s_time a <= 0 ->
      fst (fst (fst (tissue_at_end (Some d) cached_datap ds log)))
      = indeterminate)
  /\ forall t0 t1 d0 d1 mix ppo2,
       t1 <= t0 ->
       interpolate_transition d t0 t1 d0 d1 mix ppo2 ds = (ds, indeterminate).
Proof.
  split; [|split].
  - intros Hs Hab. unfold tissue_at_end.
    destruct (match cached_datap with Some _ => _ | None => _ end)
      as [[ds' tol] cached'].
    rewrite Hs.
    destruct (pre ++ [a; b]) as [|first rest] eqn:E;
      [now destruct pre|].
    rewrite <- E.
    pose proof (tissue_at_end_loop_last d pre a b Hab 0 first 0 0
                  (cyl_gasmix (cyl_at d 0)) (ds', tol) log) as Hl.
    destruct (tissue_at_end_loop d (pre ++ [a; b]) 0 first 0 0
                (cyl_gasmix (cyl_at d 0)) (ds', tol) log) as [st lg].
    exact Hl.
  - intros Hs Ha. unfold tissue_at_end.
    destruct (match cached_datap with Some _ => _ | None => _ end)
      as [[ds' tol] cached'].
    rewrite Hs. cbn [tissue_at_end_loop]. unfold tissue_at_end_sample.
    destruct (get_gasidx d
                (get_gas_from_events (dc_events d) 0
                   (cyl_gasmix (cyl_at d 0))) =? -1);
      now rewrite (interpolate_transition_empty d 0 (s_time a)).
  - intros. now apply interpolate_transition_empty.
Qed.

(** ** The table of stop levels *)

Lemma list_set_other {A : Type} (l : list A) (n i : nat) (v : A) :
  i <> n -> nth_error (list_set l n v) i = nth_error l i.
Proof.
  revert n i. induction l as [|h t IH]; intros [|n] [|i] H;
    cbn [list_set nth_error]; try reflexivity; try contradiction.
  apply IH. congruence.
Qed.

Lemma list_set_length {A : Type} (l : list A) (n : nat) (v : A) :
  length (list_set l n v) = length l.
Proof.
  revert n. induction l as [|h t IH]; intros [|n]; cbn [list_set length];
    try reflexivity.
  now rewrite IH.
Qed.

Lemma list_set_same {A : Type} (l : list A) (n : nat) (v : A) :
  (n < length l)%nat -> nth_error (list_set l n v) n = Some v.
Proof.
  revert n. induction l as [|h t IH]; intros [|n] H;
    cbn [list_set nth_error length] in *; try lia; [reflexivity|].
  apply IH. lia.
Qed.

(** X22.  [set_last_stop] writes entry 1 of the table of stop levels, 6000
    or 3000, and nothing else, and the last call decides.  Whatever it
    wrote, [decostoplevels] still starts at 0 and ascends, which is what the
    ascent of [plan] relies on; with a last stop at 6 m the level 6000 is in
    the table twice, so the table ascends strictly only with a last stop at
    3 m. *)
Theorem set_last_stop_keeps_the_table (last_stop_6m : bool)
    (levels : list Z) :
  length (set_last_stop last_stop_6m levels) = length levels
  /\ (forall i, i <> 1%nat ->
        nth_error (set_last_stop last_stop_6m levels) i = nth_error levels i)
  /\ ((1 < length levels)%nat ->
      nth_error (set_last_stop last_stop_6m levels) 1
      = Some (if last_stop_6m then 6000 else 3000))
  /\ (forall before,
        set_last_stop last_stop_6m (set_last_stop before levels)
        = set_last_stop last_stop_6m levels)
  /\ hd_error (set_last_stop last_stop_6m decostoplevels) = Some 0
  /\ ascending (set_last_stop last_stop_6m decostoplevels)
  /\ (strictly_ascending (set_last_stop last_stop_6m decostoplevels)
      <-> last_stop_6m = false).
Proof.
  unfold set_last_stop.
  split; [apply list_set_length|].
  split; [intros i Hi; now apply list_set_other|].
  split; [intros H; now apply list_set_same|].
  split.
  { intros before. revert levels. intros [|a [|b l]]; reflexivity. }
  split; [reflexivity|].
  split; [destruct last_stop_6m; by_computation|].
  destruct last_stop_6m.
  - split; [|discriminate]. intros H. exfalso.
    cbn in H. apply StronglySorted_inv in H. destruct H as [H _].
    apply StronglySorted_inv in H. destruct H as [_ H].
    apply Forall_inv in H. lia.
  - split; [reflexivity|]. intros _. by_computation.
Qed.

(** ** The gas changes of the ascent *)

Lemma occurrences_app (l1 l2 : list Z) (x : Z) :
  occurrences (l1 ++ l2) x = (occurrences l1 x + occurrences l2 x)%nat.
Proof. unfold occurrences. apply count_occ_app. Qed.

Lemma occurrences_firstn_S (l : list Z) (n : nat) (a x : Z) :
  nth_error l n = Some a ->
  occurrences (firstn (S n) l) x
  = (occurrences (firstn n l) x + (if Z.eq_dec a x then 1 else 0))%nat.
Proof.
  intros H. rewrite (firstn_snoc _ _ _ H), occurrences_app.
  unfold occurrences. cbn [count_occ].
  destruct (Z.eq_dec a x); lia.
Qed.

Lemma ascending_firstn_le (l : list Z) (n : nat) (a : Z) :
  ascending l -> nth_error l n = Some a ->
  forall y, In y (firstn (S n) l) -> y <= a.
Proof.
  intros Hl Hn y Hy. apply In_nth_error in Hy. destruct Hy as [k Hk].
  assert (Hlt : (k < S n)%nat).
  { assert (Hlen : (k < length (firstn (S n) l))%nat)
      by (apply nth_error_Some; congruence).
    rewrite length_firstn in Hlen. lia. }
  rewrite nth_error_firstn in Hk.
  destruct (Nat.ltb_spec k (S n)); [|lia].
  apply (ascending_nth l k n); (assumption || lia).
Qed.

Lemma occurrences_beyond (l : list Z) (n : nat) (a x : Z) :
  ascending l -> nth_error l n = Some a -> a < x ->
  occurrences (firstn (S n) l) x = 0%nat.
Proof.
  intros Hl Hn Hx. apply occurrences_above. intros y Hy.
  pose proof (ascending_firstn_le l n a Hl Hn y Hy). lia.
Qed.

Lemma occurrences_last (l : list Z) (n : nat) (a : Z) :
  nth_error l n = Some a -> (1 <= occurrences (firstn (S n) l) a)%nat.
Proof.
  intros H. rewrite (occurrences_firstn_S l n a a H).
  destruct (Z.eq_dec a a); [lia|contradiction].
Qed.

Section AscentChanges.
Context {L : DiveLib}.
Variables (d : dive) (po2 avg_depth bottom_time : Z).
Variables (stoplevels : list Z) (changes : list gaschanges).
Variables (cyl0 : Z) (gas0 : gasmix).

(** At a stop: either the pending change is at this depth and is taken, or
    nothing happens. *)
Lemma gas_change_effect (s : pstate) (level : Z) :
  rd stoplevels (p_stopidx s) = Some level ->
  -1 <= p_gi s < Z.of_nat (length changes) ->
  exists s',
    gas_change d po2 stoplevels changes s = Some s'
    /\ p_stopidx s' = p_stopidx s
    /\ ((exists g,
           nth_error changes (Z.to_nat (p_gi s)) = Some g
           /\ 0 <= p_gi s /\ level = gc_depth g
           /\ p_gi s' = p_gi s - 1
           /\ p_current_cylinder s' = gasidx g
           /\ p_gas s' = cyl_gasmix (cyl_at d (gasidx g)))
        \/ (p_gi s' = p_gi s
            /\ p_current_cylinder s' = p_current_cylinder s
            /\ p_gas s' = p_gas s
            /\ (p_gi s = -1
                \/ exists g,
                     nth_error changes (Z.to_nat (p_gi s)) = Some g
                     /\ 0 <= p_gi s /\ level <> gc_depth g))).
Proof.
  intros Hrd Hgi. unfold gas_change. rewrite Hrd.
  destruct (Z.geb_spec (p_gi s) 0) as [H0|H0].
  - destruct (nth_error_in_range changes (Z.to_nat (p_gi s))) as [g Hg];
      [lia|].
    assert (Hrg : rd changes (p_gi s) = Some g).
    { unfold rd. destruct (Z.ltb_spec (p_gi s) 0); [lia|exact Hg]. }
    rewrite Hrg. cbn [obind].
    destruct (Z.eqb_spec level (gc_depth g)) as [E|E].
    + eexists. split; [reflexivity|]. cbn. split; [reflexivity|].
      left. exists g. repeat split; (assumption || lia || reflexivity).
    + exists s. split; [reflexivity|]. split; [reflexivity|].
      right. repeat (split; [reflexivity|]). right. exists g.
      repeat split; (assumption || lia).
  - exists s. split; [reflexivity|]. split; [reflexivity|].
    right. repeat (split; [reflexivity|]). left. lia.
Qed.

(** One stop further up: the stops that are left still cover the changes
    that are left. *)
Lemma stops_cover_next (stopidx gi gi' level : Z) :
  ascending stoplevels -> ascending (map gc_depth changes) ->
  0 < stopidx -> 0 < level ->
  nth_error stoplevels (Z.to_nat stopidx) = Some level ->
  -1 <= gi < Z.of_nat (length changes) ->
  stops_cover stoplevels changes stopidx gi ->
  ((exists g, nth_error changes (Z.to_nat gi) = Some g
              /\ 0 <= gi /\ level = gc_depth g /\ gi' = gi - 1)
   \/ (gi' = gi
       /\ (gi = -1
           \/ exists g, nth_error changes (Z.to_nat gi) = Some g
                        /\ 0 <= gi /\ level <> gc_depth g))) ->
  stops_cover stoplevels changes (stopidx - 1) gi'.
Proof.
  intros Hs Hc Hidx Hlev Hn Hgi Hcover Hcase x Hx.
  specialize (Hcover x Hx) as Hcx.
  replace (Z.to_nat (stopidx - 1 + 1)) with (Z.to_nat stopidx) by lia.
  replace (Z.to_nat (stopidx + 1)) with (S (Z.to_nat stopidx)) in * by lia.
  rewrite (occurrences_firstn_S stoplevels _ level x Hn) in Hcx.
  destruct Hcase as [(g & Hg & H0 & El & ->)|(-> & Hno)].
  - replace (Z.to_nat (gi - 1 + 1)) with (Z.to_nat gi) by lia.
    replace (Z.to_nat (gi + 1)) with (S (Z.to_nat gi)) in * by lia.
    assert (Hgc : nth_error (map gc_depth changes) (Z.to_nat gi)
                  = Some (gc_depth g))
      by (rewrite nth_error_map, Hg; reflexivity).
    rewrite (occurrences_firstn_S _ _ _ x Hgc) in Hcx.
    rewrite <- El in Hcx. destruct (Z.eq_dec level x); lia.
  - destruct (Z.eq_dec level x) as [E|E]; [subst x|lia].
    destruct Hno as [->|(g & Hg & H0 & Hne)].
    + cbn. unfold occurrences. cbn. lia.
    + replace (Z.to_nat (gi + 1)) with (S (Z.to_nat gi)) in * by lia.
      assert (Hgc : nth_error (map gc_depth changes) (Z.to_nat gi)
                    = Some (gc_depth g))
        by (rewrite nth_error_map, Hg; reflexivity).
      destruct (Z.lt_total (gc_depth g) level) as [Hlt|[Heq|Hgt]];
        [|congruence|].
      * rewrite (occurrences_beyond _ _ _ level Hc Hgc Hlt). lia.
      * exfalso.
        assert (Hg0 : gc_depth g <> 0) by lia.
        specialize (Hcover (gc_depth g) Hg0).
        replace (Z.to_nat (gi + 1)) with (S (Z.to_nat gi)) in Hcover by lia.
        replace (Z.to_nat (stopidx + 1)) with (S (Z.to_nat stopidx))
          in Hcover by lia.
        pose proof (occurrences_last _ _ _ Hgc) as H1.
        rewrite (occurrences_beyond stoplevels _ level (gc_depth g) Hs Hn Hgt)
          in Hcover.
        lia.
Qed.

(** An ascent that returns has taken every gas change above the surface,
    the deepest first, and ends on the gas of the shallowest of them. *)
Lemma ascent_loop_changes (fuel : nat) :
  ascending stoplevels -> Forall (fun x => 0 <= x) stoplevels ->
  ascending (map gc_depth changes) ->
  (exists z, rd stoplevels 0 = Some z /\ z <= 0) ->
  Z.of_nat (length stoplevels) <= 2 ^ 32 ->
  forall s,
    0 <= p_stopidx s < Z.of_nat (length stoplevels) ->
    -1 <= p_gi s < Z.of_nat (length changes) ->
    stops_cover stoplevels changes (p_stopidx s) (p_gi s) ->
    gas_in_use d changes cyl0 gas0 (p_gi s) (p_current_cylinder s) (p_gas s) ->
    let r := ascent_loop d po2 avg_depth bottom_time stoplevels changes fuel
               s in
    fst r = Returned ->
    -1 <= p_gi (snd r)
    /\ Forall (fun g => gc_depth g <= 0)
         (firstn (Z.to_nat (p_gi (snd r) + 1)) changes)
    /\ gas_in_use d changes cyl0 gas0 (p_gi (snd r))
         (p_current_cylinder (snd r)) (p_gas (snd r)).
Proof.
  intros Hasc Hpos Hc (z0 & Hz0 & Hle0) Hsize.
  induction fuel as [|fuel IH]; intros s Hidx Hgi Hcover Hgas; cbn zeta;
    cbn [ascent_loop]; [discriminate|].
  destruct (nth_error_in_range stoplevels (Z.to_nat (p_stopidx s)))
    as [level Hn]; [lia|].
  assert (Hrd : rd stoplevels (p_stopidx s) = Some level).
  { unfold rd. destruct (Z.ltb_spec (p_stopidx s) 0); [lia|exact Hn]. }
  destruct (ascend_spec d po2 avg_depth bottom_time stoplevels (S fuel) s
              level Hrd) as (_ & B1 & B2 & B3 & B4 & _ & Hret & _).
  destruct (ascend d po2 avg_depth bottom_time stoplevels (S fuel) s)
    as [st s1].
  cbn [fst snd] in *.
  destruct st; try discriminate.
  destruct (Hret eq_refl) as (Hdepth & _).
  destruct (Z.leb_spec (p_depth s1) 0) as [Hsurf|Hdeep].
  - (* at the surface *)
    cbn [fst snd]. intros _. rewrite B2, B3, B4.
    split; [lia|]. split; [|exact Hgas].
    apply Forall_forall. intros g Hg.
    destruct (Z.le_gt_cases (gc_depth g) 0) as [Hle|Hgt]; [exact Hle|].
    exfalso.
    assert (Hg0 : gc_depth g <> 0) by lia.
    specialize (Hcover (gc_depth g) Hg0).
    replace (Z.to_nat (p_stopidx s + 1)) with (S (Z.to_nat (p_stopidx s)))
      in Hcover by lia.
    rewrite (occurrences_beyond stoplevels _ level (gc_depth g) Hasc Hn)
      in Hcover by lia.
    assert (Hin : In (gc_depth g)
                    (firstn (Z.to_nat (p_gi s + 1)) (map gc_depth changes))).
    { rewrite firstn_map. now apply in_map. }
    unfold occurrences in Hcover.
    apply (count_occ_In Z.eq_dec) in Hin. lia.
  - assert (Hrd1 : rd stoplevels (p_stopidx s1) = Some level)
      by now rewrite B1.
    destruct (gas_change_effect s1 level Hrd1 ltac:(lia))
      as (s2 & Eg & G1 & Hcase).
    rewrite Eg.
    assert (Hpos1 : 0 < p_stopidx s).
    { destruct (Z.eq_dec (p_stopidx s) 0) as [E0|E0]; [|lia].
      rewrite E0, Hz0 in Hrd. injection Hrd as <-. lia. }
    assert (Hu : uint (p_stopidx s2 - 1) = p_stopidx s - 1).
    { unfold uint. rewrite G1, B1. apply Z.mod_small. lia. }
    rewrite Hu.
    assert (Hnext : -1 <= p_gi s2 < Z.of_nat (length changes)
                    /\ stops_cover stoplevels changes (p_stopidx s - 1)
                         (p_gi s2)
                    /\ gas_in_use d changes cyl0 gas0 (p_gi s2)
                         (p_current_cylinder s2) (p_gas s2)).
    { rewrite B2 in Hcase.
      split; [destruct Hcase as [(g & _ & ? & _ & -> & _)|(-> & _)]; lia|].
      split.
      - apply (stops_cover_next (p_stopidx s) (p_gi s) (p_gi s2) level);
          try assumption; try lia.
        destruct Hcase as [(g & Hg & H0 & El & Egi & _)|(Egi & _ & _ & Hno)].
        + left. exists g. auto.
        + right. split; [exact Egi|exact Hno].
      - destruct Hcase as [(g & Hg & H0 & El & Egi & Ecyl & Egas)
                          |(Egi & Ecyl & Egas & _)].
        + unfold gas_in_use. rewrite Egi.
          replace (Z.to_nat (p_gi s - 1 + 1)) with (Z.to_nat (p_gi s))
            by lia.
          rewrite Hg. repeat split; (assumption || lia).
        + rewrite Egi, Ecyl, Egas, B3, B4. exact Hgas. }
    destruct Hnext as (N1 & N2 & N3).
    match goal with
    | |- context [deco_stop _ _ _ _ _ _ ?x] => set (s3 := x)
    end.
    assert (H3 : p_stopidx s3 = p_stopidx s - 1 /\ p_gi s3 = p_gi s2
                 /\ p_current_cylinder s3 = p_current_cylinder s2
                 /\ p_gas s3 = p_gas s2)
      by (subst s3; cbn; auto).
    clearbody s3. destruct H3 as (H3 & H3g & H3c & H3m).
    destruct (deco_stop_frame d po2 avg_depth bottom_time stoplevels
                (fun _ => True) ltac:(auto) (S fuel) s3)
      as (_ & D2 & D3 & D4 & D5 & _).
    cbn zeta in D2, D3, D4, D5.
    destruct (deco_stop d po2 avg_depth bottom_time stoplevels (S fuel) s3)
      as [st s4].
    cbn [fst snd] in *.
    destruct st; try discriminate.
    match goal with
    | |- context [ascent_loop _ _ _ _ _ _ fuel ?x] => set (s5 := x)
    end.
    assert (H5 : p_stopidx s5 = p_stopidx s4 /\ p_gi s5 = p_gi s4
                 /\ p_current_cylinder s5 = p_current_cylinder s4
                 /\ p_gas s5 = p_gas s4).
    { subst s5. destruct (p_stopping s4); cbn; repeat split; auto. }
    clearbody s5. destruct H5 as (E5 & E5g & E5c & E5m).
    apply IH.
    + lia.
    + lia.
    + rewrite E5, E5g, D2, D3, H3, H3g. exact N2.
    + rewrite E5g, E5c, E5m, D3, D4, D5, H3g, H3c, H3m. exact N3.
Qed.

End AscentChanges.

Lemma positive_changes (changes : list gaschanges) (k : nat) :
  ascending (map gc_depth changes) ->
  Forall (fun g => gc_depth g <= 0) (firstn k changes) ->
  (forall g, nth_error changes k = Some g -> 0 < gc_depth g) ->
  filter (fun g => 0 <? gc_depth g) changes = skipn k changes.
Proof.
  intros Hasc Hlow Hk.
  rewrite <- (firstn_skipn k changes) at 1. rewrite filter_app.
  assert (E1 : filter (fun g => 0 <? gc_depth g) (firstn k changes) = []).
  { clear Hk. induction Hlow as [|g l Hg Hl IH]; cbn [filter];
      [reflexivity|].
    destruct (Z.ltb_spec 0 (gc_depth g)); [lia|exact IH]. }
  rewrite E1. cbn [app].
  assert (E2 : Forall (fun g => 0 < gc_depth g) (skipn k changes)).
  { apply Forall_forall. intros g Hg.
    apply In_nth_error in Hg. destruct Hg as [j Hj].
    rewrite nth_error_skipn in Hj.
    destruct (nth_error_in_range changes k) as [g0 Hg0].
    { assert ((k + j < length changes)%nat)
        by (apply nth_error_Some; congruence).
      lia. }
    specialize (Hk g0 Hg0).
    assert (gc_depth g0 <= gc_depth g).
    { apply (ascending_nth (map gc_depth changes) k (k + j));
        [assumption|lia| |];
        rewrite nth_error_map; [now rewrite Hg0|now rewrite Hj]. }
    lia. }
  induction E2 as [|g l Hg Hl IH]; cbn [filter]; [reflexivity|].
  destruct (Z.ltb_spec 0 (gc_depth g)); [now rewrite IH|lia].
Qed.

(** The stops that [sort_stops] returns cover the gas changes. *)
Lemma sort_stops_covers (levels : list Z) (dnr : Z)
    (changes : list gaschanges) (stoplevels : list Z) :
  ascending levels -> 1 <= dnr <= Z.of_nat (length levels) ->
  ascending (map gc_depth changes) ->
  sort_stops levels dnr changes (Z.of_nat (length changes))
  = Some stoplevels ->
  stops_cover stoplevels changes (Z.of_nat (length stoplevels) - 1)
    (Z.of_nat (length changes) - 1).
Proof.
  intros Ha Hdnr Hc Es x Hx.
  rewrite sort_stops_spec in Es by lia. injection Es as <-.
  replace (Z.to_nat (Z.of_nat (length changes) - 1 + 1))
    with (length changes) by lia.
  match goal with
  | |- context [Z.to_nat (Z.of_nat (length ?l) - 1 + 1)] =>
      replace (Z.to_nat (Z.of_nat (length l) - 1 + 1)) with (length l) by lia
  end.
  rewrite <- (length_map gc_depth changes) at 1.
  rewrite !firstn_all.
  assert (Eg : change_depths changes (Z.of_nat (length changes))
               = map gc_depth changes).
  { unfold change_depths. rewrite Nat2Z.id. now rewrite firstn_all. }
  rewrite Eg, occurrences_padded, occurrences_rev by assumption.
  destruct (merge_common_occurrences x (rev (fixed_depths levels dnr))
              (rev (map gc_depth changes))) as [-> _].
  - apply descending_rev. unfold fixed_depths. now apply ascending_firstn.
  - now apply descending_rev.
  - rewrite !occurrences_rev. lia.
Qed.

Section PlanChanges.
Context {L : DiveLib}.

(** The gas changes that [analyze_gaslist] finds do not depend on the
    cylinder in use. *)
Lemma analyze_gaslist_loop_any_cylinder (d : dive) (depth : Z)
    (l : list divedatapoint) :
  forall changes best asc best' asc',
    option_map fst (analyze_gaslist_loop l d depth changes best asc)
    = option_map fst (analyze_gaslist_loop l d depth changes best' asc').
Proof.
  induction l as [|p next IH]; intros changes best asc best' asc';
    cbn [analyze_gaslist_loop]; [reflexivity|].
  destruct (dp_time p =? 0); [|apply IH].
  destruct (dp_depth p <=? depth).
  - destruct (get_gasidx d (dp_gasmix p) =? -1); [reflexivity|apply IH].
  - destruct (dp_depth p <? best); destruct (dp_depth p <? best'); apply IH.
Qed.

Lemma analyze_gaslist_any_cylinder (plan : diveplan) (d : dive)
    (depth c1 c2 : Z) (chs1 chs2 : list gaschanges) (nr1 nr2 b1 b2 : Z) :
  analyze_gaslist plan d depth c1 = Some (chs1, nr1, b1) ->
  analyze_gaslist plan d depth c2 = Some (chs2, nr2, b2) ->
  chs1 = chs2.
Proof.
  unfold analyze_gaslist. intros H1 H2.
  pose proof (analyze_gaslist_loop_any_cylinder d depth (dp plan) []
                (cyl_depth_mm (cyl_at d c1)) c1
                (cyl_depth_mm (cyl_at d c2)) c2) as E.
  destruct (analyze_gaslist_loop (dp plan) d depth [] _ c1) as [[x1 a1]|];
    [|discriminate].
  destruct (analyze_gaslist_loop (dp plan) d depth [] _ c2) as [[x2 a2]|];
    [|discriminate].
  cbn in *. congruence.
Qed.

Lemma plan_with_cylinder_final_gas (fuel : nat) (levels : list Z)
    (plan0 : diveplan) (cached_datap : option snapshot) (d master_dive : dive)
    (show_disclaimer : bool) (ds : deco_state) (table : dive_table_t)
    (gas : gasmix) (current_cylinder : Z) (log : list report)
    (chs : list gaschanges) (nr best : Z) (g : gaschanges)
    (rest : list gaschanges) :
  hd_error levels = Some 0 -> ascending levels ->
  Z.of_nat (length levels) + Z.of_nat (length (dp plan0)) <= 2 ^ 32 ->
  Forall (fun p => 0 <= dp_depth p) (dp plan0) ->
  0 <= s_depth (last_sample d) ->
  analyze_gaslist plan0 d (s_depth (last_sample d)) current_cylinder
  = Some (chs, nr, best) ->
  filter (fun g => 0 <? gc_depth g) chs = g :: rest ->
  let out := plan_with_cylinder fuel levels plan0 cached_datap d master_dive
               true show_disclaimer ds table gas current_cylinder log in
  o_status out = Returned ->
  dp_gasmix (last (dp (o_diveplan out)) placeholder_dp)
  = cyl_gasmix (cyl_at d (gasidx g)).
Proof.
  intros Hhd Ha Hsize Hdepths Hstart Hchs Hpos. cbn zeta.
  unfold plan_with_cylinder. cbn [negb].
  destruct (tissue_at_end (Some d) cached_datap ds log)
    as [[[tissue_tolerance cached'] ds'] log'].
  set (depth := s_depth (last_sample d)) in *.
  rewrite Hchs.
  unfold analyze_gaslist in Hchs.
  destruct (analyze_gaslist_loop (dp plan0) d depth []
              (cyl_depth_mm (cyl_at d current_cylinder)) current_cylinder)
    as [[chs' best']|] eqn:E; cbn [obind] in Hchs; [|discriminate].
  injection Hchs as -> <- ->.
  destruct (analyze_gaslist_loop_changes _ _ _ _ _ _ _ _ E) as (Hp & Hs & _).
  rewrite app_nil_r in Hp.
  assert (Hlen : (length chs <= length (dp plan0))%nat).
  { rewrite (Permutation_length Hp), length_map. apply filter_length_le. }
  assert (Hcd : Forall (fun x => 0 <= x <= depth) (map gc_depth chs)).
  { apply Forall_forall. intros x Hx.
    apply in_map_iff in Hx. destruct Hx as (c & <- & Hc).
    apply (Permutation_in _ Hp) in Hc.
    apply in_map_iff in Hc. destruct Hc as (p & <- & Hin).
    apply filter_In in Hin. destruct Hin as [Hin Hc].
    apply andb_true_iff in Hc. destruct Hc as [_ Hc]. apply Z.leb_le in Hc.
    rewrite Forall_forall in Hdepths. specialize (Hdepths p Hin).
    cbn. lia. }
  pose proof (Hs ltac:(constructor)) as Hasc_c.
  destruct (sort_stops_for_ascent levels depth chs Hhd Ha Hstart Hasc_c Hcd)
    as (stoplevels & Es & Hsl & Hz & Hasc & Hrange).
  cbn zeta in Es, Hsl.
  set (stopidx0 := find_stop levels 0 depth) in *.
  set (stopidx := if stopidx0 >? 0 then stopidx0 - 1 else stopidx0) in *.
  pose proof (find_stop_bounds levels depth 0) as Hb. fold stopidx0 in Hb.
  assert (Hne : (0 < length levels)%nat)
    by (destruct levels; [discriminate|cbn; lia]).
  assert (Hidx : 0 <= stopidx < Z.of_nat (length levels))
    by (subst stopidx; destruct (Z.gtb_spec stopidx0 0); lia).
  pose proof (sort_stops_covers levels (stopidx + 1) chs stoplevels Ha
                ltac:(lia) Hasc_c Es) as Hcover.
  rewrite Es.
  assert (Hu : uint (stopidx + Z.of_nat (length chs))
               = Z.of_nat (length stoplevels) - 1)
    by (unfold uint; rewrite Z.mod_small; lia).
  rewrite Hu.
  destruct (if negb (best =? current_cylinder)
            then (true, best, cyl_gasmix (cyl_at d best))
            else (false, current_cylinder, gas)) as [[stopping cyl'] gas'].
  match goal with
  | |- context [ascent_loop ?a ?b ?c ?e ?f ?h fuel ?s0] =>
      pose proof (ascent_loop_changes a b c e f h cyl' gas' fuel Hasc
                    ltac:(eapply Forall_impl; [|exact Hrange]; cbn; intros; lia)
                    Hasc_c Hz ltac:(lia) s0
                    ltac:(cbn; lia) ltac:(cbn; lia) Hcover) as Hloop;
      destruct (ascent_loop a b c e f h fuel s0) as [st s]
  end.
  cbn [fst snd p_gi p_current_cylinder p_gas] in Hloop.
  assert (Hstart_gas : gas_in_use d chs cyl' gas'
                         (Z.of_nat (length chs) - 1) cyl' gas').
  { unfold gas_in_use.
    replace (Z.to_nat (Z.of_nat (length chs) - 1 + 1)) with (length chs)
      by lia.
    assert (E0 : nth_error chs (length chs) = None)
      by (apply nth_error_None; lia).
    rewrite E0. auto. }
  specialize (Hloop Hstart_gas).
  destruct st; try discriminate.
  destruct (Hloop eq_refl) as (Hgi & Hlow & Hfinal).
  destruct (create_dive_from_plan _ master_dive log') as [[dv' m'] lg''].
  cbn [o_diveplan o_status]. intros _.
  destruct (plan_add_segment_absolute_time_aux (p_diveplan s)
              (p_clock s - p_previous_point_time s) 0 (p_gas s)
              (s_po2 (last_sample d)) false) as [-> _].
  rewrite last_last. cbn [dp_gasmix].
  pose proof (positive_changes chs (Z.to_nat (p_gi s + 1)) Hasc_c Hlow) as Hf.
  unfold gas_in_use in Hfinal.
  destruct (nth_error chs (Z.to_nat (p_gi s + 1))) as [g1|] eqn:En.
  - destruct Hfinal as (Hg1 & _ & ->).
    rewrite Hf in Hpos by (intros g2 [= <-]; exact Hg1).
    assert (Ehd : hd_error (skipn (Z.to_nat (p_gi s + 1)) chs) = Some g1).
    { rewrite <- En. rewrite <- (Nat.add_0_r (Z.to_nat (p_gi s + 1))) at 2.
      rewrite <- nth_error_skipn. now destruct (skipn _ chs). }
    rewrite Hpos in Ehd. cbn in Ehd. congruence.
  - rewrite Hf in Hpos by (intros g2; discriminate).
    apply nth_error_None in En.
    rewrite skipn_all2 in Hpos by exact En. discriminate.
Qed.

Lemma analyze_gaslist_same_changes (plan plan' : diveplan) (d : dive)
    (depth c1 c2 : Z) (chs : list gaschanges) (nr b1 : Z) :
  analyze_gaslist plan d depth c1 = Some (chs, nr, b1) ->
  dp plan' = dp plan ->
  exists b2, analyze_gaslist plan' d depth c2 = Some (chs, nr, b2).
Proof.
  unfold analyze_gaslist. intros H1 ->.
  pose proof (analyze_gaslist_loop_any_cylinder d depth (dp plan) []
                (cyl_depth_mm (cyl_at d c1)) c1
                (cyl_depth_mm (cyl_at d c2)) c2) as E.
  destruct (analyze_gaslist_loop (dp plan) d depth [] _ c1) as [[x1 a1]|];
    [|discriminate].
  destruct (analyze_gaslist_loop (dp plan) d depth [] _ c2) as [[x2 a2]|];
    [|discriminate].
  cbn in *. injection E as <-. injection H1 as <- <- <-. now exists a2.
Qed.

End PlanChanges.

(** X23.  A planned ascent that returns ends on the gas of the shallowest
    gas change that [analyze_gaslist] found above the surface: with a table
    of stop levels that ascends from 0, no way point at a negative depth and
    fewer than 2^32 levels and way points together, if the array of gas
    changes that [analyze_gaslist] fills for the dive made from the plan
    (ascending in depth) has an entry at a depth above 0, then the last way
    point of a run with decompression whose status is [Returned] carries the
    gas mix of the cylinder of the first such entry. *)
Theorem plan_surfaces_on_shallowest_change {L : DiveLib} (fuel : nat)
    (levels : list Z) (diveplan0 : diveplan) (cached_datap : option snapshot)
    (divep : option dive) (master_dive : dive) (show_disclaimer : bool)
    (ds : deco_state) (table : dive_table_t) (log : list report) (d : dive)
    (cyl : Z) (chs : list gaschanges) (nr best : Z) (g : gaschanges)
    (rest : list gaschanges) :
  hd_error levels = Some 0 -> ascending levels ->
  Z.of_nat (length levels) + Z.of_nat (length (dp diveplan0)) <= 2 ^ 32 ->
  Forall (fun p => 0 <= dp_depth p) (dp diveplan0) ->
  fst (fst (create_dive_from_plan (default_surface_pressure diveplan0)
              master_dive log)) = Some d ->
  analyze_gaslist diveplan0 d (s_depth (last_sample d)) cyl
  = Some (chs, nr, best) ->
  filter (fun g => 0 <? gc_depth g) chs = g :: rest ->
  let out := plan fuel levels diveplan0 cached_datap divep master_dive true
               show_disclaimer ds table log in
  o_status out = Returned ->
  dp_gasmix (last (dp (o_diveplan out)) placeholder_dp)
  = cyl_gasmix (cyl_at d (gasidx g)).
Proof.
  intros Hhd Ha Hsize Hdepths Hd Hchs Hpos. cbn zeta. unfold plan.
  set (plan0 := default_surface_pressure diveplan0) in *.
  assert (Edp : dp plan0 = dp diveplan0)
    by apply default_surface_pressure_dp.
  pose proof (create_dive_from_plan_last_sample plan0 master_dive log d Hd)
    as (q & Hq & _ & Hqd & _).
  assert (Hstart : 0 <= s_depth (last_sample d)).
  { rewrite Hqd. apply last_segment_In in Hq. destruct Hq as [Hin _].
    rewrite Edp in Hin. rewrite Forall_forall in Hdepths. now apply Hdepths. }
  destruct (create_dive_from_plan plan0 master_dive log) as [[dv m] lg].
  cbn [fst] in Hd. subst dv.
  assert (Hw : forall table' gas cyl' lg',
            o_status
              (plan_with_cylinder fuel levels plan0 cached_datap d m true
                 show_disclaimer
                 (set_gf (gflow diveplan0) (gfhigh diveplan0)
                    gf_low_at_maxdepth ds) table' gas cyl' lg') = Returned ->
            dp_gasmix
              (last (dp (o_diveplan
                           (plan_with_cylinder fuel levels plan0 cached_datap
                              d m true show_disclaimer
                              (set_gf (gflow diveplan0) (gfhigh diveplan0)
                                 gf_low_at_maxdepth ds) table' gas cyl' lg')))
                 placeholder_dp)
            = cyl_gasmix (cyl_at d (gasidx g))).
  { intros table' gas cyl' lg'.
    destruct (analyze_gaslist_same_changes diveplan0 plan0 d
                (s_depth (last_sample d)) cyl cyl' chs nr best Hchs Edp)
      as [b2 Hchs'].
    apply (plan_with_cylinder_final_gas fuel levels plan0 cached_datap d m
             show_disclaimer _ table' gas cyl' lg' chs nr b2 g rest);
      try assumption; now rewrite Edp. }
  destruct (get_gasidx d _ =? -1); apply Hw.
Qed.

(** On [plan_40m] the change to EAN50 at 21 m is taken and the dive ends on
    EAN50. *)
Lemma plan_surfaces_on_shallowest_change_witness :
  hd_error decostoplevels = Some 0
  /\ ascending decostoplevels
  /\ Z.of_nat (length decostoplevels) + Z.of_nat (length (dp plan_40m))
     <= 2 ^ 32
  /\ Forall (fun p => 0 <= dp_depth p) (dp plan_40m)
  /\ fst (fst (create_dive_from_plan (L := lib_two_cylinders)
                 (default_surface_pressure plan_40m) two_cylinders []))
     = Some dive_40m
  /\ analyze_gaslist (L := lib_two_cylinders) plan_40m dive_40m
       (s_depth (last_sample (L := lib_two_cylinders) dive_40m)) 0
     = Some ([mk_gaschanges 21000 1], 1, 0)
  /\ filter (fun g => 0 <? gc_depth g) [mk_gaschanges 21000 1]
     = [mk_gaschanges 21000 1]
  /\ o_status
       (plan (L := lib_two_cylinders) 3000 decostoplevels plan_40m None None
          two_cylinders true false tt 0 []) = Returned
  /\ dp_gasmix
       (last (dp (o_diveplan
                    (plan (L := lib_two_cylinders) 3000 decostoplevels
                       plan_40m None None two_cylinders true false tt 0 [])))
          placeholder_dp)
     = ean50.
Proof.
  assert (H1 : hd_error decostoplevels = Some 0) by reflexivity.
  assert (H2 : ascending decostoplevels) by by_computation.
  assert (H3 : Z.of_nat (length decostoplevels)
               + Z.of_nat (length (dp plan_40m)) <= 2 ^ 32)
    by by_computation.
  assert (H4 : Forall (fun p => 0 <= dp_depth p) (dp plan_40m))
    by by_computation.
  assert (H5 : fst (fst (create_dive_from_plan (L := lib_two_cylinders)
                           (default_surface_pressure plan_40m) two_cylinders
                           [])) = Some dive_40m) by reflexivity.
  assert (H6 : analyze_gaslist (L := lib_two_cylinders) plan_40m dive_40m
                 (s_depth (last_sample (L := lib_two_cylinders) dive_40m)) 0
               = Some ([mk_gaschanges 21000 1], 1, 0)) by reflexivity.
  assert (H7 : filter (fun g => 0 <? gc_depth g) [mk_gaschanges 21000 1]
               = [mk_gaschanges 21000 1]) by reflexivity.
  assert (H8 : o_status
                 (plan (L := lib_two_cylinders) 3000 decostoplevels plan_40m
                    None None two_cylinders true false tt 0 []) = Returned)
    by (vm_compute; reflexivity).
  repeat (split; [assumption|]).
  exact (plan_surfaces_on_shallowest_change (L := lib_two_cylinders) 3000
           decostoplevels plan_40m None None two_cylinders false tt 0 []
           dive_40m 0 [mk_gaschanges 21000 1] 1 0 (mk_gaschanges 21000 1) []
           H1 H2 H3 H4 H5 H6 H7 H8).
Defined.
